(** * The module registry of the VM: [classfile/modules.cpp]

    A shallow embedding of [Modules::define_module], [add_module_exports],
    [add_reads_module], [can_read_module], [is_exported_to_module],
    [get_module] and [add_module_package], together with the static helpers
    of the same file, followed by the properties of these operations.

    Conventions of the embedding.
    - A JNI handle is an [option]: [None] is the C++ [NULL].
    - A [Symbol*] is the interned string itself: two equal names are the same
      symbol, so pointer comparison of symbols is string equality.
    - A [ModuleEntry*] (resp. [PackageEntry*]) is the place of the entry in
      the registry: the loader whose table holds it and the name under which
      the table holds it.  Entries are never removed from a table and a table
      holds a name at most once, so two such pointers are equal exactly when
      these two components are.
    - Every operation is a function from the state of the VM to an outcome and
      the next state.  An outcome is a normal return, a pending
      [java.lang.IllegalArgumentException] (the macros [THROW_MSG*]), or a
      fault: an access through a null or dangling pointer.
    - [assert] is compiled out, as in a product build; what the assertions
      of [define_module] state of its last loop is proved of the model.
    - [MutexLocker ml(Module_lock)] serialises the operations; the embedding
      is of one thread, the lock has no counterpart in it.
    - The classes [ModuleEntry], [PackageEntry] and their tables are declared
      in moduleEntry.hpp and packageEntry.hpp; their methods are modelled from
      the specification, each under a comment that says so.  A failure of
      allocation in the runtime (the [CHECK] after [new_symbol], [create],
      [register_loader]) is not modelled. *)

From stdpp Require Import gmap strings list fin_maps pretty.

Local Open Scope string_scope.

(** ** Values of the host runtime *)

(** A class loader: [None] is the boot loader (a null [oop]), [Some n] the
    instance number [n] of a subclass of [java.lang.ClassLoader]. *)
Abbreviation Loader := (option nat).

Abbreviation Symbol := string.

(** An instance of [java.lang.reflect.Module], with the two fields the VM
    reads back from it. *)
Record jlrModule := mk_jlrModule {
  module_id : nat;
  module_loader : Loader;
  module_name : string
}.

#[global] Instance jlrModule_eq_dec : EqDecision jlrModule.
Proof. solve_decision. Defined.

(** The Java objects the operations are handed. *)
Inductive oop :=
| Module_oop (m : jlrModule)
| ClassLoader_oop (n : nat)
| String_oop (s : string)
| Object_oop (n : nat).

#[global] Instance oop_eq_dec : EqDecision oop.
Proof. solve_decision. Defined.

Abbreviation jobject := (option oop).
Abbreviation jstring := (option string).
Abbreviation jobjectArray := (option (list (option oop))).

(** ** Entries and tables ([moduleEntry.hpp], [packageEntry.hpp]) *)

Abbreviation ModuleEntryPtr := (Loader * Symbol)%type.
Abbreviation PackageEntryPtr := (Loader * Symbol)%type.

Record ModuleEntry := mk_ModuleEntry {
  me_name : Symbol;
  me_module : jlrModule;
  me_loader : Loader;
  me_reads : gset ModuleEntryPtr
}.

(** The target of an export is a module entry or, for the unnamed module, the
    null entry. *)
Record PackageEntry := mk_PackageEntry {
  pe_name : Symbol;
  pe_module : ModuleEntryPtr;
  pe_exports : gset (option ModuleEntryPtr);
  pe_unqual_exported : bool
}.

Abbreviation ModuleEntryTable := (list ModuleEntry).
Abbreviation PackageEntryTable := (list PackageEntry).

Record ClassLoaderData := mk_ClassLoaderData {
  modules : ModuleEntryTable;
  packages : PackageEntryTable
}.

(** ** Flags and state of the VM *)

Record Flags := mk_Flags {
  TraceModules : bool;
  TracePackages : bool;
  TraceClassLoading : bool;
  UseModules : bool
}.

Record VM := mk_VM {
  flags : Flags;
  loader_data : gmap Loader ClassLoaderData;
  allocated : nat;
  boot_list : list string;
  tty : list string
}.

(** What the file takes from the rest of the runtime without looking inside:
    the bound on the length of a symbol, the two checks on names, which are
    handed the name and the length that the file has computed for it, and
    what [add_to_boot_loader_list] reads of the command line and the file
    system ([os_file_separator] is the first character of
    [os::file_separator()]); and [err_msg], which formats a message into a
    buffer of a fixed size and is given here the formatted text. *)
Inductive LegalKind := LegalClass | LegalModule.

Class Host := mk_Host {
  Symbol_max_length : nat;
  UTF8_is_legal_utf8 : string -> Z -> bool;
  verify_unqualified_name : string -> Z -> LegalKind -> bool;
  Arguments_override_dir : option string;
  Arguments_get_java_home : string;
  ClassLoader_has_bootmodules_jimage : bool;
  os_stat_ok : string -> bool;
  os_file_separator : Ascii.ascii;
  err_msg : string -> string
}.

(** ** Outcomes and the monad of the operations *)

Inductive Outcome (A : Type) : Type :=
| Normal (a : A)
| IllegalArgumentException (msg : string)
| Fault.

Arguments Normal {A} a.
Arguments IllegalArgumentException {A} msg.
Arguments Fault {A}.

Definition VMop (A : Type) : Type := VM -> Outcome A * VM.

Definition ret {A} (a : A) : VMop A := fun vm => (Normal a, vm).

Definition bind {A B} (c : VMop A) (k : A -> VMop B) : VMop B :=
  fun vm =>
    match c vm with
    | (Normal a, vm') => k a vm'
    | (IllegalArgumentException msg, vm') => (IllegalArgumentException msg, vm')
    | (Fault, vm') => (Fault, vm')
    end.

Notation "'let*' x ':=' c 'in' k" := (bind c (fun x => k))
  (at level 10, x name, c at level 100, k at level 200).
Notation "'run' c 'then' k" := (bind c (fun _ => k))
  (at level 10, c at level 100, k at level 200).

Definition THROW_MSG {A} (msg : string) : VMop A :=
  fun vm => (IllegalArgumentException msg, vm).

Definition fault {A} : VMop A := fun vm => (Fault, vm).

Definition get_flags : VMop Flags := fun vm => (Normal (flags vm), vm).

Definition tty_print_cr (line : string) : VMop unit :=
  fun vm => (Normal tt,
             mk_VM (flags vm) (loader_data vm) (allocated vm) (boot_list vm)
                   (tty vm ++ [line])).

(** [if (flag) tty->print_cr(...)], the arguments of the print being
    evaluated only when the flag is set. *)
Definition trace_if (flag : Flags -> bool) (line : VMop string) : VMop unit :=
  let* fl := get_flags in
  if flag fl then (let* s := line in tty_print_cr s) else ret tt.

Definition BOOL_TO_STR (b : bool) : string := if b then "true" else "false".

(** ** The tables, read and written *)

Definition empty_ClassLoaderData : ClassLoaderData := mk_ClassLoaderData [] [].

(** [ClassLoaderData::modules()] and [::packages()] create the table at the
    first request: a loader that was never met has two empty tables. *)
Definition cld_of (vm : VM) (l : Loader) : ClassLoaderData :=
  default empty_ClassLoaderData (loader_data vm !! l).

Definition modules_of (vm : VM) (l : Loader) : ModuleEntryTable :=
  modules (cld_of vm l).

Definition packages_of (vm : VM) (l : Loader) : PackageEntryTable :=
  packages (cld_of vm l).

Definition set_cld (l : Loader) (c : ClassLoaderData) (vm : VM) : VM :=
  mk_VM (flags vm) (<[l := c]> (loader_data vm)) (allocated vm)
        (boot_list vm) (tty vm).

(** [SystemDictionary::register_loader]: the loader's data, created if the
    loader has none yet. *)
Definition register_loader (l : Loader) : VMop Loader :=
  fun vm =>
    match loader_data vm !! l with
    | Some _ => (Normal l, vm)
    | None => (Normal l, set_cld l empty_ClassLoaderData vm)
    end.

(** Modelled from the spec: [ModuleEntryTable::lookup_only] on a symbol, of
    moduleEntry.cpp, "a read probe" of the table by name. *)
Definition ModuleEntryTable_lookup_only
    (t : ModuleEntryTable) (name : Symbol) : option ModuleEntry :=
  find (fun e => bool_decide (me_name e = name)) t.

(** Modelled from the spec: [ModuleEntryTable::lookup_only] on an oop, of
    moduleEntry.cpp, which looks "up the entry by identity of the reflective
    object (not by name)". *)
Definition ModuleEntryTable_lookup_only_oop
    (t : ModuleEntryTable) (module : option oop) : option ModuleEntry :=
  find (fun e => bool_decide (Some (Module_oop (me_module e)) = module)) t.

(** Modelled from the spec: [PackageEntryTable::lookup_only] on a symbol, of
    packageEntry.cpp, "a read probe" of the table by name. *)
Definition PackageEntryTable_lookup_only
    (t : PackageEntryTable) (name : Symbol) : option PackageEntry :=
  find (fun e => bool_decide (pe_name e = name)) t.

Definition module_entry_at (vm : VM) (p : ModuleEntryPtr) : option ModuleEntry :=
  ModuleEntryTable_lookup_only (modules_of vm p.1) p.2.

Definition package_entry_at (vm : VM) (p : PackageEntryPtr) : option PackageEntry :=
  PackageEntryTable_lookup_only (packages_of vm p.1) p.2.

(** [p->...] on a [ModuleEntry* p]. *)
Definition deref_module (p : option ModuleEntryPtr) : VMop ModuleEntry :=
  fun vm =>
    match p with
    | None => (Fault, vm)
    | Some q =>
        match module_entry_at vm q with
        | Some e => (Normal e, vm)
        | None => (Fault, vm)
        end
    end.

(** [p->...] on a [PackageEntry* p]. *)
Definition deref_package (p : option PackageEntryPtr) : VMop PackageEntry :=
  fun vm =>
    match p with
    | None => (Fault, vm)
    | Some q =>
        match package_entry_at vm q with
        | Some e => (Normal e, vm)
        | None => (Fault, vm)
        end
    end.

Definition ModuleEntry_name (p : option ModuleEntryPtr) : VMop Symbol :=
  let* e := deref_module p in ret (me_name e).

Definition ModuleEntry_loader (p : option ModuleEntryPtr) : VMop Loader :=
  let* e := deref_module p in ret (me_loader e).

Definition PackageEntry_name (p : option PackageEntryPtr) : VMop Symbol :=
  let* e := deref_package p in ret (pe_name e).

Definition PackageEntry_module (p : option PackageEntryPtr) : VMop ModuleEntryPtr :=
  let* e := deref_package p in ret (pe_module e).

(** Modelled from the spec: [PackageEntry::is_unqual_exported] of
    packageEntry.hpp, the "unqualified" attribute of the package. *)
Definition PackageEntry_is_unqual_exported (p : option PackageEntryPtr) : VMop bool :=
  let* e := deref_package p in ret (pe_unqual_exported e).

(** Modelled from the spec: [PackageEntry::is_qexported_to] of
    packageEntry.cpp, membership in the "set of module-entry references
    (qualified targets)" of the package. *)
Definition PackageEntry_is_qexported_to
    (p : option PackageEntryPtr) (m : option ModuleEntryPtr) : VMop bool :=
  let* e := deref_package p in ret (bool_decide (m ∈ pe_exports e)).

(** Modelled from the spec: [ModuleEntry::can_read] of moduleEntry.cpp,
    membership in the "reads" set of the module. *)
Definition ModuleEntry_can_read
    (p : option ModuleEntryPtr) (m : ModuleEntryPtr) : VMop bool :=
  let* e := deref_module p in ret (bool_decide (m ∈ me_reads e)).

Fixpoint update_module (name : Symbol) (f : ModuleEntry -> ModuleEntry)
    (t : ModuleEntryTable) : ModuleEntryTable :=
  match t with
  | [] => []
  | e :: t' =>
      if bool_decide (me_name e = name) then f e :: t'
      else e :: update_module name f t'
  end.

Fixpoint update_package (name : Symbol) (f : PackageEntry -> PackageEntry)
    (t : PackageEntryTable) : PackageEntryTable :=
  match t with
  | [] => []
  | e :: t' =>
      if bool_decide (pe_name e = name) then f e :: t'
      else e :: update_package name f t'
  end.

(** Modelled from the spec: [ModuleEntry::add_read] of moduleEntry.cpp, "add
    to_M to from_M.reads". *)
Definition ModuleEntry_add_read
    (p : option ModuleEntryPtr) (m : ModuleEntryPtr) : VMop unit :=
  let* e := deref_module p in
  fun vm =>
    match p with
    | None => (Fault, vm)
    | Some q =>
        (Normal tt,
         set_cld q.1
           (mk_ClassLoaderData
              (update_module q.2
                 (fun e => mk_ModuleEntry (me_name e) (me_module e) (me_loader e)
                                          ({[ m ]} ∪ me_reads e))
                 (modules_of vm q.1))
              (packages_of vm q.1))
           vm)
    end.

(** Modelled from the spec: [PackageEntry::set_exported] of packageEntry.cpp,
    "add to_M to P.exports", where a null [to_M] is the unnamed module,
    "represented internally by a ⊥ target (not a wildcard-to-all)". *)
Definition PackageEntry_set_exported
    (p : option PackageEntryPtr) (m : option ModuleEntryPtr) : VMop unit :=
  let* e := deref_package p in
  fun vm =>
    match p with
    | None => (Fault, vm)
    | Some q =>
        (Normal tt,
         set_cld q.1
           (mk_ClassLoaderData
              (modules_of vm q.1)
              (update_package q.2
                 (fun e => mk_PackageEntry (pe_name e) (pe_module e)
                                           ({[ m ]} ∪ pe_exports e)
                                           (pe_unqual_exported e))
                 (packages_of vm q.1)))
           vm)
    end.

(** Modelled from the spec: [ModuleEntryTable::locked_create_entry_or_null] of
    moduleEntry.cpp, "an insert that returns null if a same-key entry already
    exists".  The new module reads nothing yet. *)
Definition ModuleEntryTable_locked_create_entry_or_null
    (table : Loader) (module : jlrModule) (name : Symbol) (loader : Loader)
    : VMop (option ModuleEntryPtr) :=
  fun vm =>
    match ModuleEntryTable_lookup_only (modules_of vm table) name with
    | Some _ => (Normal None, vm)
    | None =>
        (Normal (Some (table, name)),
         set_cld table
           (mk_ClassLoaderData
              (mk_ModuleEntry name module loader ∅ :: modules_of vm table)
              (packages_of vm table))
           vm)
    end.

(** Modelled from the spec: [PackageEntryTable::locked_create_entry_or_null]
    of packageEntry.cpp, "an insert that returns null if a same-key entry
    already exists".  The new package is exported to nobody. *)
Definition PackageEntryTable_locked_create_entry_or_null
    (table : option Loader) (name : Symbol) (module : ModuleEntryPtr)
    : VMop (option PackageEntryPtr) :=
  fun vm =>
    match table with
    | None => (Fault, vm)
    | Some l =>
        match PackageEntryTable_lookup_only (packages_of vm l) name with
        | Some _ => (Normal None, vm)
        | None =>
            (Normal (Some (l, name)),
             set_cld l
               (mk_ClassLoaderData
                  (modules_of vm l)
                  (mk_PackageEntry name module ∅ false :: packages_of vm l))
               vm)
        end
    end.

(** The two probes, as the operations call them on a table pointer. *)
Definition lookup_module (table : Loader) (name : Symbol)
    : VMop (option ModuleEntryPtr) :=
  fun vm =>
    (Normal ((fun e => (table, me_name e))
               <$> ModuleEntryTable_lookup_only (modules_of vm table) name), vm).

Definition lookup_module_oop (table : Loader) (module : option oop)
    : VMop (option ModuleEntryPtr) :=
  fun vm =>
    (Normal ((fun e => (table, me_name e))
               <$> ModuleEntryTable_lookup_only_oop (modules_of vm table) module), vm).

Definition lookup_package (table : option Loader) (name : Symbol)
    : VMop (option PackageEntryPtr) :=
  fun vm =>
    match table with
    | None => (Fault, vm)
    | Some l =>
        (Normal ((fun e => (l, pe_name e))
                   <$> PackageEntryTable_lookup_only (packages_of vm l) name), vm)
    end.

(** ** The helpers of [modules.cpp] *)

Section Modules.

Context `{host : Host}.

(** [java_lang_String::as_utf8_string]: the characters of a Java string. *)
Definition as_utf8_string (s : string) : option string := Some s.

(** [(int)strlen(s)]: the length of a C string, a [size_t], converted to an
    [int] of 32 bits: reduced modulo 2^32 into the range of the signed
    integers, so a length of 2^31 is negative. *)
Definition int_strlen (s : string) : Z :=
  ((Z.of_nat (String.length s) + 2 ^ 31) mod 2 ^ 32 - 2 ^ 31)%Z.

Definition verify_module_name (module_name : option string) : bool :=
  match module_name with
  | None => false
  | Some s =>
      let len := int_strlen s in
      bool_decide (len <= Z.of_nat Symbol_max_length)%Z
      && UTF8_is_legal_utf8 s len
      && verify_unqualified_name s len LegalModule
  end.

Definition verify_package_name (package_name : option string) : bool :=
  match package_name with
  | None => false
  | Some s =>
      let len := int_strlen s in
      bool_decide (len <= Z.of_nat Symbol_max_length)%Z
      && UTF8_is_legal_utf8 s len
      && verify_unqualified_name s len LegalClass
  end.

(** The overload on a [jstring], which its callers have checked not null. *)
Definition verify_package_name_jstring (package : string) : bool :=
  verify_package_name (as_utf8_string package).

(** [java_lang_ClassLoader::non_reflection_class_loader] replaces a
    delegating loader of reflection by the loader it stands for.
    [define_module] asserts that its loader is not a delegating one, and the
    loader of a module object is the one its definition was given: [Loader]
    ranges over the loaders that are not delegating, which the function leaves
    as they are. *)
Definition non_reflection_class_loader (l : Loader) : Loader := l.

(** [ClassLoaderData::class_loader_data_or_null], called in [define_module]
    on the loader that [get_module_entry_table] has just registered. *)
Definition class_loader_data_or_null (l : Loader) : Loader := l.

Definition get_module_entry_table (h_loader : Loader) : VMop Loader :=
  let h_loader := non_reflection_class_loader h_loader in
  let* loader_cld := register_loader h_loader in
  ret loader_cld.

Definition get_package_entry_table (h_loader : Loader) : VMop Loader :=
  let h_loader := non_reflection_class_loader h_loader in
  let* loader_cld := register_loader h_loader in
  ret loader_cld.

(** [ClassLoader::add_to_list]: one more entry of the boot search path. *)
Definition ClassLoader_add_to_list (path : string) : VMop unit :=
  fun vm => (Normal tt,
             mk_VM (flags vm) (loader_data vm) (allocated vm)
                   (boot_list vm ++ [path]) (tty vm)).

Definition add_to_boot_loader_list (module_name : string) : VMop unit :=
  let file_sep := String os_file_separator "" in
  let prefix_path :=
    match Arguments_override_dir with
    | Some dir =>
        let p := dir +:+ file_sep +:+ module_name in
        if os_stat_ok p then Some p else None
    | None => None
    end in
  let path :=
    if negb ClassLoader_has_bootmodules_jimage then
      let p := Arguments_get_java_home +:+ file_sep +:+ "modules"
               +:+ file_sep +:+ module_name in
      if os_stat_ok p then Some p else None
    else None in
  run match prefix_path with
      | Some p =>
          run trace_if TraceClassLoading (ret ("[Opened -Xoverride " +:+ p +:+ "]"))
          then ClassLoader_add_to_list p
      | None => ret tt
      end
  then match path with
       | Some p =>
           run trace_if TraceClassLoading (ret ("[Opened " +:+ p +:+ "]"))
           then ClassLoader_add_to_list p
       | None => ret tt
       end.

(** [java_lang_reflect_Module::loader]: the loader field of a module object;
    the read of a field that the object does not have is a fault. *)
Definition java_lang_reflect_Module_loader (module : option oop) : VMop Loader :=
  match module with
  | Some (Module_oop m) => ret (module_loader m)
  | _ => fault
  end.

Definition get_module_entry (module : jobject) : VMop (option ModuleEntryPtr) :=
  let h_module := module in
  let* loader := java_lang_reflect_Module_loader h_module in
  let h_loader := loader in
  let* module_table := get_module_entry_table h_loader in
  lookup_module_oop module_table h_module.

Definition get_package_entry (module_entry : option ModuleEntryPtr) (package : jstring)
    : VMop (option PackageEntryPtr) :=
  match package with
  | None => ret None
  | Some s =>
      match as_utf8_string s with
      | None => ret None
      | Some package_name =>
          let pkg_symbol : Symbol := package_name in
          let* cld := ModuleEntry_loader module_entry in
          let package_entry_table := Some cld in
          lookup_package package_entry_table pkg_symbol
      end
  end.

(** ** [Modules::define_module] *)

(** The first loop: the elements of [packages] are strings, legal package
    names and pairwise different. *)
Fixpoint check_package_array (module_name : string)
    (elements : list (option oop)) (pkg_list : list Symbol)
    : VMop (list Symbol) :=
  match elements with
  | [] => ret pkg_list
  | string_obj :: rest =>
      match string_obj with
      | Some (String_oop str) =>
          match as_utf8_string str with
          | Some package_name =>
              if negb (verify_package_name (Some package_name)) then
                THROW_MSG (err_msg ("Invalid package name: " +:+ package_name
                           +:+ " for module: " +:+ module_name))
              else
                let pkg_symbol : Symbol := package_name in
                (* append_if_missing *)
                if bool_decide (pkg_symbol ∈ pkg_list) then
                  THROW_MSG (err_msg ("Duplicate package name: " +:+ package_name
                             +:+ " for module " +:+ module_name))
                else
                  check_package_array module_name rest (pkg_list ++ [pkg_symbol])
          | None =>
              THROW_MSG (err_msg ("Invalid package name: (null) for module: "
                                  +:+ module_name))
          end
      | _ => THROW_MSG (err_msg ("Bad package name for module: " +:+ module_name))
      end
  end.

(** The second loop: none of the packages is in the package table of the
    loader. *)
Fixpoint check_packages_absent (module_table : Loader) (package_table : option Loader)
    (module_symbol : Symbol) (module_name : string) (pkg_list : list Symbol)
    : VMop unit :=
  match pkg_list with
  | [] => ret tt
  | pkg :: rest =>
      let* found := lookup_package package_table pkg in
      match found with
      | Some _ =>
          let* defined := lookup_module module_table module_symbol in
          match defined with
          | Some _ =>
              THROW_MSG (err_msg ("Module " +:+ module_name +:+ " is already defined"))
          | None =>
              THROW_MSG (err_msg ("Package " +:+ pkg +:+ " for module " +:+ module_name
                         +:+ " already exists for class loader"))
          end
      | None =>
          check_packages_absent module_table package_table module_symbol
                                module_name rest
      end
  end.

(** The third loop: one package entry for each package of the list. *)
Fixpoint create_package_entries (package_table : option Loader)
    (module_entry : ModuleEntryPtr) (module_name : string)
    (pkg_list : list Symbol) : VMop unit :=
  match pkg_list with
  | [] => ret tt
  | pkg :: rest =>
      let* _pkg := PackageEntryTable_locked_create_entry_or_null
                     package_table pkg module_entry in
      run trace_if (fun fl => TraceModules fl || TracePackages fl)
            (ret ("[define_module(): creation of package " +:+ pkg
                  +:+ " for module " +:+ module_name +:+ "]"))
      then create_package_entries package_table module_entry module_name rest
  end.

(** [java_lang_reflect_Module::create]: a new module object. *)
Definition java_lang_reflect_Module_create (h_loader : Loader) (h_name : string)
    : VMop jlrModule :=
  fun vm =>
    (Normal (mk_jlrModule (allocated vm) h_loader h_name),
     mk_VM (flags vm) (loader_data vm) (S (allocated vm)) (boot_list vm) (tty vm)).

Definition java_base : string := "java.base".

(** The loader behind the handle [loader]: the boot loader for a null handle,
    and nothing for an object whose class is not a subclass of
    [java.lang.ClassLoader]. *)
Definition resolve_class_loader (loader : jobject) : option Loader :=
  match loader with
  | None => Some None
  | Some (ClassLoader_oop n) => Some (Some n)
  | Some _ => None
  end.

Definition define_module (name : jstring) (loader : jobject) (packages : jobjectArray)
    : VMop jobject :=
  match name with
  | None => THROW_MSG "Null module name"
  | Some name_str =>
  match as_utf8_string name_str with
  | None => THROW_MSG (err_msg "Invalid module name: (null)")
  | Some module_name =>
  run trace_if TraceModules
        (ret ("[define_module(): Start of definition processing for module "
              +:+ module_name +:+ "]")) then
  if negb (verify_module_name (Some module_name)) then
    THROW_MSG (err_msg ("Invalid module name: " +:+ module_name))
  else if bool_decide (module_name = java_base) then
    THROW_MSG "Module java.base is already defined"
  else
  let elements := match packages with None => [] | Some a => a end in
  let num_packages := length elements in
  let* pkg_list := check_package_array module_name elements [] in
  match resolve_class_loader loader with
  | None => THROW_MSG "Class loader is not a subclass of java.lang.ClassLoader"
  | Some h_loader =>
  let* module_table := get_module_entry_table h_loader in
  let module_symbol : Symbol := module_name in
  let* jlrM_handle := java_lang_reflect_Module_create h_loader name_str in
  (* MutexLocker ml(Module_lock, THREAD) *)
  let* package_table :=
    if bool_decide (0 < num_packages) then
      let* package_table := get_package_entry_table h_loader in
      run check_packages_absent module_table (Some package_table)
                                module_symbol module_name pkg_list
      then ret (Some package_table)
    else ret None in
  let* module_entry :=
    ModuleEntryTable_locked_create_entry_or_null
      module_table jlrM_handle module_symbol (class_loader_data_or_null h_loader) in
  match module_entry with
  | None => THROW_MSG (err_msg ("Module " +:+ module_name +:+ " is already defined"))
  | Some module_entry =>
  run trace_if TraceModules
        (ret ("[define_module(): creation of module = " +:+ module_name
              +:+ ", package # = " +:+ pretty (length pkg_list) +:+ "]")) then
  run create_package_entries package_table module_entry module_name pkg_list then
  (* the lock is released *)
  run match loader with
      | None => add_to_boot_loader_list module_name
      | Some _ => ret tt
      end then
  ret (Some (Module_oop jlrM_handle))
  end end end end.

(** The resolution of the target of an export: a null [to_module] is the
    unnamed module, any other handle has to be a module of the registry. *)
Definition resolve_to_module (to_module : jobject) (msg : string)
    : VMop (option ModuleEntryPtr) :=
  match to_module with
  | None => ret None
  | Some _ =>
      let* to_module_entry := get_module_entry to_module in
      match to_module_entry with
      | None => THROW_MSG msg
      | Some _ => ret to_module_entry
      end
  end.

(** ** [Modules::add_module_exports] *)

Definition add_module_exports (from_module : jobject) (package : jstring)
    (to_module : jobject) : VMop unit :=
  match package with
  | None => THROW_MSG "package is null"
  | Some package_str =>
  match from_module with
  | None => THROW_MSG "from_module is null"
  | Some _ =>
  let* from_module_entry := get_module_entry from_module in
  match from_module_entry with
  | None => THROW_MSG "from_module cannot be found"
  | Some _ =>
  let* to_module_entry := resolve_to_module to_module "to_module is invalid" in
  if negb (verify_package_name_jstring package_str) then
    let* from_name := ModuleEntry_name from_module_entry in
    THROW_MSG (err_msg ("Bad package for module " +:+ from_name))
  else
  let* package_entry := get_package_entry from_module_entry package in
  match package_entry with
  | None =>
      let* from_name := ModuleEntry_name from_module_entry in
      THROW_MSG (err_msg ("Package " +:+ package_str +:+ " not found in from_module "
                 +:+ from_name))
  | Some _ =>
  let* package_module := PackageEntry_module package_entry in
  if bool_decide (Some package_module <> from_module_entry) then
    let* package_name := PackageEntry_name package_entry in
    let* owner_name := ModuleEntry_name (Some package_module) in
    let* from_name := ModuleEntry_name from_module_entry in
    THROW_MSG (err_msg ("Package: " +:+ package_name +:+ " found in module "
                        +:+ owner_name +:+ ", not in from_module: " +:+ from_name))
  else
  run trace_if TraceModules
        (let* package_name := PackageEntry_name package_entry in
         let* from_name := ModuleEntry_name from_module_entry in
         let* to_name :=
           match to_module_entry with
           | None => ret "(null)"
           | Some _ => ModuleEntry_name to_module_entry
           end in
         ret ("[add_module_exports(): package:module " +:+ package_name +:+ ":"
              +:+ from_name +:+ " is exported to module " +:+ to_name +:+ "]")) then
  let* unqual :=
    match to_module_entry with
    | None => ret false
    | Some _ => PackageEntry_is_unqual_exported package_entry
    end in
  if unqual then
    let* package_name := PackageEntry_name package_entry in
    let* from_name := ModuleEntry_name from_module_entry in
    THROW_MSG (err_msg ("Bad qualifed export, package " +:+ package_name
                        +:+ " in module " +:+ from_name
                        +:+ " is already unqualifically exported"))
  else
  if bool_decide (from_module_entry <> to_module_entry) then
    PackageEntry_set_exported package_entry to_module_entry
  else ret tt
  end end end end.

(** ** [Modules::add_reads_module] *)

Definition add_reads_module (from_module to_module : jobject) : VMop unit :=
  match from_module with
  | None => THROW_MSG "from_module is null"
  | Some _ =>
  match to_module with
  | None => THROW_MSG "to_module is null"
  | Some _ =>
  let* from_module_entry := get_module_entry from_module in
  match from_module_entry with
  | None => THROW_MSG "from_module is invalid"
  | Some _ =>
  let* to_module_entry := get_module_entry to_module in
  match to_module_entry with
  | None => THROW_MSG "to_module is invalid"
  | Some to_entry =>
  run trace_if TraceModules
        (let* from_name := ModuleEntry_name from_module_entry in
         let* to_name := ModuleEntry_name to_module_entry in
         ret ("[add_reads_module(): Adding read from module " +:+ from_name
              +:+ " to module " +:+ to_name +:+ "]")) then
  if bool_decide (from_module_entry <> to_module_entry) then
    ModuleEntry_add_read from_module_entry to_entry
  else ret tt
  end end end end.

(** ** [Modules::can_read_module] *)

Definition can_read_module (asking_module target_module : jobject) : VMop bool :=
  match asking_module with
  | None => THROW_MSG "asking_module is null"
  | Some _ =>
  let* asking_module_entry := get_module_entry asking_module in
  match asking_module_entry with
  | None => THROW_MSG "asking_module is invalid"
  | Some _ =>
  match target_module with
  | None => ret true
  | Some _ =>
  let* target_module_entry := get_module_entry target_module in
  match target_module_entry with
  | None => THROW_MSG "target_module is invalid"
  | Some target_entry =>
  run trace_if TraceModules
        (let* asking_name := ModuleEntry_name asking_module_entry in
         let* target_name := ModuleEntry_name target_module_entry in
         let* allowed :=
           if bool_decide (asking_module_entry = target_module_entry) then ret true
           else ModuleEntry_can_read asking_module_entry target_entry in
         ret ("[can_read_module(): module " +:+ asking_name
              +:+ " trying to read module " +:+ target_name
              +:+ ", allowed = " +:+ BOOL_TO_STR allowed)) then
  if bool_decide (asking_module_entry = target_module_entry) then ret true
  else ModuleEntry_can_read asking_module_entry target_entry
  end end end end.

(** ** [Modules::is_exported_to_module] *)

Definition is_exported_to_module (from_module : jobject) (package : jstring)
    (to_module : jobject) : VMop bool :=
  match package with
  | None => THROW_MSG "package is null"
  | Some package_str =>
  match from_module with
  | None => THROW_MSG "from_module is null"
  | Some _ =>
  let* from_module_entry := get_module_entry from_module in
  match from_module_entry with
  | None => THROW_MSG "from_module is invalid"
  | Some _ =>
  let* to_module_entry := resolve_to_module to_module "to_module is invalid" in
  if negb (verify_package_name_jstring package_str) then
    let* from_name := ModuleEntry_name from_module_entry in
    THROW_MSG (err_msg ("Bad exported package name, module " +:+ from_name))
  else
  let* package_entry := get_package_entry from_module_entry package in
  match package_entry with
  | None =>
      let* from_name := ModuleEntry_name from_module_entry in
      THROW_MSG (err_msg ("Package not found in from_module: " +:+ from_name))
  | Some _ =>
  let* package_module := PackageEntry_module package_entry in
  if bool_decide (Some package_module <> from_module_entry) then
    let* package_name := PackageEntry_name package_entry in
    let* owner_name := ModuleEntry_name (Some package_module) in
    let* from_name := ModuleEntry_name from_module_entry in
    THROW_MSG (err_msg ("Package: " +:+ package_name +:+ " found in module "
                        +:+ owner_name +:+ ", not in from_module: " +:+ from_name))
  else
  run trace_if TracePackages
        (let* package_name := PackageEntry_name package_entry in
         let* from_name := ModuleEntry_name from_module_entry in
         let* to_name := ModuleEntry_name to_module_entry in
         let* unqual := PackageEntry_is_unqual_exported package_entry in
         let* exported :=
           if unqual then ret true
           else
             let* qexported :=
               match to_module with
               | None => ret false
               | Some _ => PackageEntry_is_qexported_to package_entry to_module_entry
               end in
             if qexported then ret true
             else ret (bool_decide (from_module_entry = to_module_entry)) in
         ret ("[is_exported_to_module: package " +:+ package_name
              +:+ " from module " +:+ from_name
              +:+ " checking if exported to module " +:+ to_name
              +:+ ", exported? = " +:+ BOOL_TO_STR exported)) then
  let* unqual := PackageEntry_is_unqual_exported package_entry in
  if unqual then ret true
  else if bool_decide (from_module_entry = to_module_entry) then ret true
  else
    match to_module with
    | None => ret false
    | Some _ => PackageEntry_is_qexported_to package_entry to_module_entry
    end
  end end end end.

(** ** [Modules::get_module] *)

(** A class of the VM, with what the operation reads of it: its external
    name, the module field of its mirror and, for an array of references, the
    class at the bottom of the array. *)
Inductive Klass :=
| InstanceKlass (external_name : string) (module : option jlrModule)
| ObjArrayKlass (external_name : string) (module : option jlrModule)
                (bottom : Klass)
| TypeArrayKlass (external_name : string) (module : option jlrModule).

(** An instance of [java.lang.Class]: the mirror of a primitive type or the
    mirror of a class. *)
Inductive Mirror :=
| Primitive_mirror
| Klass_mirror (k : Klass).

Definition java_lang_Class_is_primitive (mirror : Mirror) : bool :=
  match mirror with Primitive_mirror => true | Klass_mirror _ => false end.

Definition java_mirror (k : Klass) : Mirror := Klass_mirror k.

Definition external_name (k : Klass) : string :=
  match k with
  | InstanceKlass n _ | ObjArrayKlass n _ _ | TypeArrayKlass n _ => n
  end.

Definition java_lang_Class_module (mirror : Mirror) : option jlrModule :=
  match mirror with
  | Primitive_mirror => None
  | Klass_mirror (InstanceKlass _ m)
  | Klass_mirror (ObjArrayKlass _ m _)
  | Klass_mirror (TypeArrayKlass _ m) => m
  end.

(** [java_lang_Class::as_Klass]: the class of a mirror, null for the mirror
    of a primitive type. *)
Definition java_lang_Class_as_Klass (mirror : Mirror) : option Klass :=
  match mirror with Primitive_mirror => None | Klass_mirror k => Some k end.

(** [JNIHandles::resolve_non_null]: the object of a handle, read through the
    handle without a test of the handle; on the [NULL] handle the read is a
    fault.  The value read is an [oop], which the caller may compare with
    [NULL]. *)
Definition JNIHandles_resolve_non_null {A} (handle : option A) : VMop (option A) :=
  match handle with
  | None => fault
  | Some _ => ret handle
  end.

(** [clazz] is the handle, [None] the [NULL] handle: no test of the handle
    precedes its resolution. *)
Definition get_module (clazz : option Mirror) : VMop jobject :=
  let* mirror := JNIHandles_resolve_non_null clazz in
  let* fl := get_flags in
  match mirror with
  | None =>
      run trace_if (fun fl => TraceModules fl && negb (UseModules fl))
            (ret "[get_module(): !UseModules, returning NULL]")
      then ret None
  | Some mirror =>
  if java_lang_Class_is_primitive mirror || negb (UseModules fl) then
    run trace_if (fun fl => TraceModules fl && negb (UseModules fl))
          (ret "[get_module(): !UseModules, returning NULL]")
    then ret None
  else
  match java_lang_Class_as_Klass mirror with
  | None => fault
  | Some klass =>
  match klass with
  | TypeArrayKlass _ _ => ret None  (* Primitive type *)
  | InstanceKlass _ _ | ObjArrayKlass _ _ _ =>
  let module :=
    match klass with
    | ObjArrayKlass _ _ bottom_klass =>
        java_lang_Class_module (java_mirror bottom_klass)
    | _ => java_lang_Class_module mirror
    end in
  run trace_if TraceModules
        (ret (match module with
              | Some m => "[get_module(): module " +:+ module_name m
              | None => "[get_module(): unamed module"
              end +:+ " for class " +:+ external_name klass +:+ "]")) then
  ret (Module_oop <$> module)
  end end end.

(** ** [Modules::add_module_package] *)

Definition add_module_package (module : jobject) (package : jstring) : VMop unit :=
  match module with
  | None => THROW_MSG "module is null"
  | Some _ =>
  match package with
  | None => THROW_MSG "package is null"
  | Some package_str =>
  let* module_entry := get_module_entry module in
  match module_entry with
  | None => THROW_MSG "module is invalid"
  | Some module_ptr =>
  match as_utf8_string package_str with
  | None => THROW_MSG "Bad package"
  | Some package_name =>
  if negb (verify_package_name (Some package_name)) then
    THROW_MSG (err_msg ("Invalid package name: " +:+ package_name))
  else
  run trace_if TraceModules
        (let* name := ModuleEntry_name module_entry in
         ret ("[add_module_package(): Adding package " +:+ package_name
              +:+ " to module " +:+ name +:+ "]")) then
  let pkg_symbol : Symbol := package_name in
  let* cld := ModuleEntry_loader module_entry in
  let package_table := Some cld in
  (* MutexLocker ml(Module_lock, THREAD) *)
  let* found := lookup_package package_table pkg_symbol in
  let* pkg_exists :=
    match found with
    | None =>
        let* _pkg := PackageEntryTable_locked_create_entry_or_null
                       package_table pkg_symbol module_ptr in
        ret false
    | Some _ => ret true
    end in
  (* the lock is released *)
  if (pkg_exists : bool) then
    THROW_MSG (err_msg ("Package " +:+ package_name
                        +:+ " already exists for class loader"))
  else ret tt
  end end end end.

End Modules.

(** * What the properties are stated with *)

(** The operations read the state of the VM through its flags and through the
    two tables of each loader; the trace output, the boot search path and the
    count of allocated objects are written and never read back. *)
Definition same_registry (vm vm' : VM) : Prop :=
  flags vm = flags vm' /\ forall l, cld_of vm l = cld_of vm' l.

(** The tables alone: what a query can observe of the registry. *)
Definition same_tables (vm vm' : VM) : Prop :=
  forall l, modules_of vm l = modules_of vm' l
            /\ packages_of vm l = packages_of vm' l.

Definition registered (l : Loader) (vm : VM) : VM := (register_loader l vm).2.

Definition printed (line : string) (vm : VM) : VM := (tty_print_cr line vm).2.

(** The module entry of a handle, read off the tables. *)
Definition module_of (vm : VM) (module : jobject) : Outcome (option ModuleEntryPtr) :=
  match module with
  | Some (Module_oop m) =>
      Normal ((fun e => (module_loader m, me_name e))
                <$> ModuleEntryTable_lookup_only_oop
                      (modules_of vm (module_loader m)) module)
  | _ => Fault
  end.

(** The reads set of the entry a pointer leads to. *)
Definition reads_of (vm : VM) (p : ModuleEntryPtr) : gset ModuleEntryPtr :=
  match module_entry_at vm p with
  | Some e => me_reads e
  | None => ∅
  end.

(** The package entry of a name in the loader of a module entry, read off the
    tables. *)
Definition package_of (vm : VM) (pm : ModuleEntryPtr) (package : string)
    : Outcome (option PackageEntryPtr) :=
  match module_entry_at vm pm with
  | Some e =>
      Normal ((fun pe => (me_loader e, pe_name pe))
                <$> PackageEntryTable_lookup_only
                      (packages_of vm (me_loader e)) package)
  | None => Fault
  end.

(** The entry of the target of an export, read off the tables. *)
Definition target_of (vm : VM) (to_module : jobject) (msg : string)
    : Outcome (option ModuleEntryPtr) :=
  match to_module with
  | None => Normal None
  | Some _ =>
      match module_of vm to_module with
      | Normal None => IllegalArgumentException msg
      | o => o
      end
  end.

(** What a pointer to a package entry leads to. *)
Definition owner_of (vm : VM) (p : PackageEntryPtr) : option ModuleEntryPtr :=
  pe_module <$> package_entry_at vm p.

Definition exports_of (vm : VM) (p : PackageEntryPtr) : gset (option ModuleEntryPtr) :=
  match package_entry_at vm p with
  | Some e => pe_exports e
  | None => ∅
  end.

Definition unqual_of (vm : VM) (p : PackageEntryPtr) : bool :=
  match package_entry_at vm p with
  | Some e => pe_unqual_exported e
  | None => false
  end.

(** The answer of [is_exported_to_module] on an entry of a package. *)
Definition exported_to (pe : PackageEntry) (pf : ModuleEntryPtr)
    (to_module : jobject) (to_entry : option ModuleEntryPtr) : bool :=
  pe_unqual_exported pe
  || bool_decide (Some pf = to_entry)
  || (bool_decide (to_module <> None) && bool_decide (to_entry ∈ pe_exports pe)).

(** A computation that leaves the registry as it is, whatever its outcome. *)
Definition keeps {A} (c : VMop A) : Prop :=
  forall vm, same_registry vm (c vm).2.

(** A computation that raises no exception. *)
Definition no_throw {A} (c : VMop A) : Prop :=
  forall vm msg, (c vm).1 <> IllegalArgumentException msg.

(** A computation that has left the registry as it was when it raises an
    exception. *)
Definition atomic {A} (c : VMop A) : Prop :=
  forall vm msg, (c vm).1 = IllegalArgumentException msg -> same_registry vm (c vm).2.

(** A computation that does not fault. *)
Definition no_fault {A} (c : VMop A) : Prop :=
  forall vm, (c vm).1 <> Fault.

(** A computation whose normal results satisfy [P]. *)
Definition returns {A} (P : A -> Prop) (c : VMop A) : Prop :=
  forall vm a, (c vm).1 = Normal a -> P a.

(** The first package of a list that the package table of a loader holds. *)
Definition first_existing (vm : VM) (l : Loader) (pkg_list : list Symbol)
    : option Symbol :=
  find (fun pkg => bool_decide (pkg ∈ map pe_name (packages_of vm l))) pkg_list.

(** ** A registry to run the operations on *)

Module Scenario.

(** A host with symbols of at most 255 characters, whose two checks on names
    accept every name, so that a name is legal exactly when the test of its
    length passes; with a runtime image and no override directory, and whose
    [err_msg] keeps the first 255 characters of a message. *)
Definition permissive_host : Host :=
  mk_Host 255 (fun _ _ => true) (fun _ _ _ => true) None "/jdk" true
          (fun _ => false) (Ascii.ascii_of_nat 47) (String.substring 0 255).

#[local] Existing Instance permissive_host.

Definition initial (fl : Flags) : VM := mk_VM fl ∅ 0 [] [].

Definition quiet : Flags := mk_Flags false false false true.
Definition tracing_packages : Flags := mk_Flags false true false true.

Definition loader1 : jobject := Some (ClassLoader_oop 1).

Definition m1 : oop := Module_oop (mk_jlrModule 0 (Some 1) "m1").
Definition m2 : oop := Module_oop (mk_jlrModule 1 (Some 1) "m2").

(** [m1] with the package p.a, then [m2] without package, in the loader 1;
    then [m1] reads [m2]. *)
Definition one_module (fl : Flags) : VM :=
  (define_module (Some "m1") loader1 (Some [Some (String_oop "p.a")]) (initial fl)).2.

Definition two_modules (fl : Flags) : VM :=
  (define_module (Some "m2") loader1 None (one_module fl)).2.

Definition m1_reads_m2 (fl : Flags) : VM :=
  (add_reads_module (Some m1) (Some m2) (two_modules fl)).2.

(** A registry in which the package p of [m1] is exported without
    qualification, as the ingestion of a module descriptor leaves it. *)
Definition unqualified_export (fl : Flags) : VM :=
  mk_VM fl
        {[ Some 1 :=
             mk_ClassLoaderData
               [mk_ModuleEntry "m1" (mk_jlrModule 0 (Some 1) "m1") (Some 1) ∅]
               [mk_PackageEntry "p" (Some 1, "m1") ∅ true] ]}
        1 [] [].

(** A name of 256 characters. *)
Definition long_name : string :=
  String.string_of_list_ascii (repeat (Ascii.ascii_of_nat 97) 256).

End Scenario.

(** The entry of a module once it reads [m], and the entry of a package once
    it is exported to [m]: what [add_read] and [set_exported] put in the place
    of the entry. *)
Definition reading (m : ModuleEntryPtr) (e : ModuleEntry) : ModuleEntry :=
  mk_ModuleEntry (me_name e) (me_module e) (me_loader e) ({[ m ]} ∪ me_reads e).

Definition exporting (m : option ModuleEntryPtr) (e : PackageEntry) : PackageEntry :=
  mk_PackageEntry (pe_name e) (pe_module e) ({[ m ]} ∪ pe_exports e)
                  (pe_unqual_exported e).

(** The array of the strings of a list of names, as [define_module] is handed
    it. *)
Definition strings_of (pkgs : list Symbol) : list (option oop) :=
  map (fun s => Some (String_oop s)) pkgs.

(** The elements of the array of packages; a null array has none. *)
Definition elements_of (packages : jobjectArray) : list (option oop) :=
  match packages with
  | None => []
  | Some a => a
  end.

(** The directories of a module that [add_to_boot_loader_list] looks for: the
    one of the override directory, then the one of the exploded build when
    there is no runtime image; those that exist. *)
Definition boot_directories `{Host} (module_name : string) : list string :=
  let file_sep := String os_file_separator "" in
  let override :=
    match Arguments_override_dir with
    | Some dir => [dir +:+ file_sep +:+ module_name]
    | None => []
    end in
  let exploded :=
    if ClassLoader_has_bootmodules_jimage then []
    else [Arguments_get_java_home +:+ file_sep +:+ "modules"
          +:+ file_sep +:+ module_name] in
  filter (fun p => os_stat_ok p = true) (override ++ exploded)%list.

(** [boot_list] records the paths that [ClassLoader::add_to_list] was called
    with, in the order of the calls.  A computation that does not call it,
    whatever its outcome: *)
Definition keeps_boot {A} (c : VMop A) : Prop :=
  forall vm, boot_list (c vm).2 = boot_list vm.

(** A computation that calls [ClassLoader::add_to_list] with the paths of
    [paths], in this order, when it returns normally, and does not call it
    otherwise. *)
Definition appends {A} (paths : list string) (c : VMop A) : Prop :=
  forall vm,
    boot_list (c vm).2
    = (boot_list vm ++ match (c vm).1 with Normal _ => paths | _ => [] end)%list.

(** A computation that writes to the registry only when it returns normally:
    after an exception or a fault the registry is as it was. *)
Definition only_on_return {A} (c : VMop A) : Prop :=
  forall vm, (forall a, (c vm).1 <> Normal a) -> same_registry vm (c vm).2.

(** ** A well-formed registry *)

(** A pointer to a module entry that can be followed. *)
Definition valid_module (vm : VM) (p : ModuleEntryPtr) : Prop :=
  is_Some (module_entry_at vm p).

(** An entry of the module table of the loader [l]: its loader is [l], its
    module object is one of [l], and the modules it reads are there. *)
Definition module_entry_ok (vm : VM) (l : Loader) (e : ModuleEntry) : Prop :=
  me_loader e = l
  /\ module_loader (me_module e) = l
  /\ forall q, q ∈ me_reads e -> valid_module vm q.

(** An entry of the package table of the loader [l]: its module is a module
    of [l] that is there, and so are the modules it is exported to. *)
Definition package_entry_ok (vm : VM) (l : Loader) (pe : PackageEntry) : Prop :=
  (pe_module pe).1 = l
  /\ valid_module vm (pe_module pe)
  /\ forall q, Some q ∈ pe_exports pe -> valid_module vm q.

(** In the tables of each loader no two modules and no two packages have the
    same name, and every entry is as above. *)
Definition registry_ok (vm : VM) : Prop :=
  forall l,
    NoDup (map me_name (modules_of vm l))
    /\ NoDup (map pe_name (packages_of vm l))
    /\ (forall e, e ∈ modules_of vm l -> module_entry_ok vm l e)
    /\ (forall pe, pe ∈ packages_of vm l -> package_entry_ok vm l pe).

(** A handle that is null or leads to a module object. *)
Definition is_module_handle (j : jobject) : Prop :=
  match j with
  | None | Some (Module_oop _) => True
  | Some _ => False
  end.

(** A computation that, started in the registry of [vm0], does not fault,
    leaves the registry as it is, and returns only results that satisfy
    [Q]. *)
Definition safe_on {A} (vm0 : VM) (c : VMop A) (Q : A -> Prop) : Prop :=
  forall vm,
    same_registry vm0 vm ->
    (c vm).1 <> Fault
    /\ same_registry vm0 (c vm).2
    /\ forall a, (c vm).1 = Normal a -> Q a.

(** A computation that, started in the registry of [vm0], does not fault,
    establishes [Post] when it returns and leaves the registry as it is when
    it raises an exception. *)
Definition ends_on {A} (vm0 : VM) (c : VMop A) (Post : VM -> Prop) : Prop :=
  forall vm,
    same_registry vm0 vm ->
    match (c vm).1 with
    | Normal _ => Post (c vm).2
    | IllegalArgumentException _ => same_registry vm0 (c vm).2
    | Fault => False
    end.

(** * Properties *)

(** ** Two states with the same registry *)

Lemma same_registry_refl vm : same_registry vm vm.
Proof. by split. Qed.

Lemma same_registry_sym vm vm' : same_registry vm vm' -> same_registry vm' vm.
Proof. intros [Hf Hc]; split; [done | intros l; by rewrite Hc]. Qed.

Lemma same_registry_trans vm1 vm2 vm3 :
  same_registry vm1 vm2 -> same_registry vm2 vm3 -> same_registry vm1 vm3.
Proof.
  intros [Hf Hc] [Hf' Hc']; split; [congruence | intros l].
  by rewrite Hc, Hc'.
Qed.

Lemma same_registry_tables vm vm' : same_registry vm vm' -> same_tables vm vm'.
Proof. intros [_ Hc] l. unfold modules_of, packages_of. by rewrite Hc. Qed.

Lemma cld_of_set_cld l c vm l' :
  cld_of (set_cld l c vm) l' = if decide (l = l') then c else cld_of vm l'.
Proof.
  unfold cld_of, set_cld; simpl. rewrite lookup_insert.
  by destruct (decide (l = l')).
Qed.

Lemma register_loader_run l vm : register_loader l vm = (Normal l, registered l vm).
Proof. unfold registered, register_loader. by destruct (loader_data vm !! l). Qed.

Lemma same_registry_registered l vm : same_registry vm (registered l vm).
Proof.
  unfold registered, register_loader.
  destruct (loader_data vm !! l) as [c|] eqn:E; simpl; [apply same_registry_refl|].
  split; [done | intros l']. rewrite cld_of_set_cld.
  destruct (decide (l = l')) as [<-|]; [|done].
  unfold cld_of. by rewrite E.
Qed.

Lemma same_registry_printed line vm : same_registry vm (printed line vm).
Proof. by split. Qed.

Lemma tty_print_cr_run line vm : tty_print_cr line vm = (Normal tt, printed line vm).
Proof. done. Qed.

Lemma modules_of_same vm vm' l :
  same_registry vm vm' -> modules_of vm' l = modules_of vm l.
Proof. intros [_ Hc]. unfold modules_of. by rewrite Hc. Qed.

Lemma packages_of_same vm vm' l :
  same_registry vm vm' -> packages_of vm' l = packages_of vm l.
Proof. intros [_ Hc]. unfold packages_of. by rewrite Hc. Qed.

Lemma module_entry_at_same vm vm' p :
  same_registry vm vm' -> module_entry_at vm' p = module_entry_at vm p.
Proof. intros H. unfold module_entry_at. by rewrite (modules_of_same vm vm'). Qed.

Lemma package_entry_at_same vm vm' p :
  same_registry vm vm' -> package_entry_at vm' p = package_entry_at vm p.
Proof. intros H. unfold package_entry_at. by rewrite (packages_of_same vm vm'). Qed.

Create HintDb registry.

#[local] Hint Resolve same_registry_refl same_registry_registered
  same_registry_printed same_registry_sym : registry.
#[local] Hint Extern 3 (same_registry _ (registered _ _)) =>
  eapply same_registry_trans; [|apply same_registry_registered] : registry.
#[local] Hint Extern 3 (same_registry _ (printed _ _)) =>
  eapply same_registry_trans; [|apply same_registry_printed] : registry.

(** ** The probes of a table *)

Lemma lookup_only_name t name e :
  ModuleEntryTable_lookup_only t name = Some e -> me_name e = name /\ e ∈ t.
Proof.
  unfold ModuleEntryTable_lookup_only. intros H.
  apply find_some in H as [Hin Hb].
  apply bool_decide_eq_true in Hb. split; [done | by apply list_elem_of_In].
Qed.

Lemma lookup_only_present t e :
  e ∈ t -> is_Some (ModuleEntryTable_lookup_only t (me_name e)).
Proof.
  intros Hin. unfold ModuleEntryTable_lookup_only.
  destruct (find _ t) as [e'|] eqn:E; [by eexists|].
  apply list_elem_of_In in Hin.
  pose proof (find_none _ _ E _ Hin) as Hb. simpl in Hb.
  by rewrite bool_decide_eq_false in Hb.
Qed.

Lemma lookup_only_oop_some t module e :
  ModuleEntryTable_lookup_only_oop t module = Some e ->
  module = Some (Module_oop (me_module e)) /\ e ∈ t.
Proof.
  unfold ModuleEntryTable_lookup_only_oop. intros H.
  apply find_some in H as [Hin Hb].
  apply bool_decide_eq_true in Hb. split; [done | by apply list_elem_of_In].
Qed.

Lemma package_lookup_only_name t name e :
  PackageEntryTable_lookup_only t name = Some e -> pe_name e = name /\ e ∈ t.
Proof.
  unfold PackageEntryTable_lookup_only. intros H.
  apply find_some in H as [Hin Hb].
  apply bool_decide_eq_true in Hb. split; [done | by apply list_elem_of_In].
Qed.

Lemma package_lookup_only_absent t name :
  PackageEntryTable_lookup_only t name = None <-> name ∉ map pe_name t.
Proof.
  unfold PackageEntryTable_lookup_only. induction t as [|e t IH]; simpl.
  - split; [intros _ H; by apply elem_of_nil in H | done].
  - destruct (bool_decide (pe_name e = name)) eqn:E.
    + apply bool_decide_eq_true in E. split; [done | intros []; subst; left].
    + apply bool_decide_eq_false in E. rewrite IH, not_elem_of_cons.
      split; [intros ?; split; [congruence | done] | by intros [_ ?]].
Qed.

(** ** The operations on entries, run *)

Section Run.

Context `{host : Host}.

Lemma get_module_entry_run module vm :
  exists vm', get_module_entry module vm = (module_of vm module, vm')
              /\ same_registry vm vm'.
Proof.
  unfold get_module_entry, module_of, java_lang_reflect_Module_loader.
  destruct module as [[m| | |]|];
    try (exists vm; split; [reflexivity | apply same_registry_refl]).
  exists (registered (module_loader m) vm). split; [|auto with registry].
  unfold bind, ret, get_module_entry_table, non_reflection_class_loader, bind, ret.
  rewrite register_loader_run. unfold lookup_module_oop.
  by rewrite (modules_of_same vm (registered _ vm)) by auto with registry.
Qed.

Lemma module_of_same vm vm' module :
  same_registry vm vm' -> module_of vm' module = module_of vm module.
Proof.
  intros H. unfold module_of. destruct module as [[m| | |]|]; try done.
  by rewrite (modules_of_same vm vm').
Qed.

(** A pointer that a probe has returned can be followed. *)
Lemma module_of_deref vm module p :
  module_of vm module = Normal (Some p) -> is_Some (module_entry_at vm p).
Proof.
  unfold module_of. destruct module as [[m| | |]|]; try done.
  destruct (ModuleEntryTable_lookup_only_oop _ _) as [e|] eqn:E; [|done].
  intros [= <-]. apply lookup_only_oop_some in E as [_ Hin].
  unfold module_entry_at; simpl. by apply lookup_only_present.
Qed.

Lemma deref_module_run p vm :
  deref_module (Some p) vm =
  (match module_entry_at vm p with Some e => Normal e | None => Fault end, vm).
Proof. unfold deref_module. by destruct (module_entry_at vm p). Qed.

Lemma deref_package_run p vm :
  deref_package (Some p) vm =
  (match package_entry_at vm p with Some e => Normal e | None => Fault end, vm).
Proof. unfold deref_package. by destruct (package_entry_at vm p). Qed.

Lemma ModuleEntry_name_run p e vm :
  module_entry_at vm p = Some e ->
  ModuleEntry_name (Some p) vm = (Normal (me_name e), vm).
Proof. intros H. unfold ModuleEntry_name, bind. by rewrite deref_module_run, H. Qed.

Lemma ModuleEntry_loader_run p e vm :
  module_entry_at vm p = Some e ->
  ModuleEntry_loader (Some p) vm = (Normal (me_loader e), vm).
Proof. intros H. unfold ModuleEntry_loader, bind. by rewrite deref_module_run, H. Qed.

Lemma ModuleEntry_can_read_run p e m vm :
  module_entry_at vm p = Some e ->
  ModuleEntry_can_read (Some p) m vm = (Normal (bool_decide (m ∈ me_reads e)), vm).
Proof. intros H. unfold ModuleEntry_can_read, bind. by rewrite deref_module_run, H. Qed.

Lemma PackageEntry_name_run p e vm :
  package_entry_at vm p = Some e ->
  PackageEntry_name (Some p) vm = (Normal (pe_name e), vm).
Proof. intros H. unfold PackageEntry_name, bind. by rewrite deref_package_run, H. Qed.

Lemma PackageEntry_module_run p e vm :
  package_entry_at vm p = Some e ->
  PackageEntry_module (Some p) vm = (Normal (pe_module e), vm).
Proof. intros H. unfold PackageEntry_module, bind. by rewrite deref_package_run, H. Qed.

Lemma PackageEntry_is_unqual_exported_run p e vm :
  package_entry_at vm p = Some e ->
  PackageEntry_is_unqual_exported (Some p) vm = (Normal (pe_unqual_exported e), vm).
Proof.
  intros H. unfold PackageEntry_is_unqual_exported, bind.
  by rewrite deref_package_run, H.
Qed.

Lemma PackageEntry_is_qexported_to_run p e m vm :
  package_entry_at vm p = Some e ->
  PackageEntry_is_qexported_to (Some p) m vm
  = (Normal (bool_decide (m ∈ pe_exports e)), vm).
Proof.
  intros H. unfold PackageEntry_is_qexported_to, bind.
  by rewrite deref_package_run, H.
Qed.

(** A trace whose line is computed without fault or exception returns
    normally and leaves the registry as it is. *)
Lemma trace_if_run flag line s vm :
  (forall vm0, same_registry vm vm0 -> line vm0 = (Normal s, vm0)) ->
  exists vm', trace_if flag line vm = (Normal tt, vm') /\ same_registry vm vm'.
Proof.
  intros Hline. unfold trace_if, bind, get_flags.
  destruct (flag (flags vm)).
  - rewrite Hline by auto with registry. rewrite tty_print_cr_run.
    eexists; split; [done | auto with registry].
  - exists vm. split; [done | auto with registry].
Qed.

End Run.

(** ** Readability: [can_read_module] *)

Section Reads.

Context `{host : Host}.

Lemma get_module_entry_outcome module vm :
  (get_module_entry module vm).1 = module_of vm module.
Proof. destruct (get_module_entry_run module vm) as (vm' & -> & _). done. Qed.

Lemma can_read_module_run vm asking target pa pt :
  module_of vm (Some asking) = Normal (Some pa) ->
  module_of vm (Some target) = Normal (Some pt) ->
  exists vm',
    can_read_module (Some asking) (Some target) vm
    = (Normal (bool_decide (pa = pt \/ pt ∈ reads_of vm pa)), vm')
    /\ same_registry vm vm'.
Proof.
  intros Ha Ht. unfold can_read_module, bind.
  destruct (get_module_entry_run (Some asking) vm) as (vm1 & -> & S1).
  rewrite Ha.
  destruct (get_module_entry_run (Some target) vm1) as (vm2 & -> & S2).
  rewrite (module_of_same vm vm1), Ht by done.
  destruct (module_of_deref _ _ _ Ha) as [ea Hea].
  destruct (module_of_deref _ _ _ Ht) as [et Het].
  assert (S12 : same_registry vm vm2) by (by eapply same_registry_trans).
  assert (Hread : forall vm0, same_registry vm vm0 ->
            (if bool_decide (Some pa = Some pt) then ret true
             else ModuleEntry_can_read (Some pa) pt) vm0
            = (Normal (bool_decide (pa = pt \/ pt ∈ reads_of vm pa)), vm0)).
  { intros vm0 S0. unfold reads_of. rewrite Hea.
    destruct (decide (pa = pt)) as [->|Hne].
    - rewrite bool_decide_eq_true_2 by done.
      by rewrite (bool_decide_eq_true_2 (_ \/ _)) by (by left).
    - rewrite bool_decide_eq_false_2 by congruence.
      rewrite (ModuleEntry_can_read_run _ ea)
        by (by rewrite (module_entry_at_same vm vm0)).
      f_equal. f_equal. apply bool_decide_ext. tauto. }
  edestruct (trace_if_run TraceModules) as (vm3 & -> & S3); last first.
  - rewrite Hread by (by eapply same_registry_trans).
    eexists; split; [done | by eapply same_registry_trans].
  - intros vm0 S0. unfold bind.
    assert (S' : same_registry vm vm0) by (by eapply same_registry_trans).
    rewrite (ModuleEntry_name_run _ ea) by (by rewrite (module_entry_at_same vm vm0)).
    rewrite (ModuleEntry_name_run _ et) by (by rewrite (module_entry_at_same vm vm0)).
    rewrite Hread by done. reflexivity.
Qed.

(** C2.  When the asking module is a module of the registry,
    [can_read_module] answers true for the unnamed module (a null target);
    for a target that is a module of the registry too, it answers true exactly
    when the two entries are the same or the entry of the target is in the
    reads set of the entry of the asking module; and a module reads itself,
    whatever its reads set holds. *)
Theorem can_read_module_spec vm (asking target : oop) pa :
  (get_module_entry (Some asking) vm).1 = Normal (Some pa) ->
  (can_read_module (Some asking) None vm).1 = Normal true
  /\ (forall pt,
        (get_module_entry (Some target) vm).1 = Normal (Some pt) ->
        (can_read_module (Some asking) (Some target) vm).1
        = Normal (bool_decide (pa = pt \/ pt ∈ reads_of vm pa)))
  /\ (can_read_module (Some asking) (Some asking) vm).1 = Normal true.
Proof.
  rewrite get_module_entry_outcome. intros Ha. split; [|split].
  - unfold can_read_module, bind.
    destruct (get_module_entry_run (Some asking) vm) as (vm1 & -> & _).
    by rewrite Ha.
  - intros pt. rewrite get_module_entry_outcome. intros Ht.
    destruct (can_read_module_run vm asking target pa pt Ha Ht) as (vm' & -> & _).
    done.
  - destruct (can_read_module_run vm asking asking pa pa Ha Ha) as (vm' & -> & _).
    simpl. by rewrite bool_decide_eq_true_2 by (by left).
Qed.

End Reads.

(** ** Exports: [is_exported_to_module] *)

Section Exports.

Context `{host : Host}.

Lemma get_package_entry_run pm package vm :
  get_package_entry (Some pm) (Some package) vm = (package_of vm pm package, vm).
Proof.
  unfold get_package_entry, package_of, as_utf8_string, bind, ModuleEntry_loader, bind.
  rewrite deref_module_run. destruct (module_entry_at vm pm); done.
Qed.

Lemma package_of_same vm vm' pm package :
  same_registry vm vm' -> package_of vm' pm package = package_of vm pm package.
Proof.
  intros H. unfold package_of. rewrite (module_entry_at_same vm vm') by done.
  destruct (module_entry_at vm pm); [|done].
  by rewrite (packages_of_same vm vm').
Qed.

Lemma package_of_deref vm pm package pp :
  package_of vm pm package = Normal (Some pp) -> is_Some (package_entry_at vm pp).
Proof.
  unfold package_of. destruct (module_entry_at vm pm) as [e|]; [|done].
  destruct (PackageEntryTable_lookup_only _ _) as [pe|] eqn:E; [|done].
  intros [= <-]. unfold package_entry_at; simpl.
  apply package_lookup_only_name in E as [<- Hin].
  destruct (PackageEntryTable_lookup_only _ _) eqn:E'; [by eexists|].
  apply package_lookup_only_absent in E'. destruct E'.
  apply list_elem_of_fmap. by exists pe.
Qed.

Lemma resolve_to_module_run to_module msg vm :
  exists vm', resolve_to_module to_module msg vm = (target_of vm to_module msg, vm')
              /\ same_registry vm vm'.
Proof.
  unfold resolve_to_module, target_of. destruct to_module as [t|].
  - unfold bind. destruct (get_module_entry_run (Some t) vm) as (vm' & -> & S).
    exists vm'. split; [|done]. by destruct (module_of vm (Some t)) as [[?|]| |].
  - exists vm. split; [done | apply same_registry_refl].
Qed.

Lemma target_of_some vm t msg to_entry :
  target_of vm (Some t) msg = Normal to_entry ->
  exists pt, to_entry = Some pt /\ module_of vm (Some t) = Normal (Some pt).
Proof.
  unfold target_of. destruct (module_of vm (Some t)) as [[pt|]| |]; try done.
  intros [= <-]. by exists pt.
Qed.

Lemma trace_if_fault flag line vm :
  flag (flags vm) = true -> line vm = (Fault, vm) ->
  trace_if flag line vm = (Fault, vm).
Proof. intros Hf Hl. unfold trace_if, bind, get_flags. by rewrite Hf, Hl. Qed.

Lemma trace_if_off flag line vm :
  flag (flags vm) = false -> trace_if flag line vm = (Normal tt, vm).
Proof. intros Hf. unfold trace_if, bind, get_flags. by rewrite Hf. Qed.

(** Once its checks have passed, [is_exported_to_module] faults when packages
    are traced and the target is null, and otherwise returns its answer. *)
Lemma is_exported_to_module_run vm from package to_module msg pf to_entry pp pe :
  module_of vm (Some from) = Normal (Some pf) ->
  target_of vm to_module msg = Normal to_entry ->
  verify_package_name_jstring package = true ->
  package_of vm pf package = Normal (Some pp) ->
  package_entry_at vm pp = Some pe ->
  pe_module pe = pf ->
  exists vm',
    is_exported_to_module (Some from) (Some package) to_module vm
    = (if TracePackages (flags vm) && bool_decide (to_module = None) then Fault
       else Normal (exported_to pe pf to_module to_entry), vm')
    /\ same_registry vm vm'.
Proof.
  intros Hf Ht Hv Hp Hpe Ho. unfold is_exported_to_module, bind.
  destruct (get_module_entry_run (Some from) vm) as (vm1 & -> & S1). rewrite Hf.
  destruct (resolve_to_module_run to_module "to_module is invalid" vm1)
    as (vm2 & -> & S2).
  assert (S12 : same_registry vm vm2) by (by eapply same_registry_trans).
  assert (Ht' : target_of vm1 to_module "to_module is invalid" = Normal to_entry).
  { revert Ht. unfold target_of. destruct to_module; [|done].
    rewrite (module_of_same vm vm1) by done.
    by destruct (module_of vm (Some o)) as [[?|]| |]. }
  rewrite Ht', Hv. unfold negb. cbv beta iota.
  rewrite get_package_entry_run, (package_of_same vm vm2), Hp by done.
  rewrite (PackageEntry_module_run _ pe)
    by (by rewrite (package_entry_at_same vm vm2)).
  rewrite Ho, bool_decide_eq_false_2 by (by intros []).
  destruct (module_of_deref _ _ _ Hf) as [ef Hef].
  assert (Hans : forall vm0, same_registry vm vm0 ->
            (let* unqual := PackageEntry_is_unqual_exported (Some pp) in
             if unqual then ret true
             else if bool_decide (Some pf = to_entry) then ret true
             else match to_module with
                  | None => ret false
                  | Some _ => PackageEntry_is_qexported_to (Some pp) to_entry
                  end) vm0
            = (Normal (exported_to pe pf to_module to_entry), vm0)).
  { intros vm0 S0. unfold bind, exported_to.
    rewrite (PackageEntry_is_unqual_exported_run _ pe)
      by (by rewrite (package_entry_at_same vm vm0)).
    destruct (pe_unqual_exported pe); [done|].
    destruct (bool_decide (Some pf = to_entry)); [done|].
    destruct to_module as [t|]; simpl.
    - rewrite (PackageEntry_is_qexported_to_run _ pe)
        by (by rewrite (package_entry_at_same vm vm0)).
      done.
    - done. }
  unfold bind in Hans.
  destruct (TracePackages (flags vm)) eqn:Etp; simpl andb.
  - destruct to_module as [t|]; simpl bool_decide; cbv beta iota in Hans |- *.
    + rewrite ?bool_decide_eq_false_2 by done.
      destruct (target_of_some _ _ _ _ Ht) as (pt & -> & Hpt).
      destruct (module_of_deref _ _ _ Hpt) as [et Het].
      edestruct trace_if_run with
        (flag := TracePackages)
        (s := "[is_exported_to_module: package " +:+ pe_name pe
              +:+ " from module " +:+ me_name ef
              +:+ " checking if exported to module " +:+ me_name et
              +:+ ", exported? = "
              +:+ BOOL_TO_STR (pe_unqual_exported pe
                               || bool_decide (Some pt ∈ pe_exports pe)
                               || bool_decide (Some pf = Some pt)))
        as (vm3 & -> & S3); last first.
      * rewrite Hans by (by eapply same_registry_trans).
        eexists; split; [done | by eapply same_registry_trans].
      * intros vm0 S0.
        assert (S' : same_registry vm vm0) by (by eapply same_registry_trans).
        unfold bind.
        rewrite (PackageEntry_name_run _ pe)
          by (by rewrite (package_entry_at_same vm vm0)).
        rewrite (ModuleEntry_name_run _ ef)
          by (by rewrite (module_entry_at_same vm vm0)).
        rewrite (ModuleEntry_name_run _ et)
          by (by rewrite (module_entry_at_same vm vm0)).
        rewrite (PackageEntry_is_unqual_exported_run _ pe)
          by (by rewrite (package_entry_at_same vm vm0)).
        destruct (pe_unqual_exported pe); [reflexivity|].
        rewrite (PackageEntry_is_qexported_to_run _ pe)
          by (by rewrite (package_entry_at_same vm vm0)).
        destruct (bool_decide (Some pt ∈ pe_exports pe)); reflexivity.
    + rewrite ?bool_decide_eq_true_2 by done. injection Ht as <-.
      rewrite trace_if_fault.
      * by exists vm2.
      * destruct S12 as [<- _]. done.
      * unfold bind.
        rewrite (PackageEntry_name_run _ pe)
          by (by rewrite (package_entry_at_same vm vm2)).
        rewrite (ModuleEntry_name_run _ ef)
          by (by rewrite (module_entry_at_same vm vm2)).
        reflexivity.
  - rewrite trace_if_off by (destruct S12 as [<- _]; done).
    cbv beta iota in Hans |- *. rewrite Hans by done. by exists vm2.
Qed.

End Exports.

(** ** Edges from a module to itself *)

Section SelfEdges.

Context `{host : Host}.

Lemma exported_to_true pe pf to_module to_entry :
  exported_to pe pf to_module to_entry = true
  <-> pe_unqual_exported pe = true
      \/ Some pf = to_entry
      \/ (to_module <> None /\ to_entry ∈ pe_exports pe).
Proof.
  unfold exported_to.
  rewrite !orb_true_iff, andb_true_iff, !bool_decide_eq_true. tauto.
Qed.

(** With the trace of packages off, or with a target that is not null, the
    answer of [is_exported_to_module] is the one of the specification. *)
Lemma is_exported_to_module_spec vm from package to_module to_entry pf pp pe :
  TracePackages (flags vm) = false \/ to_module <> None ->
  (get_module_entry (Some from) vm).1 = Normal (Some pf) ->
  (resolve_to_module to_module "to_module is invalid" vm).1 = Normal to_entry ->
  verify_package_name_jstring package = true ->
  (get_package_entry (Some pf) (Some package) vm).1 = Normal (Some pp) ->
  package_entry_at vm pp = Some pe ->
  pe_module pe = pf ->
  exists b,
    (is_exported_to_module (Some from) (Some package) to_module vm).1 = Normal b
    /\ (b = true <-> pe_unqual_exported pe = true
                     \/ Some pf = to_entry
                     \/ (to_module <> None /\ to_entry ∈ pe_exports pe)).
Proof.
  intros Hsafe Hf Ht Hv Hp Hpe Ho.
  rewrite get_module_entry_outcome in Hf.
  destruct (resolve_to_module_run to_module "to_module is invalid" vm)
    as (vm1 & E1 & _). rewrite E1 in Ht. simpl in Ht.
  rewrite get_package_entry_run in Hp. simpl in Hp.
  destruct (is_exported_to_module_run vm from package to_module _ pf to_entry pp pe
              Hf Ht Hv Hp Hpe Ho) as (vm' & -> & _).
  exists (exported_to pe pf to_module to_entry). split; [|apply exported_to_true].
  simpl. destruct Hsafe as [-> | Hne]; [done|].
  by rewrite (bool_decide_eq_false_2 _ Hne), andb_false_r.
Qed.

Lemma add_reads_module_self vm M pm :
  module_of vm (Some M) = Normal (Some pm) ->
  exists vm', add_reads_module (Some M) (Some M) vm = (Normal tt, vm')
              /\ same_registry vm vm'.
Proof.
  intros Hm. unfold add_reads_module, bind.
  destruct (get_module_entry_run (Some M) vm) as (vm1 & -> & S1). rewrite Hm.
  destruct (get_module_entry_run (Some M) vm1) as (vm2 & -> & S2).
  rewrite (module_of_same vm vm1), Hm by done.
  assert (S12 : same_registry vm vm2) by (by eapply same_registry_trans).
  destruct (module_of_deref _ _ _ Hm) as [em Hem].
  edestruct trace_if_run with
    (flag := TraceModules)
    (s := "[add_reads_module(): Adding read from module " +:+ me_name em
          +:+ " to module " +:+ me_name em +:+ "]")
    as (vm3 & -> & S3); last first.
  - rewrite bool_decide_eq_false_2 by (by intros []).
    eexists; split; [done | by eapply same_registry_trans].
  - intros vm0 S0. unfold bind.
    assert (S' : same_registry vm vm0) by (by eapply same_registry_trans).
    by rewrite !(ModuleEntry_name_run _ em)
      by (by rewrite (module_entry_at_same vm vm0)).
Qed.

Lemma add_module_exports_self vm M package pm pp pe :
  module_of vm (Some M) = Normal (Some pm) ->
  verify_package_name_jstring package = true ->
  package_of vm pm package = Normal (Some pp) ->
  package_entry_at vm pp = Some pe ->
  pe_module pe = pm ->
  pe_unqual_exported pe = false ->
  exists vm', add_module_exports (Some M) (Some package) (Some M) vm = (Normal tt, vm')
              /\ same_registry vm vm'.
Proof.
  intros Hm Hv Hp Hpe Ho Hu. unfold add_module_exports, bind.
  destruct (get_module_entry_run (Some M) vm) as (vm1 & -> & S1). rewrite Hm.
  destruct (resolve_to_module_run (Some M) "to_module is invalid" vm1)
    as (vm2 & -> & S2).
  assert (S12 : same_registry vm vm2) by (by eapply same_registry_trans).
  unfold target_of. rewrite (module_of_same vm vm1), Hm, Hv by done.
  unfold negb. cbv beta iota.
  rewrite get_package_entry_run, (package_of_same vm vm2), Hp by done.
  rewrite (PackageEntry_module_run _ pe)
    by (by rewrite (package_entry_at_same vm vm2)).
  rewrite Ho, bool_decide_eq_false_2 by (by intros []).
  destruct (module_of_deref _ _ _ Hm) as [em Hem].
  edestruct trace_if_run with
    (flag := TraceModules)
    (s := "[add_module_exports(): package:module " +:+ pe_name pe +:+ ":"
          +:+ me_name em +:+ " is exported to module " +:+ me_name em +:+ "]")
    as (vm3 & -> & S3); last first.
  - assert (S' : same_registry vm vm3) by (by eapply same_registry_trans).
    rewrite (PackageEntry_is_unqual_exported_run _ pe)
      by (by rewrite (package_entry_at_same vm vm3)).
    rewrite Hu, ?bool_decide_eq_false_2 by (by intros []).
    by exists vm3.
  - intros vm0 S0. unfold bind.
    assert (S' : same_registry vm vm0) by (by eapply same_registry_trans).
    rewrite (PackageEntry_name_run _ pe)
      by (by rewrite (package_entry_at_same vm vm0)).
    by rewrite !(ModuleEntry_name_run _ em)
      by (by rewrite (module_entry_at_same vm vm0)).
Qed.

(** C7.  For a module [M] of the registry, whether it has a package or not,
    [add_reads_module(M, M)] returns normally and leaves every table, and so
    the reads set of [M], as it was, and [can_read_module(M, M)] is true
    afterwards.  And for every package [p] that is legal, owned by [M] and not
    exported without qualification, [add_module_exports(M, p, M)] returns
    normally and leaves every table, and so the export set and the
    unqualified flag of [p], as it was, and [is_exported_to_module(M, p, M)]
    is true afterwards. *)
Theorem self_edges_are_no_ops vm (M : oop) pm :
  (get_module_entry (Some M) vm).1 = Normal (Some pm) ->
  let r := add_reads_module (Some M) (Some M) vm in
  (r.1 = Normal tt
   /\ same_tables vm r.2
   /\ reads_of r.2 pm = reads_of vm pm
   /\ (can_read_module (Some M) (Some M) r.2).1 = Normal true)
  /\ (forall package pp,
        verify_package_name_jstring package = true ->
        (get_package_entry (Some pm) (Some package) vm).1 = Normal (Some pp) ->
        owner_of vm pp = Some pm ->
        unqual_of vm pp = false ->
        let x := add_module_exports (Some M) (Some package) (Some M) vm in
        x.1 = Normal tt
        /\ same_tables vm x.2
        /\ exports_of x.2 pp = exports_of vm pp
        /\ unqual_of x.2 pp = unqual_of vm pp
        /\ (is_exported_to_module (Some M) (Some package) (Some M) x.2).1
           = Normal true).
Proof.
  rewrite get_module_entry_outcome. intros Hm. cbv zeta. split.
  - destruct (add_reads_module_self vm M pm Hm) as (vm' & -> & S). cbn [fst snd].
    split; [done|]. split; [by apply same_registry_tables|]. split.
    + unfold reads_of. by rewrite (module_entry_at_same vm vm').
    + rewrite <- (module_of_same vm vm') in Hm by done.
      destruct (can_read_module_run vm' M M pm pm Hm Hm) as (vm'' & -> & _).
      cbn [fst snd]. by rewrite bool_decide_eq_true_2 by (by left).
  - intros package pp Hv. rewrite get_package_entry_run. cbn [fst].
    intros Hp Ho Hu.
    unfold owner_of in Ho. unfold unqual_of in Hu.
    destruct (package_entry_at vm pp) as [pe|] eqn:Hpe; [|done].
    injection Ho as Ho.
    destruct (add_module_exports_self vm M package pm pp pe Hm Hv Hp Hpe Ho Hu)
      as (vm' & -> & S). cbn [fst snd].
    split; [done|]. split; [by apply same_registry_tables|].
    unfold exports_of, unqual_of. rewrite (package_entry_at_same vm vm') by done.
    split; [done|]. split; [done|].
    edestruct (is_exported_to_module_run vm' M package (Some M) "to_module is invalid"
                 pm (Some pm) pp pe) as (vm'' & -> & _).
    + by rewrite (module_of_same vm vm').
    + unfold target_of. by rewrite (module_of_same vm vm'), Hm.
    + done.
    + by rewrite (package_of_same vm vm').
    + by rewrite (package_entry_at_same vm vm').
    + done.
    + cbn [fst snd]. rewrite andb_false_r. f_equal.
      apply exported_to_true. by right; left.
Qed.

End SelfEdges.

(** ** One more package for a module: [add_module_package] *)

Section AddPackage.

Context `{host : Host}.

Lemma packages_of_set_cld l c vm l' :
  packages_of (set_cld l c vm) l'
  = if decide (l = l') then packages c else packages_of vm l'.
Proof.
  unfold packages_of. rewrite cld_of_set_cld. by destruct (decide (l = l')).
Qed.

Lemma modules_of_set_cld l c vm l' :
  modules_of (set_cld l c vm) l'
  = if decide (l = l') then modules c else modules_of vm l'.
Proof.
  unfold modules_of. rewrite cld_of_set_cld. by destruct (decide (l = l')).
Qed.

Lemma flags_set_cld l c vm : flags (set_cld l c vm) = flags vm.
Proof. done. Qed.

Lemma package_lookup_only_present t name :
  name ∈ map pe_name t -> is_Some (PackageEntryTable_lookup_only t name).
Proof.
  intros Hin. destruct (PackageEntryTable_lookup_only t name) eqn:E; [by eexists|].
  by apply package_lookup_only_absent in E.
Qed.

(** C8.  For a module [M] of the registry, whose entry names the loader [l],
    and a legal package name: if the package table of [l] holds the name,
    whoever owns the package there, [add_module_package] raises the exception
    that the package already exists and leaves every table as it was;
    otherwise it returns normally, the package table of [l] has gained exactly
    one entry, of that name and with [M] as its module, no other table has
    changed, and the names of the package table of [l] are still pairwise
    different if they were. *)
Theorem add_module_package_spec vm (M : oop) name pm em :
  (get_module_entry (Some M) vm).1 = Normal (Some pm) ->
  module_entry_at vm pm = Some em ->
  verify_package_name (Some name) = true ->
  let r := add_module_package (Some M) (Some name) vm in
  let l := me_loader em in
  if bool_decide (name ∈ map pe_name (packages_of vm l)) then
    r.1 = IllegalArgumentException
            (err_msg ("Package " +:+ name +:+ " already exists for class loader"))
    /\ same_tables vm r.2
  else
    r.1 = Normal tt
    /\ packages_of r.2 l = mk_PackageEntry name pm ∅ false :: packages_of vm l
    /\ (forall l', l' <> l -> packages_of r.2 l' = packages_of vm l')
    /\ (forall l', modules_of r.2 l' = modules_of vm l')
    /\ (NoDup (map pe_name (packages_of vm l)) ->
        NoDup (map pe_name (packages_of r.2 l))).
Proof.
  rewrite get_module_entry_outcome. intros Hm Hem Hv. cbv zeta.
  unfold add_module_package, bind, as_utf8_string.
  destruct (get_module_entry_run (Some M) vm) as (vm1 & -> & S1).
  rewrite Hm, Hv. unfold negb. cbv beta iota.
  edestruct trace_if_run with
    (vm := vm1) (flag := TraceModules)
    (s := "[add_module_package(): Adding package " +:+ name
          +:+ " to module " +:+ me_name em +:+ "]")
    as (vm2 & -> & S2).
  { intros vm0 S0. unfold bind.
    assert (S' : same_registry vm vm0) by (by eapply same_registry_trans).
    by rewrite (ModuleEntry_name_run _ em)
      by (by rewrite (module_entry_at_same vm vm0)). }
  assert (S12 : same_registry vm vm2) by (by eapply same_registry_trans).
  rewrite (ModuleEntry_loader_run _ em)
    by (by rewrite (module_entry_at_same vm vm2)).
  unfold lookup_package, PackageEntryTable_locked_create_entry_or_null.
  cbv beta iota. rewrite !(packages_of_same vm vm2) by done.
  case_bool_decide as Hin.
  - destruct (package_lookup_only_present _ _ Hin) as [pe ->].
    cbn [fmap option_fmap option_map fst snd].
    split; [done | by apply same_registry_tables].
  - apply package_lookup_only_absent in Hin as Habs. rewrite Habs.
    cbn [fmap option_fmap option_map].
    rewrite !(packages_of_same vm vm2), Habs by done.
    cbn [fst snd ret].
    split; [done|].
    split; [by rewrite packages_of_set_cld, decide_True by done|].
    split; [|split].
    + intros l' Hne. rewrite packages_of_set_cld, decide_False by done.
      by rewrite (packages_of_same vm vm2).
    + intros l'. rewrite modules_of_set_cld.
      destruct (decide (me_loader em = l')) as [<-|]; cbn [modules];
        by rewrite (modules_of_same vm vm2).
    + intros Hnd. rewrite packages_of_set_cld, decide_True by done.
      cbn [packages map pe_name]. by apply NoDup_cons.
Qed.

End AddPackage.

(** ** Definition of a module: [define_module] *)

Section Define.

Context `{host : Host}.

Lemma keeps_atomic {A} (c : VMop A) : keeps c -> atomic c.
Proof. intros H vm msg _. apply H. Qed.

Lemma no_throw_atomic {A} (c : VMop A) : no_throw c -> atomic c.
Proof. intros H vm msg E. by destruct (H vm msg). Qed.

Lemma keeps_ret {A} (a : A) : keeps (ret a).
Proof. intros vm. apply same_registry_refl. Qed.

Lemma keeps_THROW_MSG {A} msg : keeps (@THROW_MSG A msg).
Proof. intros vm. apply same_registry_refl. Qed.

Lemma keeps_fault {A} : keeps (@fault A).
Proof. intros vm. apply same_registry_refl. Qed.

Lemma keeps_bind {A B} (c : VMop A) (k : A -> VMop B) :
  keeps c -> (forall a, keeps (k a)) -> keeps (bind c k).
Proof.
  intros Hc Hk vm. unfold bind. specialize (Hc vm).
  destruct (c vm) as [[a| |] vm1]; simpl in *; [|done..].
  eapply same_registry_trans; [done | apply Hk].
Qed.

Lemma keeps_trace_if flag line : keeps line -> keeps (trace_if flag line).
Proof.
  intros H. unfold trace_if. apply keeps_bind; [intros vm; apply same_registry_refl|].
  intros fl. destruct (flag fl); [|apply keeps_ret].
  apply keeps_bind; [done|]. intros s vm. apply same_registry_printed.
Qed.

Lemma keeps_register_loader l : keeps (register_loader l).
Proof. intros vm. rewrite register_loader_run. apply same_registry_registered. Qed.

Lemma keeps_lookup_package table name : keeps (lookup_package table name).
Proof. intros vm. unfold lookup_package. destruct table; apply same_registry_refl. Qed.

Lemma keeps_lookup_module table name : keeps (lookup_module table name).
Proof. intros vm. apply same_registry_refl. Qed.

Lemma keeps_create h_loader h_name :
  keeps (java_lang_reflect_Module_create h_loader h_name).
Proof. intros vm. by split. Qed.

Lemma keeps_check_package_array module_name elements pkg_list :
  keeps (check_package_array module_name elements pkg_list).
Proof.
  revert pkg_list. induction elements as [|[[| |str|]|] rest IH]; intros pkg_list;
    simpl; try apply keeps_THROW_MSG; [apply keeps_ret|].
  destruct (negb _); [apply keeps_THROW_MSG|].
  destruct (bool_decide _); [apply keeps_THROW_MSG | apply IH].
Qed.

Lemma keeps_check_packages_absent mt pt sym module_name pkg_list :
  keeps (check_packages_absent mt pt sym module_name pkg_list).
Proof.
  induction pkg_list as [|pkg rest IH]; simpl; [apply keeps_ret|].
  apply keeps_bind; [apply keeps_lookup_package|]. intros [found|]; [|done].
  apply keeps_bind; [apply keeps_lookup_module|].
  intros [?|]; apply keeps_THROW_MSG.
Qed.

Lemma atomic_bind {A B} (c : VMop A) (k : A -> VMop B) :
  keeps c -> (forall a, atomic (k a)) -> atomic (bind c k).
Proof.
  intros Hc Hk vm msg. unfold bind. specialize (Hc vm).
  destruct (c vm) as [[a| |] vm1] eqn:E; simpl in *; [|done..].
  intros Hthrow. eapply same_registry_trans; [done | by eapply Hk].
Qed.

Lemma no_throw_ret {A} (a : A) : no_throw (ret a).
Proof. by intros vm msg. Qed.

Lemma no_throw_bind {A B} (c : VMop A) (k : A -> VMop B) :
  no_throw c -> (forall a, no_throw (k a)) -> no_throw (bind c k).
Proof.
  intros Hc Hk vm msg. unfold bind. specialize (Hc vm).
  destruct (c vm) as [[a| |] vm1] eqn:E; simpl in *; [apply Hk | | done].
  by destruct (Hc msg0).
Qed.

Lemma no_throw_trace_if flag line : no_throw line -> no_throw (trace_if flag line).
Proof.
  intros H. unfold trace_if. apply no_throw_bind; [by intros vm msg|].
  intros fl. destruct (flag fl); [|apply no_throw_ret].
  apply no_throw_bind; [done | by intros s vm msg].
Qed.

Lemma no_throw_create_package_entries pt me module_name pkg_list :
  no_throw (create_package_entries pt me module_name pkg_list).
Proof.
  induction pkg_list as [|pkg rest IH]; simpl; [apply no_throw_ret|].
  apply no_throw_bind.
  - intros vm msg. unfold PackageEntryTable_locked_create_entry_or_null.
    destruct pt; [|done]. by destruct (PackageEntryTable_lookup_only _ _).
  - intros _. apply no_throw_bind; [|done].
    apply no_throw_trace_if, no_throw_ret.
Qed.

Lemma no_throw_add_to_boot_loader_list module_name :
  no_throw (add_to_boot_loader_list module_name).
Proof.
  unfold add_to_boot_loader_list.
  assert (Hadd : forall s p,
            no_throw (run trace_if TraceClassLoading (ret s)
                      then ClassLoader_add_to_list p)).
  { intros s p. apply no_throw_bind; [apply no_throw_trace_if, no_throw_ret|].
    by intros _ vm msg. }
  apply no_throw_bind.
  - destruct Arguments_override_dir; [|apply no_throw_ret].
    destruct (os_stat_ok _); [apply Hadd | apply no_throw_ret].
  - intros _. destruct (negb _); [|apply no_throw_ret].
    destruct (os_stat_ok _); [apply Hadd | apply no_throw_ret].
Qed.

(** The insertion of the module entry is the one step of [define_module] that
    changes a table; what follows it raises no exception. *)
Lemma atomic_insertion {B} table module name loader
    (k : option ModuleEntryPtr -> VMop B) :
  keeps (k None) -> (forall p, no_throw (k (Some p))) ->
  atomic (bind (ModuleEntryTable_locked_create_entry_or_null
                  table module name loader) k).
Proof.
  intros Hnone Hsome vm msg. unfold bind, ModuleEntryTable_locked_create_entry_or_null.
  destruct (ModuleEntryTable_lookup_only _ _).
  - intros _. apply Hnone.
  - intros E. by destruct (Hsome _ _ _ E).
Qed.

Lemma define_module_atomic name loader packages :
  atomic (define_module name loader packages).
Proof.
  unfold define_module.
  destruct name as [name_str|]; [|apply keeps_atomic, keeps_THROW_MSG].
  unfold as_utf8_string.
  apply atomic_bind; [apply keeps_trace_if, keeps_ret|]. intros _.
  destruct (negb _); [apply keeps_atomic, keeps_THROW_MSG|].
  destruct (bool_decide _); [apply keeps_atomic, keeps_THROW_MSG|].
  apply atomic_bind; [apply keeps_check_package_array|]. intros pkg_list.
  destruct (resolve_class_loader loader) as [h_loader|];
    [|apply keeps_atomic, keeps_THROW_MSG].
  apply atomic_bind.
  { apply keeps_bind; [apply keeps_register_loader | intros; apply keeps_ret]. }
  intros module_table.
  apply atomic_bind; [apply keeps_create|]. intros jlrM.
  apply atomic_bind.
  { destruct (bool_decide _); [|apply keeps_ret].
    apply keeps_bind.
    { apply keeps_bind; [apply keeps_register_loader | intros; apply keeps_ret]. }
    intros pt. apply keeps_bind; [apply keeps_check_packages_absent|].
    intros; apply keeps_ret. }
  intros package_table. apply atomic_insertion; [apply keeps_THROW_MSG|].
  intros p.
  apply no_throw_bind; [apply no_throw_trace_if, no_throw_ret|]. intros _.
  apply no_throw_bind; [apply no_throw_create_package_entries|]. intros _.
  apply no_throw_bind; [|intros; apply no_throw_ret].
  destruct loader; [apply no_throw_ret | apply no_throw_add_to_boot_loader_list].
Qed.

(** C3.  Whenever [define_module] raises an exception, whatever the cause,
    every table of every loader is as it was before the call, and the probes
    of the queries, for a module handle and for a package name, find what they
    found before the call. *)
Theorem define_module_atomic_on_failure vm name loader packages msg :
  (define_module name loader packages vm).1 = IllegalArgumentException msg ->
  let vm' := (define_module name loader packages vm).2 in
  same_tables vm vm'
  /\ (forall module, (get_module_entry module vm').1 = (get_module_entry module vm).1)
  /\ (forall pm package,
        (get_package_entry (Some pm) (Some package) vm').1
        = (get_package_entry (Some pm) (Some package) vm).1).
Proof.
  intros E. cbv zeta.
  pose proof (define_module_atomic name loader packages vm msg E) as S.
  split; [by apply same_registry_tables|]. split.
  - intros module. rewrite !get_module_entry_outcome. by apply module_of_same.
  - intros pm package. rewrite !get_package_entry_run. cbn [fst].
    by apply package_of_same.
Qed.

Lemma trace_ret_run flag (s : string) vm :
  exists vm', trace_if flag (ret s) vm = (Normal tt, vm') /\ same_registry vm vm'.
Proof. apply trace_if_run with (s := s). done. Qed.

(** C6.  Whatever the loader and the packages, [define_module] on the name
    java.base raises the exception: that the name is not a module name if the
    check of module names refuses it, that java.base is already defined
    otherwise; and every table is as it was. *)
Theorem define_module_java_base vm loader packages :
  let r := define_module (Some java_base) loader packages vm in
  r.1 = IllegalArgumentException
          (if verify_module_name (Some java_base)
           then "Module java.base is already defined"
           else err_msg "Invalid module name: java.base")
  /\ same_tables vm r.2.
Proof.
  cbv zeta. unfold define_module, as_utf8_string, bind.
  edestruct trace_ret_run as (vm1 & -> & S1).
  destruct (verify_module_name (Some java_base)); cbn [negb fst snd].
  - rewrite bool_decide_eq_true_2 by done.
    split; [done | by apply same_registry_tables].
  - split; [done | by apply same_registry_tables].
Qed.

Lemma check_package_array_run module_name (pkgs acc : list Symbol) vm :
  NoDup (acc ++ pkgs)%list ->
  Forall (fun s => verify_package_name (Some s) = true) pkgs ->
  check_package_array module_name (map (fun s => Some (String_oop s)) pkgs) acc vm
  = (Normal (acc ++ pkgs)%list, vm).
Proof.
  revert acc. induction pkgs as [|s pkgs IH]; intros acc Hnd Hlegal;
    cbn [map check_package_array].
  - by rewrite app_nil_r.
  - apply Forall_cons in Hlegal as [Hs Hlegal].
    unfold as_utf8_string. rewrite Hs. cbn [negb].
    rewrite bool_decide_eq_false_2.
    + rewrite IH; [by rewrite <- app_assoc | by rewrite <- app_assoc | done].
    + apply NoDup_app in Hnd as (_ & Hdisj & _). intros Hin.
      apply (Hdisj _ Hin). by left.
Qed.

Lemma check_packages_absent_run mt pt sym module_name pkg_list vm :
  check_packages_absent mt (Some pt) sym module_name pkg_list vm
  = (match first_existing vm pt pkg_list with
     | None => Normal tt
     | Some pkg =>
         IllegalArgumentException
           (err_msg
              (match ModuleEntryTable_lookup_only (modules_of vm mt) sym with
               | Some _ => "Module " +:+ module_name +:+ " is already defined"
               | None => "Package " +:+ pkg +:+ " for module " +:+ module_name
                         +:+ " already exists for class loader"
               end))
     end, vm).
Proof.
  unfold first_existing. induction pkg_list as [|pkg rest IH]; simpl; [done|].
  unfold bind, lookup_package, lookup_module.
  case_bool_decide as Hin.
  - destruct (package_lookup_only_present _ _ Hin) as [pe ->]. simpl.
    by destruct (ModuleEntryTable_lookup_only _ _).
  - apply package_lookup_only_absent in Hin. rewrite Hin. simpl. apply IH.
Qed.

(** C4.  Let the checks of the arguments pass: a legal module name other than
    java.base, packages that are legal and pairwise different, a loader.  If
    the package table of the loader holds one of the packages, [define_module]
    raises the exception that the module is already defined when the module
    table of the loader holds the name of the module, and otherwise the
    exception that the package, the first of the list that the table holds,
    already exists for the class loader. *)
Theorem define_module_package_exists vm module_name loader h_loader pkgs pkg :
  verify_module_name (Some module_name) = true ->
  module_name <> java_base ->
  NoDup pkgs ->
  Forall (fun s => verify_package_name (Some s) = true) pkgs ->
  resolve_class_loader loader = Some h_loader ->
  first_existing vm h_loader pkgs = Some pkg ->
  (define_module (Some module_name) loader
                 (Some (map (fun s => Some (String_oop s)) pkgs)) vm).1
  = IllegalArgumentException
      (err_msg
         (match ModuleEntryTable_lookup_only (modules_of vm h_loader) module_name with
          | Some _ => "Module " +:+ module_name +:+ " is already defined"
          | None => "Package " +:+ pkg +:+ " for module " +:+ module_name
                    +:+ " already exists for class loader"
          end)).
Proof.
  intros Hv Hjb Hnd Hlegal Hl Hfirst.
  unfold define_module, as_utf8_string, bind.
  edestruct trace_ret_run as (vm1 & -> & S1).
  rewrite Hv, bool_decide_eq_false_2 by done. cbn [negb].
  rewrite check_package_array_run by done. rewrite Hl. cbn [app].
  unfold get_module_entry_table, get_package_entry_table,
    non_reflection_class_loader, bind, ret.
  rewrite register_loader_run.
  unfold java_lang_reflect_Module_create.
  rewrite bool_decide_eq_true_2.
  2:{ rewrite length_map. destruct pkgs; [done | simpl; lia]. }
  rewrite register_loader_run, check_packages_absent_run.
  match goal with
  | |- context [first_existing ?vmx h_loader pkgs] =>
      assert (S : same_registry vm vmx)
  end.
  { eapply same_registry_trans; [apply S1|].
    eapply same_registry_trans; [apply same_registry_registered|].
    eapply same_registry_trans; [|apply same_registry_registered].
    by split. }
  unfold first_existing in *.
  rewrite (packages_of_same _ _ _ S), Hfirst, (modules_of_same _ _ _ S).
  done.
Qed.

(** *** No fault in [define_module] *)

Lemma no_fault_ret {A} (a : A) : no_fault (ret a).
Proof. by intros vm. Qed.

Lemma no_fault_THROW_MSG {A} msg : no_fault (@THROW_MSG A msg).
Proof. by intros vm. Qed.

Lemma no_fault_bind_returns {A B} (P : A -> Prop) (c : VMop A) (k : A -> VMop B) :
  no_fault c -> returns P c -> (forall a, P a -> no_fault (k a)) ->
  no_fault (bind c k).
Proof.
  intros Hc Hr Hk vm. unfold bind. specialize (Hc vm). specialize (Hr vm).
  destruct (c vm) as [[a| |] vm1]; simpl in *; [|done..].
  apply Hk, Hr. done.
Qed.

Lemma no_fault_bind {A B} (c : VMop A) (k : A -> VMop B) :
  no_fault c -> (forall a, no_fault (k a)) -> no_fault (bind c k).
Proof.
  intros Hc Hk. apply (no_fault_bind_returns (fun _ => True)); [done | done | auto].
Qed.

Lemma no_fault_trace_if flag line : no_fault line -> no_fault (trace_if flag line).
Proof.
  intros H. unfold trace_if. apply no_fault_bind; [by intros vm|].
  intros fl. destruct (flag fl); [|apply no_fault_ret].
  apply no_fault_bind; [done | by intros s vm].
Qed.

Lemma no_fault_register_loader l : no_fault (register_loader l).
Proof. intros vm. by rewrite register_loader_run. Qed.

Lemma no_fault_check_package_array module_name elements pkg_list :
  no_fault (check_package_array module_name elements pkg_list).
Proof.
  revert pkg_list. induction elements as [|[[| |str|]|] rest IH]; intros pkg_list;
    simpl; try apply no_fault_THROW_MSG; [apply no_fault_ret|].
  destruct (negb _); [apply no_fault_THROW_MSG|].
  destruct (bool_decide _); [apply no_fault_THROW_MSG | apply IH].
Qed.

Lemma no_fault_check_packages_absent mt pt sym module_name pkg_list :
  no_fault (check_packages_absent mt (Some pt) sym module_name pkg_list).
Proof.
  induction pkg_list as [|pkg rest IH]; simpl; [apply no_fault_ret|].
  apply no_fault_bind; [by intros vm|]. intros [found|]; [|done].
  apply no_fault_bind; [by intros vm|].
  intros [?|]; apply no_fault_THROW_MSG.
Qed.

Lemma no_fault_create_package_entries pt me module_name pkg_list :
  (pt = None -> pkg_list = []) ->
  no_fault (create_package_entries pt me module_name pkg_list).
Proof.
  intros Hpt. destruct pt as [l|]; [|rewrite Hpt by done; apply no_fault_ret].
  clear Hpt. induction pkg_list as [|pkg rest IH]; simpl; [apply no_fault_ret|].
  apply no_fault_bind.
  - intros vm. unfold PackageEntryTable_locked_create_entry_or_null.
    by destruct (PackageEntryTable_lookup_only _ _).
  - intros _. apply no_fault_bind; [|done].
    apply no_fault_trace_if, no_fault_ret.
Qed.

Lemma no_fault_add_to_boot_loader_list module_name :
  no_fault (add_to_boot_loader_list module_name).
Proof.
  unfold add_to_boot_loader_list.
  assert (Hadd : forall s p,
            no_fault (run trace_if TraceClassLoading (ret s)
                      then ClassLoader_add_to_list p)).
  { intros s p. apply no_fault_bind; [apply no_fault_trace_if, no_fault_ret|].
    by intros _ vm. }
  apply no_fault_bind.
  - destruct Arguments_override_dir; [|apply no_fault_ret].
    destruct (os_stat_ok _); [apply Hadd | apply no_fault_ret].
  - intros _. destruct (negb _); [|apply no_fault_ret].
    destruct (os_stat_ok _); [apply Hadd | apply no_fault_ret].
Qed.

Lemma returns_check_package_array_nil module_name :
  returns (fun pkg_list => pkg_list = []) (check_package_array module_name [] []).
Proof. intros vm a. simpl. by intros [= <-]. Qed.

(** [define_module] does not fault: the package table is there whenever the
    list of packages is not empty, as the code asserts before its last
    loop. *)
Lemma define_module_no_fault name loader packages :
  no_fault (define_module name loader packages).
Proof.
  unfold define_module.
  destruct name as [name_str|]; [|apply no_fault_THROW_MSG].
  unfold as_utf8_string.
  apply no_fault_bind; [apply no_fault_trace_if, no_fault_ret|]. intros _.
  destruct (negb _); [apply no_fault_THROW_MSG|].
  destruct (bool_decide (name_str = java_base)); [apply no_fault_THROW_MSG|].
  set (elements := match packages with Some a => a | None => [] end).
  apply (no_fault_bind_returns (fun pkg_list => elements = [] -> pkg_list = []));
    [apply no_fault_check_package_array | |].
  { intros vm a. destruct elements; [|done]. intros E _.
    by apply (returns_check_package_array_nil name_str vm). }
  intros pkg_list Hnil.
  destruct (resolve_class_loader loader) as [h_loader|]; [|apply no_fault_THROW_MSG].
  apply no_fault_bind.
  { apply no_fault_bind; [apply no_fault_register_loader|].
    intros; apply no_fault_ret. }
  intros module_table.
  apply no_fault_bind; [by intros vm|]. intros jlrM.
  apply (no_fault_bind_returns (fun pt => pt = None -> pkg_list = [])).
  - case_bool_decide; [|apply no_fault_ret].
    apply no_fault_bind.
    { apply no_fault_bind; [apply no_fault_register_loader|].
    intros; apply no_fault_ret. }
    intros pt. apply no_fault_bind; [apply no_fault_check_packages_absent|].
    intros; apply no_fault_ret.
  - intros vm pt. case_bool_decide as Hlen.
    + unfold bind, get_package_entry_table, non_reflection_class_loader, bind, ret.
      rewrite register_loader_run.
      destruct (check_packages_absent _ _ _ _ _ _) as [[[]| |] ?]; simpl; congruence.
    + intros _ _. apply Hnil. destruct elements; [done | simpl in Hlen; lia].
  - intros package_table Hpt.
    apply no_fault_bind.
    { intros vm. unfold ModuleEntryTable_locked_create_entry_or_null.
      by destruct (ModuleEntryTable_lookup_only _ _). }
    intros [module_entry|]; [|apply no_fault_THROW_MSG].
    apply no_fault_bind; [apply no_fault_trace_if, no_fault_ret|]. intros _.
    apply no_fault_bind; [by apply no_fault_create_package_entries|]. intros _.
    apply no_fault_bind; [|intros; apply no_fault_ret].
    destruct loader; [apply no_fault_ret | apply no_fault_add_to_boot_loader_list].
Qed.

(** *** A definition that succeeds *)

Lemma keeps_add_to_boot_loader_list module_name :
  keeps (add_to_boot_loader_list module_name).
Proof.
  unfold add_to_boot_loader_list.
  assert (Hadd : forall s p,
            keeps (run trace_if TraceClassLoading (ret s)
                   then ClassLoader_add_to_list p)).
  { intros s p. apply keeps_bind; [apply keeps_trace_if, keeps_ret|].
    by intros _ vm. }
  apply keeps_bind.
  - destruct Arguments_override_dir; [|apply keeps_ret].
    destruct (os_stat_ok _); [apply Hadd | apply keeps_ret].
  - intros _. destruct (negb _); [|apply keeps_ret].
    destruct (os_stat_ok _); [apply Hadd | apply keeps_ret].
Qed.

Lemma add_to_boot_loader_list_run module_name vm :
  exists vm', add_to_boot_loader_list module_name vm = (Normal tt, vm')
              /\ same_registry vm vm'.
Proof.
  pose proof (keeps_add_to_boot_loader_list module_name vm) as Hk.
  pose proof (no_throw_add_to_boot_loader_list module_name vm) as Ht.
  pose proof (no_fault_add_to_boot_loader_list module_name vm) as Hf.
  destruct (add_to_boot_loader_list module_name vm) as [[[]| |] vm'];
    simpl in *; [by exists vm' | by destruct (Ht msg) | done].
Qed.

(** The last loop of [define_module] creates an entry for each package of the
    list: no creation fails, as the code asserts. *)
Lemma create_package_entries_run l me module_name (pkgs : list Symbol) vm :
  NoDup pkgs ->
  (forall pkg, pkg ∈ pkgs -> pkg ∉ map pe_name (packages_of vm l)) ->
  exists vm',
    create_package_entries (Some l) me module_name pkgs vm = (Normal tt, vm')
    /\ flags vm' = flags vm
    /\ (forall l', modules_of vm' l' = modules_of vm l')
    /\ packages_of vm' l
       = (rev (map (fun pkg => mk_PackageEntry pkg me ∅ false) pkgs)
          ++ packages_of vm l)%list
    /\ (forall l', l' <> l -> packages_of vm' l' = packages_of vm l').
Proof.
  revert vm. induction pkgs as [|pkg rest IH]; intros vm Hnd Habs.
  - exists vm. simpl. done.
  - apply NoDup_cons in Hnd as [Hpkg Hnd].
    cbn [create_package_entries]. unfold bind at 1.
    unfold PackageEntryTable_locked_create_entry_or_null.
    assert (Hnone : PackageEntryTable_lookup_only (packages_of vm l) pkg = None).
    { apply package_lookup_only_absent, Habs. by left. }
    rewrite Hnone. unfold bind at 1.
    edestruct trace_ret_run as (vm2 & -> & [Hfl Hcld]).
    set (vm1 := set_cld l _ vm) in *.
    assert (Hp1 : forall l', packages_of vm2 l'
                             = if decide (l = l')
                               then mk_PackageEntry pkg me ∅ false :: packages_of vm l
                               else packages_of vm l').
    { intros l'. unfold packages_of at 1. rewrite <- Hcld.
      fold (packages_of vm1 l'). unfold vm1. rewrite packages_of_set_cld.
      by destruct (decide (l = l')). }
    assert (Hm1 : forall l', modules_of vm2 l' = modules_of vm l').
    { intros l'. unfold modules_of at 1. rewrite <- Hcld.
      fold (modules_of vm1 l'). unfold vm1. rewrite modules_of_set_cld.
      by destruct (decide (l = l')) as [<-|]. }
    destruct (IH vm2 Hnd) as (vm' & -> & Hfl' & Hm' & Hp' & Ho').
    { intros q Hq. rewrite Hp1, decide_True by done. cbn [map pe_name].
      apply not_elem_of_cons. split; [by intros -> | apply Habs; by right]. }
    exists vm'. split; [done|]. split; [by rewrite Hfl', <- Hfl|].
    split; [intros l'; by rewrite Hm', Hm1|]. split.
    + rewrite Hp', Hp1, decide_True by done. cbn [map rev].
      by rewrite <- app_assoc.
    + intros l' Hne. by rewrite Ho', Hp1, decide_False by done.
Qed.

Lemma first_existing_none vm l (pkgs : list Symbol) :
  first_existing vm l pkgs = None ->
  forall pkg, pkg ∈ pkgs -> pkg ∉ map pe_name (packages_of vm l).
Proof.
  unfold first_existing. intros Hnone pkg Hin.
  apply list_elem_of_In in Hin.
  pose proof (find_none _ _ Hnone _ Hin) as Hb. simpl in Hb.
  by apply bool_decide_eq_false in Hb.
Qed.

(** When the checks of [define_module] pass, the module table of the loader
    gains the entry of the module, its package table gains one entry for each
    package of the list, owned by the module and exported to nobody, and the
    tables of the other loaders are as they were. *)
Lemma define_module_succeeds vm module_name loader h_loader (pkgs : list Symbol) :
  verify_module_name (Some module_name) = true ->
  module_name <> java_base ->
  NoDup pkgs ->
  Forall (fun s => verify_package_name (Some s) = true) pkgs ->
  resolve_class_loader loader = Some h_loader ->
  first_existing vm h_loader pkgs = None ->
  ModuleEntryTable_lookup_only (modules_of vm h_loader) module_name = None ->
  exists id vm',
    let module := mk_jlrModule id h_loader module_name in
    define_module (Some module_name) loader
                  (Some (map (fun s => Some (String_oop s)) pkgs)) vm
    = (Normal (Some (Module_oop module)), vm')
    /\ modules_of vm' h_loader
       = mk_ModuleEntry module_name module h_loader ∅ :: modules_of vm h_loader
    /\ packages_of vm' h_loader
       = (rev (map (fun pkg => mk_PackageEntry pkg (h_loader, module_name) ∅ false)
                   pkgs)
          ++ packages_of vm h_loader)%list
    /\ (forall l', l' <> h_loader ->
          modules_of vm' l' = modules_of vm l'
          /\ packages_of vm' l' = packages_of vm l').
Proof.
  intros Hv Hjb Hnd Hlegal Hl Hfirst Hfree.
  unfold define_module, as_utf8_string. unfold bind at 1.
  edestruct trace_ret_run as (vm1 & -> & S1).
  rewrite Hv, bool_decide_eq_false_2 by done. cbn [negb].
  unfold bind at 1. rewrite check_package_array_run by done. rewrite Hl. cbn [app].
  unfold bind at 1.
  unfold get_module_entry_table, non_reflection_class_loader. unfold bind at 1.
  rewrite register_loader_run. unfold ret at 1.
  unfold bind at 1. unfold java_lang_reflect_Module_create at 1.
  set (vm3 := mk_VM _ _ (S _) _ _).
  assert (S3 : same_registry vm vm3).
  { eapply same_registry_trans; [apply S1|].
    eapply same_registry_trans; [apply same_registry_registered|]. by split. }
  set (module := mk_jlrModule _ h_loader module_name).
  exists (module_id module).
  assert (Hpt : exists vm4 pt,
            (if bool_decide (0 < length (map (fun s => Some (String_oop s)) pkgs))
             then let* package_table := get_package_entry_table h_loader in
                  run check_packages_absent h_loader (Some package_table)
                        module_name module_name pkgs
                  then ret (Some package_table)
             else ret None) vm3 = (Normal pt, vm4)
            /\ same_registry vm vm4
            /\ (pkgs <> [] -> pt = Some h_loader)).
  { case_bool_decide as Hlen.
    - unfold get_package_entry_table, non_reflection_class_loader, bind, ret.
      rewrite register_loader_run, check_packages_absent_run.
      assert (S4 : same_registry vm (registered h_loader vm3))
        by (eapply same_registry_trans; [apply S3 | apply same_registry_registered]).
      unfold first_existing in *. rewrite (packages_of_same _ _ _ S4), Hfirst.
      by eexists _, _.
    - exists vm3, None. split; [done|]. split; [done|].
      intros Hne. destruct pkgs; [done|]. rewrite length_map in Hlen.
      simpl in Hlen. lia. }
  destruct Hpt as (vm4 & pt & Ept & S4 & Hpt).
  unfold bind at 1. rewrite Ept. unfold bind at 1.
  unfold ModuleEntryTable_locked_create_entry_or_null, class_loader_data_or_null.
  rewrite (modules_of_same _ _ _ S4), Hfree.
  unfold bind at 1.
  edestruct trace_ret_run as (vm6 & -> & [Hfl6 Hcld6]).
  set (vm5 := set_cld h_loader _ vm4) in *.
  assert (Hm6 : forall l', modules_of vm6 l'
                           = if decide (h_loader = l')
                             then mk_ModuleEntry module_name module h_loader ∅
                                  :: modules_of vm h_loader
                             else modules_of vm l').
  { intros l'. unfold modules_of at 1. rewrite <- Hcld6.
    fold (modules_of vm5 l'). unfold vm5. rewrite modules_of_set_cld.
    destruct (decide (h_loader = l')); [done | by apply modules_of_same]. }
  assert (Hp6 : forall l', packages_of vm6 l' = packages_of vm l').
  { intros l'. unfold packages_of at 1. rewrite <- Hcld6.
    fold (packages_of vm5 l'). unfold vm5. rewrite packages_of_set_cld.
    destruct (decide (h_loader = l')) as [<-|]; cbn [packages];
      by apply packages_of_same. }
  assert (Hloop : exists vm7,
            create_package_entries pt (h_loader, module_name) module_name pkgs vm6
            = (Normal tt, vm7)
            /\ (forall l', modules_of vm7 l' = modules_of vm6 l')
            /\ packages_of vm7 h_loader
               = (rev (map (fun pkg => mk_PackageEntry pkg (h_loader, module_name)
                                                       ∅ false) pkgs)
                  ++ packages_of vm6 h_loader)%list
            /\ (forall l', l' <> h_loader -> packages_of vm7 l' = packages_of vm6 l')).
  { destruct pkgs as [|pkg rest].
    - exists vm6. by destruct pt.
    - rewrite Hpt by done.
      destruct (create_package_entries_run h_loader (h_loader, module_name)
                  module_name (pkg :: rest) vm6 Hnd)
        as (vm7 & -> & _ & Hm7 & Hp7 & Ho7).
      + intros q Hq. rewrite Hp6.
        by apply (first_existing_none vm h_loader (pkg :: rest)).
      + by exists vm7. }
  destruct Hloop as (vm7 & Hrun & Hm7 & Hp7 & Ho7).
  unfold bind at 1. rewrite Hrun. unfold bind at 1.
  assert (Hboot : exists vm8,
            (match loader with
             | Some _ => ret tt
             | None => add_to_boot_loader_list module_name
             end) vm7 = (Normal tt, vm8) /\ same_registry vm7 vm8).
  { destruct loader; [exists vm7; split; [done | apply same_registry_refl]|].
    apply add_to_boot_loader_list_run. }
  destruct Hboot as (vm8 & -> & S8).
  exists vm8. cbv zeta. split; [done|].
  rewrite !(modules_of_same _ _ _ S8), !(packages_of_same _ _ _ S8).
  split; [by rewrite Hm7, Hm6, decide_True by done|].
  split; [by rewrite Hp7, Hp6|].
  intros l' Hne. rewrite (modules_of_same _ _ _ S8), (packages_of_same _ _ _ S8).
  by rewrite Hm7, Hm6, decide_False, Ho7, Hp6 by done.
Qed.

End Define.

(** ** The module of a class: [get_module] *)

Section GetModule.

Lemma get_module_run mirror vm :
  exists vm',
    get_module (Some mirror) vm
    = (Normal
         (match mirror with
          | Klass_mirror klass =>
              if UseModules (flags vm) then
                match klass with
                | InstanceKlass _ module => Module_oop <$> module
                | ObjArrayKlass _ _ bottom_klass =>
                    Module_oop <$> java_lang_Class_module (java_mirror bottom_klass)
                | TypeArrayKlass _ _ => None
                end
              else None
          | Primitive_mirror => None
          end), vm')
    /\ same_registry vm vm'.
Proof.
  unfold get_module, JNIHandles_resolve_non_null, bind, ret, get_flags.
  destruct mirror as [|klass]; cbn [java_lang_Class_is_primitive orb].
  - edestruct trace_ret_run as (vm1 & E & S1). unfold ret in E. rewrite E.
    by exists vm1.
  - destruct (UseModules (flags vm)); cbn [negb java_lang_Class_as_Klass].
    + destruct klass as [n m|n m b|n m].
      * edestruct trace_ret_run as (vm1 & E & S1). unfold ret in E. rewrite E.
        by exists vm1.
      * edestruct trace_ret_run as (vm1 & E & S1). unfold ret in E. rewrite E.
        by exists vm1.
      * exists vm. split; [done | apply same_registry_refl].
    + edestruct trace_ret_run as (vm1 & E & S1). unfold ret in E. rewrite E.
      by exists vm1.
Qed.

(** The [NULL] handle: the read of line 521 faults before anything else is
    looked at, whatever the flags. *)
Lemma get_module_null_handle vm : get_module None vm = (Fault, vm).
Proof. reflexivity. Qed.


(** C10.  On the mirror of an array of a primitive type, [get_module] returns
    null, whatever the flags and whatever the module field of the mirror. *)
Theorem get_module_type_array vm n m :
  (get_module (Some (Klass_mirror (TypeArrayKlass n m))) vm).1 = Normal None.
Proof.
  destruct (get_module_run (Klass_mirror (TypeArrayKlass n m)) vm)
    as (vm' & -> & _).
  cbn [fst]. by destruct (UseModules (flags vm)).
Qed.

End GetModule.

(** ** The trace of packages and the null target *)

Section TracedNullTarget.

Context `{host : Host}.

(** C5.  With the trace of packages on, a call of [is_exported_to_module]
    whose checks pass and whose target is null faults on the name of the null
    target entry, whatever the exports of the package: the outcome is not the
    one of the same call with the trace off. *)
Theorem is_exported_to_module_traced_null_target vm (from : oop) package pf pp :
  TracePackages (flags vm) = true ->
  (get_module_entry (Some from) vm).1 = Normal (Some pf) ->
  verify_package_name_jstring package = true ->
  (get_package_entry (Some pf) (Some package) vm).1 = Normal (Some pp) ->
  owner_of vm pp = Some pf ->
  (is_exported_to_module (Some from) (Some package) None vm).1 = Fault.
Proof.
  rewrite get_module_entry_outcome, get_package_entry_run. cbn [fst].
  intros Htp Hf Hv Hp Ho. unfold owner_of in Ho.
  destruct (package_entry_at vm pp) as [pe|] eqn:Hpe; [|done].
  injection Ho as Ho.
  destruct (is_exported_to_module_run vm from package None "" pf None pp pe)
    as (vm' & -> & _); try done.
  cbn [fst]. by rewrite Htp.
Qed.

End TracedNullTarget.

(** ** The operations on the registries of [Scenario] *)

Section OnScenario.

Import Scenario.

#[local] Existing Instance permissive_host.

(** C1.  In a registry where the package p of the module [m1] is exported
    without qualification, the checks of [is_exported_to_module] pass for
    [m1], p and a null target; with the trace of packages off the answer is
    true, with the trace on the call faults instead of answering true. *)
Theorem is_exported_to_module_unqualified_null_target :
  let vm := unqualified_export tracing_packages in
  (get_module_entry (Some m1) vm).1 = Normal (Some (Some 1, "m1"))
  /\ verify_package_name_jstring "p" = true
  /\ (get_package_entry (Some (Some 1, "m1")) (Some "p") vm).1
     = Normal (Some (Some 1, "p"))
  /\ owner_of vm (Some 1, "p") = Some (Some 1, "m1")
  /\ unqual_of vm (Some 1, "p") = true
  /\ (is_exported_to_module (Some m1) (Some "p") None vm).1 = Fault
  /\ (is_exported_to_module (Some m1) (Some "p") None (unqualified_export quiet)).1
     = Normal true.
Proof. vm_compute. repeat split; reflexivity. Qed.

(** The scenarios of the specification. *)
Example scenario_S1 :
  (is_exported_to_module (Some m1) (Some "p.a") (Some m1) (one_module quiet)).1
  = Normal true
  /\ (is_exported_to_module (Some m1) (Some "p.c") (Some m1) (one_module quiet)).1
     = IllegalArgumentException "Package not found in from_module: m1".
Proof. vm_compute. split; reflexivity. Qed.

Example scenario_S2 :
  let r := define_module (Some "m2") loader1 (Some [Some (String_oop "p.a")])
                         (one_module quiet) in
  r.1 = IllegalArgumentException
          "Package p.a for module m2 already exists for class loader"
  /\ (get_module_entry (Some m2) r.2).1 = Normal None.
Proof. vm_compute. split; reflexivity. Qed.

Example scenario_S3 :
  let m3 := Module_oop (mk_jlrModule 2 (Some 1) "m3") in
  let vm3 := (define_module (Some "m3") loader1 None (two_modules quiet)).2 in
  let vm4 := (add_module_exports (Some m1) (Some "p.a") None vm3).2 in
  let r := add_module_exports (Some m1) (Some "p.a") (Some m2) vm4 in
  unqual_of vm4 (Some 1, "p.a") = false
  /\ r.1 = Normal tt
  /\ (is_exported_to_module (Some m1) (Some "p.a") (Some m2) r.2).1 = Normal true
  /\ (is_exported_to_module (Some m1) (Some "p.a") (Some m3) r.2).1 = Normal false.
Proof. vm_compute. repeat split; reflexivity. Qed.

Example scenario_S4 :
  (can_read_module (Some m1) (Some m2) (two_modules quiet)).1 = Normal false
  /\ (can_read_module (Some m1) (Some m2) (m1_reads_m2 quiet)).1 = Normal true
  /\ (can_read_module (Some m2) (Some m1) (m1_reads_m2 quiet)).1 = Normal false.
Proof. vm_compute. repeat split; reflexivity. Qed.

Example scenario_S5 :
  let r := define_module (Some "m1") loader1
                         (Some [Some (String_oop "p"); Some (String_oop "p")])
                         (initial quiet) in
  r.1 = IllegalArgumentException "Duplicate package name: p for module m1"
  /\ modules_of r.2 (Some 1) = [].
Proof. vm_compute. split; reflexivity. Qed.

Example scenario_S6 :
  (define_module (Some "java.base") loader1 (Some []) (initial quiet)).1
  = IllegalArgumentException "Module java.base is already defined".
Proof. vm_compute. reflexivity. Qed.

(** The theorems above, on these registries. *)

Lemma can_read_module_spec_witness :
  let vm := m1_reads_m2 quiet in
  (get_module_entry (Some m1) vm).1 = Normal (Some (Some 1, "m1"))
  /\ ((can_read_module (Some m1) None vm).1 = Normal true
      /\ (forall pt,
            (get_module_entry (Some m2) vm).1 = Normal (Some pt) ->
            (can_read_module (Some m1) (Some m2) vm).1
            = Normal (bool_decide ((Some 1, "m1") = pt
                                   \/ pt ∈ reads_of vm (Some 1, "m1"))))
      /\ (can_read_module (Some m1) (Some m1) vm).1 = Normal true).
Proof.
  split; [vm_compute; reflexivity|].
  apply (can_read_module_spec (m1_reads_m2 quiet) m1 m2 (Some 1, "m1")).
  vm_compute; reflexivity.
Defined.

Lemma self_edges_are_no_ops_witness :
  let vm := two_modules quiet in
  let r := add_reads_module (Some m1) (Some m1) vm in
  let x := add_module_exports (Some m1) (Some "p.a") (Some m1) vm in
  let r2 := add_reads_module (Some m2) (Some m2) vm in
  ((get_module_entry (Some m1) vm).1 = Normal (Some (Some 1, "m1"))
   /\ verify_package_name_jstring "p.a" = true
   /\ (get_package_entry (Some (Some 1, "m1")) (Some "p.a") vm).1
      = Normal (Some (Some 1, "p.a"))
   /\ owner_of vm (Some 1, "p.a") = Some (Some 1, "m1")
   /\ unqual_of vm (Some 1, "p.a") = false
   /\ (get_module_entry (Some m2) vm).1 = Normal (Some (Some 1, "m2")))
  /\ ((r.1 = Normal tt
       /\ same_tables vm r.2
       /\ reads_of r.2 (Some 1, "m1") = reads_of vm (Some 1, "m1")
       /\ (can_read_module (Some m1) (Some m1) r.2).1 = Normal true)
      /\ (x.1 = Normal tt
          /\ same_tables vm x.2
          /\ exports_of x.2 (Some 1, "p.a") = exports_of vm (Some 1, "p.a")
          /\ unqual_of x.2 (Some 1, "p.a") = unqual_of vm (Some 1, "p.a")
          /\ (is_exported_to_module (Some m1) (Some "p.a") (Some m1) x.2).1
             = Normal true)
      /\ (r2.1 = Normal tt
          /\ same_tables vm r2.2
          /\ reads_of r2.2 (Some 1, "m2") = reads_of vm (Some 1, "m2")
          /\ (can_read_module (Some m2) (Some m2) r2.2).1 = Normal true)).
Proof.
  split; [vm_compute; repeat split; reflexivity|].
  destruct (self_edges_are_no_ops (two_modules quiet) m1 (Some 1, "m1"))
    as [Hreads Hexports]; [vm_compute; reflexivity|].
  split; [exact Hreads|]. split.
  - apply (Hexports "p.a" (Some 1, "p.a")); vm_compute; reflexivity.
  - apply (self_edges_are_no_ops (two_modules quiet) m2 (Some 1, "m2")).
    vm_compute; reflexivity.
Defined.

Lemma add_module_package_spec_witness :
  let vm := one_module quiet in
  let em := mk_ModuleEntry "m1" (mk_jlrModule 0 (Some 1) "m1") (Some 1) ∅ in
  let r := add_module_package (Some m1) (Some "p.b") vm in
  ((get_module_entry (Some m1) vm).1 = Normal (Some (Some 1, "m1"))
   /\ module_entry_at vm (Some 1, "m1") = Some em
   /\ verify_package_name (Some "p.b") = true)
  /\ if bool_decide ("p.b" ∈ map pe_name (packages_of vm (me_loader em))) then
       r.1 = IllegalArgumentException
               (err_msg ("Package " +:+ "p.b" +:+ " already exists for class loader"))
       /\ same_tables vm r.2
     else
       r.1 = Normal tt
       /\ packages_of r.2 (me_loader em)
          = mk_PackageEntry "p.b" (Some 1, "m1") ∅ false
            :: packages_of vm (me_loader em)
       /\ (forall l', l' <> me_loader em -> packages_of r.2 l' = packages_of vm l')
       /\ (forall l', modules_of r.2 l' = modules_of vm l')
       /\ (NoDup (map pe_name (packages_of vm (me_loader em))) ->
           NoDup (map pe_name (packages_of r.2 (me_loader em)))).
Proof.
  split; [vm_compute; repeat split; reflexivity|].
  apply (add_module_package_spec (one_module quiet) m1 "p.b" (Some 1, "m1")
           (mk_ModuleEntry "m1" (mk_jlrModule 0 (Some 1) "m1") (Some 1) ∅));
    vm_compute; reflexivity.
Defined.

Lemma define_module_atomic_on_failure_witness :
  let vm := one_module quiet in
  let packages := Some [Some (String_oop "p.a")] in
  let msg := "Package p.a for module m2 already exists for class loader" in
  (define_module (Some "m2") loader1 packages vm).1 = IllegalArgumentException msg
  /\ (let vm' := (define_module (Some "m2") loader1 packages vm).2 in
      same_tables vm vm'
      /\ (forall module,
            (get_module_entry module vm').1 = (get_module_entry module vm).1)
      /\ (forall pm package,
            (get_package_entry (Some pm) (Some package) vm').1
            = (get_package_entry (Some pm) (Some package) vm).1)).
Proof.
  split; [vm_compute; reflexivity|].
  apply (define_module_atomic_on_failure (one_module quiet) (Some "m2") loader1
           (Some [Some (String_oop "p.a")])
           "Package p.a for module m2 already exists for class loader").
  vm_compute; reflexivity.
Defined.

Lemma define_module_package_exists_witness :
  let vm := one_module quiet in
  (verify_module_name (Some "m2") = true
   /\ "m2" <> java_base
   /\ NoDup ["p.a"]
   /\ Forall (fun s => verify_package_name (Some s) = true) ["p.a"]
   /\ resolve_class_loader loader1 = Some (Some 1)
   /\ first_existing vm (Some 1) ["p.a"] = Some "p.a")
  /\ (define_module (Some "m2") loader1
                    (Some (map (fun s => Some (String_oop s)) ["p.a"])) vm).1
     = IllegalArgumentException
         (err_msg
            (match ModuleEntryTable_lookup_only (modules_of vm (Some 1)) "m2" with
             | Some _ => "Module " +:+ "m2" +:+ " is already defined"
             | None => "Package " +:+ "p.a" +:+ " for module " +:+ "m2"
                       +:+ " already exists for class loader"
             end)).
Proof.
  assert (Hnd : NoDup ["p.a"]) by apply NoDup_singleton.
  assert (Hlegal : Forall (fun s => verify_package_name (Some s) = true) ["p.a"])
    by (repeat constructor).
  split.
  - repeat split; try done; vm_compute; reflexivity.
  - apply (define_module_package_exists (one_module quiet) "m2" loader1 (Some 1)
             ["p.a"] "p.a"); try done; vm_compute; reflexivity.
Defined.

Lemma is_exported_to_module_traced_null_target_witness :
  let vm := one_module tracing_packages in
  (TracePackages (flags vm) = true
   /\ (get_module_entry (Some m1) vm).1 = Normal (Some (Some 1, "m1"))
   /\ verify_package_name_jstring "p.a" = true
   /\ (get_package_entry (Some (Some 1, "m1")) (Some "p.a") vm).1
      = Normal (Some (Some 1, "p.a"))
   /\ owner_of vm (Some 1, "p.a") = Some (Some 1, "m1"))
  /\ (is_exported_to_module (Some m1) (Some "p.a") None vm).1 = Fault
  /\ (is_exported_to_module (Some m1) (Some "p.a") None (one_module quiet)).1
     = Normal false.
Proof.
  split; [vm_compute; repeat split; reflexivity|]. split.
  - apply (is_exported_to_module_traced_null_target
             (one_module tracing_packages) m1 "p.a" (Some 1, "m1") (Some 1, "p.a"));
      vm_compute; reflexivity.
  - vm_compute; reflexivity.
Defined.

End OnScenario.


(** * More of the operations *)

(** ** What the queries leave alone *)

Section ReadOnly.

Context `{host : Host}.

Lemma keeps_get_flags : keeps get_flags.
Proof. intros vm. apply same_registry_refl. Qed.

Lemma keeps_deref_module p : keeps (deref_module p).
Proof.
  intros vm. unfold deref_module. destruct p as [q|]; [|apply same_registry_refl].
  destruct (module_entry_at vm q); apply same_registry_refl.
Qed.

Lemma keeps_deref_package p : keeps (deref_package p).
Proof.
  intros vm. unfold deref_package. destruct p as [q|]; [|apply same_registry_refl].
  destruct (package_entry_at vm q); apply same_registry_refl.
Qed.

Lemma keeps_get_module_entry module : keeps (get_module_entry module).
Proof. intros vm. by destruct (get_module_entry_run module vm) as (vm' & -> & S). Qed.

Lemma keeps_resolve_to_module to_module msg : keeps (resolve_to_module to_module msg).
Proof.
  intros vm. by destruct (resolve_to_module_run to_module msg vm) as (vm' & -> & S).
Qed.

Lemma keeps_get_package_entry module_entry package :
  keeps (get_package_entry module_entry package).
Proof.
  unfold get_package_entry. destruct package as [s|]; [|apply keeps_ret].
  unfold as_utf8_string. apply keeps_bind.
  - unfold ModuleEntry_loader. apply keeps_bind; [apply keeps_deref_module|].
    intros; apply keeps_ret.
  - intros cld. apply keeps_lookup_package.
Qed.

(** One step of a proof that a computation leaves the registry as it is. *)
Ltac keeps_step :=
  first
    [ apply keeps_ret | apply keeps_THROW_MSG | apply keeps_fault
    | apply keeps_get_flags | apply keeps_deref_module | apply keeps_deref_package
    | apply keeps_get_module_entry | apply keeps_resolve_to_module
    | apply keeps_get_package_entry | apply keeps_lookup_package
    | apply keeps_lookup_module
    | apply keeps_trace_if
    | apply keeps_bind; [|intros ?]
    | match goal with
      | |- keeps (match ?x with _ => _ end) => destruct x
      end ].

Ltac keeps_entry :=
  unfold ModuleEntry_name, ModuleEntry_loader, ModuleEntry_can_read,
    PackageEntry_name, PackageEntry_module, PackageEntry_is_unqual_exported,
    PackageEntry_is_qexported_to;
  repeat keeps_step.

Lemma keeps_can_read_module asking_module target_module :
  keeps (can_read_module asking_module target_module).
Proof. unfold can_read_module. keeps_entry. Qed.

Lemma keeps_is_exported_to_module from_module package to_module :
  keeps (is_exported_to_module from_module package to_module).
Proof. unfold is_exported_to_module. keeps_entry. Qed.

Lemma keeps_get_module clazz : keeps (get_module clazz).
Proof. unfold get_module, JNIHandles_resolve_non_null. keeps_entry. Qed.

(** X1.  The three queries write nothing to the registry: whatever their
    arguments and whatever their outcome, a normal return, an exception or a
    fault, the flags and the tables of every loader are after the call what
    they were before. *)
Theorem queries_leave_the_registry vm asking target from package to_module clazz :
  same_registry vm (can_read_module asking target vm).2
  /\ same_registry vm (is_exported_to_module from package to_module vm).2
  /\ same_registry vm (get_module clazz vm).2.
Proof.
  split; [apply keeps_can_read_module|].
  split; [apply keeps_is_exported_to_module | apply keeps_get_module].
Qed.

End ReadOnly.


(** ** What a normal return of a query tells *)

Section Answers.

Context `{host : Host}.

(** X2.  [can_read_module] returns normally only when the asking handle is a
    module of the registry and the target is null or a module of the registry
    too; a null target does not spare the asking module its resolution.  The
    value returned is then true for the null target and otherwise tells
    whether the two entries are the same or the asking entry reads the
    target. *)
Theorem can_read_module_normal_return vm asking target b :
  (can_read_module asking target vm).1 = Normal b ->
  exists pa,
    (get_module_entry asking vm).1 = Normal (Some pa)
    /\ match target with
       | None => b = true
       | Some _ =>
           exists pt,
             (get_module_entry target vm).1 = Normal (Some pt)
             /\ b = bool_decide (pa = pt \/ pt ∈ reads_of vm pa)
       end.
Proof.
  rewrite !get_module_entry_outcome. intros H.
  destruct asking as [a|]; [|done].
  unfold can_read_module, bind in H.
  destruct (get_module_entry_run (Some a) vm) as (vm1 & E1 & S1).
  rewrite E1 in H.
  destruct (module_of vm (Some a)) as [[pa|]| |] eqn:Ea; try done.
  exists pa. split; [done|].
  destruct target as [t|]; [|by injection H].
  destruct (get_module_entry_run (Some t) vm1) as (vm2 & E2 & S2).
  rewrite E2, (module_of_same vm vm1) in H by done.
  destruct (module_of vm (Some t)) as [[pt|]| |] eqn:Et; try done.
  exists pt. split; [done|].
  destruct (can_read_module_run vm a t pa pt Ea Et) as (vm' & E & _).
  unfold can_read_module, bind in E. rewrite E1, E2 in E.
  rewrite (module_of_same vm vm1), Et in E by done.
  rewrite E in H. by injection H.
Qed.

(** X3.  [is_exported_to_module] returns normally only for a module of the
    registry and a legal package name that the package table of its loader
    holds with that module as its owner, and a target that is null or a module
    of the registry, and not null when packages are traced: it never answers
    about a package of another module.  The value returned is then the one
    computed from the entry of the package. *)
Theorem is_exported_to_module_normal_return vm from package to_module b :
  (is_exported_to_module from package to_module vm).1 = Normal b ->
  exists name pf to_entry pp pe,
    package = Some name
    /\ (get_module_entry from vm).1 = Normal (Some pf)
    /\ (resolve_to_module to_module "to_module is invalid" vm).1 = Normal to_entry
    /\ verify_package_name_jstring name = true
    /\ (get_package_entry (Some pf) package vm).1 = Normal (Some pp)
    /\ package_entry_at vm pp = Some pe
    /\ pe_module pe = pf
    /\ (TracePackages (flags vm) = false \/ to_module <> None)
    /\ b = exported_to pe pf to_module to_entry.
Proof.
  intros H. destruct package as [name|]; [|done].
  destruct from as [f|]; [|done].
  pose proof H as H0.
  unfold is_exported_to_module, bind in H.
  destruct (get_module_entry_run (Some f) vm) as (vm1 & E1 & S1).
  rewrite E1 in H.
  destruct (module_of vm (Some f)) as [[pf|]| |] eqn:Ef; try done.
  destruct (resolve_to_module_run to_module "to_module is invalid" vm1)
    as (vm2 & E2 & S2).
  rewrite E2 in H.
  assert (S12 : same_registry vm vm2) by (by eapply same_registry_trans).
  assert (Et : target_of vm1 to_module "to_module is invalid"
               = target_of vm to_module "to_module is invalid").
  { unfold target_of. destruct to_module; [|done].
    by rewrite (module_of_same vm vm1). }
  rewrite Et in H.
  destruct (target_of vm to_module "to_module is invalid") as [to_entry| |] eqn:Eto;
    try done.
  destruct (verify_package_name_jstring name) eqn:Ev; cbn [negb] in H.
  2:{ destruct (module_of_deref _ _ _ Ef) as [ef Hef].
      rewrite (ModuleEntry_name_run _ ef) in H
        by (by rewrite (module_entry_at_same vm vm2)).
      done. }
  rewrite get_package_entry_run, (package_of_same vm vm2) in H by done.
  destruct (module_of_deref _ _ _ Ef) as [ef Hef].
  destruct (package_of vm pf name) as [[pp|]| |] eqn:Ep; try done.
  2:{ rewrite (ModuleEntry_name_run _ ef) in H
        by (by rewrite (module_entry_at_same vm vm2)).
      done. }
  destruct (package_of_deref _ _ _ _ Ep) as [pe Hpe].
  rewrite (PackageEntry_module_run _ pe) in H
    by (by rewrite (package_entry_at_same vm vm2)).
  destruct (decide (pe_module pe = pf)) as [Ho|Hne].
  - exists name, pf, to_entry, pp, pe.
    rewrite get_module_entry_outcome, get_package_entry_run.
    destruct (resolve_to_module_run to_module "to_module is invalid" vm)
      as (vm3 & -> & _).
    cbn [fst]. repeat (split; [done|]).
    destruct (is_exported_to_module_run vm f name to_module _ pf to_entry pp pe
                Ef Eto Ev Ep Hpe Ho) as (vm' & E & _).
    rewrite E in H0. cbn [fst] in H0.
    destruct (TracePackages (flags vm)); cbn [andb] in H0.
    + case_bool_decide; [done|]. split; [by right | by injection H0].
    + split; [by left | by injection H0].
  - rewrite bool_decide_eq_true_2 in H by congruence.
    rewrite (PackageEntry_name_run _ pe) in H
      by (by rewrite (package_entry_at_same vm vm2)).
    destruct (module_entry_at vm2 (pe_module pe)) as [eo|] eqn:Eo.
    + rewrite (ModuleEntry_name_run _ eo), (ModuleEntry_name_run _ ef) in H
        by (done || by rewrite (module_entry_at_same vm vm2)).
      done.
    + unfold ModuleEntry_name, bind in H. by rewrite deref_module_run, Eo in H.
Qed.

End Answers.


(** ** One more read: [add_reads_module] *)

Section AddReads.

Context `{host : Host}.

Lemma update_module_lookup name f t name' :
  (forall e, me_name (f e) = me_name e) ->
  ModuleEntryTable_lookup_only (update_module name f t) name'
  = if decide (name = name')
    then f <$> ModuleEntryTable_lookup_only t name'
    else ModuleEntryTable_lookup_only t name'.
Proof.
  intros Hf. unfold ModuleEntryTable_lookup_only.
  induction t as [|e t IH]; cbn [update_module find].
  - by destruct (decide (name = name')).
  - destruct (decide (me_name e = name)) as [He|He].
    + rewrite (bool_decide_eq_true_2 _ He). cbn [find]. rewrite Hf.
      destruct (decide (name = name')) as [<-|Hne].
      * by rewrite !(bool_decide_eq_true_2 _ He).
      * by rewrite !bool_decide_eq_false_2 by congruence.
    + rewrite (bool_decide_eq_false_2 _ He). cbn [find].
      destruct (decide (me_name e = name')) as [He'|He'].
      * rewrite (bool_decide_eq_true_2 _ He').
        destruct (decide (name = name')); [congruence | done].
      * by rewrite (bool_decide_eq_false_2 _ He').
Qed.

Lemma update_module_lookup_oop name f t module :
  (forall e, me_name (f e) = me_name e) ->
  (forall e, me_module (f e) = me_module e) ->
  me_name <$> ModuleEntryTable_lookup_only_oop (update_module name f t) module
  = me_name <$> ModuleEntryTable_lookup_only_oop t module.
Proof.
  intros Hn Hm. unfold ModuleEntryTable_lookup_only_oop.
  induction t as [|e t IH]; cbn [update_module find]; [done|].
  destruct (bool_decide (me_name e = name)); cbn [find].
  - rewrite Hm. destruct (bool_decide _); [|done]. cbn. by rewrite Hn.
  - destruct (bool_decide _); [done | apply IH].
Qed.

Lemma update_module_names name f t :
  (forall e, me_name (f e) = me_name e) ->
  map me_name (update_module name f t) = map me_name t.
Proof.
  intros Hf. induction t as [|e t IH]; cbn [update_module map]; [done|].
  destruct (bool_decide _); cbn [map]; [by rewrite Hf | by rewrite IH].
Qed.

Lemma flags_same vm vm' : same_registry vm vm' -> flags vm' = flags vm.
Proof. by intros [-> _]. Qed.

(** The run of [add_reads_module] on two different modules of the registry. *)
Lemma add_reads_module_run vm A B pa pb :
  module_of vm (Some A) = Normal (Some pa) ->
  module_of vm (Some B) = Normal (Some pb) ->
  pa <> pb ->
  exists vm',
    add_reads_module (Some A) (Some B) vm = (Normal tt, vm')
    /\ flags vm' = flags vm
    /\ (forall l, packages_of vm' l = packages_of vm l)
    /\ (forall l, modules_of vm' l
                  = if decide (pa.1 = l)
                    then update_module pa.2 (reading pb) (modules_of vm l)
                    else modules_of vm l).
Proof.
  intros Ha Hb Hne. unfold add_reads_module, bind.
  destruct (get_module_entry_run (Some A) vm) as (vm1 & -> & S1). rewrite Ha.
  destruct (get_module_entry_run (Some B) vm1) as (vm2 & -> & S2).
  rewrite (module_of_same vm vm1), Hb by done.
  assert (S12 : same_registry vm vm2) by (by eapply same_registry_trans).
  destruct (module_of_deref _ _ _ Ha) as [ea Hea].
  destruct (module_of_deref _ _ _ Hb) as [eb Heb].
  edestruct trace_if_run with
    (vm := vm2) (flag := TraceModules)
    (s := "[add_reads_module(): Adding read from module " +:+ me_name ea
          +:+ " to module " +:+ me_name eb +:+ "]")
    as (vm3 & -> & S3).
  { intros vm0 S0. unfold bind.
    assert (S' : same_registry vm vm0) by (by eapply same_registry_trans).
    rewrite (ModuleEntry_name_run _ ea) by (by rewrite (module_entry_at_same vm vm0)).
    by rewrite (ModuleEntry_name_run _ eb)
      by (by rewrite (module_entry_at_same vm vm0)). }
  assert (S13 : same_registry vm vm3) by (by eapply same_registry_trans).
  rewrite bool_decide_eq_true_2 by congruence.
  unfold ModuleEntry_add_read, bind.
  rewrite deref_module_run, (module_entry_at_same vm vm3), Hea by done.
  eexists. split; [done|]. split; [by rewrite flags_set_cld, (flags_same vm vm3)|].
  split.
  - intros l. rewrite packages_of_set_cld.
    destruct (decide (pa.1 = l)) as [<-|]; cbn [packages];
      by rewrite (packages_of_same vm vm3).
  - intros l. rewrite modules_of_set_cld.
    destruct (decide (pa.1 = l)) as [<-|]; cbn [modules];
      by rewrite (modules_of_same vm vm3).
Qed.

Lemma reads_of_after_update vm vm' pa pb p :
  (forall l, modules_of vm' l
             = if decide (pa.1 = l)
               then update_module pa.2 (reading pb) (modules_of vm l)
               else modules_of vm l) ->
  is_Some (module_entry_at vm pa) ->
  reads_of vm' p = if decide (p = pa) then {[ pb ]} ∪ reads_of vm pa else reads_of vm p.
Proof.
  intros Hm [ea Hea]. unfold reads_of, module_entry_at. rewrite Hm.
  destruct (decide (pa.1 = p.1)) as [Hl|Hl].
  - rewrite update_module_lookup by done.
    destruct (decide (pa.2 = p.2)) as [Hn|Hn].
    + assert (p = pa) as -> by (destruct p, pa; simpl in *; congruence).
      rewrite decide_True by done. unfold module_entry_at in Hea.
      by rewrite Hea.
    + rewrite decide_False; [done|]. by intros ->.
  - rewrite decide_False; [done|]. by intros ->.
Qed.

Lemma module_of_after_update vm vm' pa f module :
  (forall e, me_name (f e) = me_name e) ->
  (forall e, me_module (f e) = me_module e) ->
  (forall l, modules_of vm' l
             = if decide (pa.1 = l)
               then update_module pa.2 f (modules_of vm l)
               else modules_of vm l) ->
  module_of vm' module = module_of vm module.
Proof.
  intros Hn Hmod Hm. unfold module_of. destruct module as [[m| | |]|]; try done.
  rewrite Hm. destruct (decide (pa.1 = module_loader m)); [|done].
  f_equal. pose proof (update_module_lookup_oop pa.2 f
                         (modules_of vm (module_loader m)) (Some (Module_oop m)) Hn Hmod) as E.
  destruct (ModuleEntryTable_lookup_only_oop (update_module _ _ _) _),
    (ModuleEntryTable_lookup_only_oop (modules_of vm _) _); simpl in *; congruence.
Qed.

(** X4.  For two different modules [A] and [B] of the registry,
    [add_reads_module(A, B)] returns normally; afterwards the reads set of [A]
    is the one before with [B] added, the reads set of every other entry, the
    package tables and the resolution of every handle are as before, and
    [can_read_module(A, B)] is true while [can_read_module(B, A)] answers what
    it answered before. *)
Theorem add_reads_module_adds_one_read vm (A B : oop) pa pb :
  (get_module_entry (Some A) vm).1 = Normal (Some pa) ->
  (get_module_entry (Some B) vm).1 = Normal (Some pb) ->
  pa <> pb ->
  let r := add_reads_module (Some A) (Some B) vm in
  r.1 = Normal tt
  /\ reads_of r.2 pa = {[ pb ]} ∪ reads_of vm pa
  /\ (forall p, p <> pa -> reads_of r.2 p = reads_of vm p)
  /\ (forall l, packages_of r.2 l = packages_of vm l)
  /\ (forall module, (get_module_entry module r.2).1 = (get_module_entry module vm).1)
  /\ (can_read_module (Some A) (Some B) r.2).1 = Normal true
  /\ (can_read_module (Some B) (Some A) r.2).1
     = (can_read_module (Some B) (Some A) vm).1.
Proof.
  rewrite !get_module_entry_outcome. intros Ha Hb Hne. cbv zeta.
  destruct (add_reads_module_run vm A B pa pb Ha Hb Hne)
    as (vm' & -> & Hfl & Hp & Hm).
  cbn [fst snd].
  pose proof (module_of_deref _ _ _ Ha) as Hda.
  assert (Hmod : forall module, module_of vm' module = module_of vm module).
  { intros module. by apply (module_of_after_update vm vm' pa (reading pb)). }
  split; [done|]. split.
  { by rewrite (reads_of_after_update vm vm' pa pb pa), decide_True. }
  split.
  { intros p Hp'. by rewrite (reads_of_after_update vm vm' pa pb p), decide_False. }
  split; [done|]. split.
  { intros module. by rewrite !get_module_entry_outcome. }
  split.
  - destruct (can_read_module_run vm' A B pa pb) as (vm'' & -> & _);
      [by rewrite Hmod..|].
    cbn [fst]. f_equal. apply bool_decide_eq_true. right.
    rewrite (reads_of_after_update vm vm' pa pb pa), decide_True by done.
    set_solver.
  - destruct (can_read_module_run vm' B A pb pa) as (vm'' & -> & _);
      [by rewrite Hmod..|].
    destruct (can_read_module_run vm B A pb pa Hb Ha) as (vm3 & -> & _).
    cbn [fst]. f_equal.
    by rewrite (reads_of_after_update vm vm' pa pb pb), decide_False.
Qed.

End AddReads.


(** ** One more export: [add_module_exports] *)

Section AddExports.

Context `{host : Host}.

Lemma update_package_lookup name f t name' :
  (forall e, pe_name (f e) = pe_name e) ->
  PackageEntryTable_lookup_only (update_package name f t) name'
  = if decide (name = name')
    then f <$> PackageEntryTable_lookup_only t name'
    else PackageEntryTable_lookup_only t name'.
Proof.
  intros Hf. unfold PackageEntryTable_lookup_only.
  induction t as [|e t IH]; cbn [update_package find].
  - by destruct (decide (name = name')).
  - destruct (decide (pe_name e = name)) as [He|He].
    + rewrite (bool_decide_eq_true_2 _ He). cbn [find]. rewrite Hf.
      destruct (decide (name = name')) as [<-|Hne].
      * by rewrite !(bool_decide_eq_true_2 _ He).
      * by rewrite !bool_decide_eq_false_2 by congruence.
    + rewrite (bool_decide_eq_false_2 _ He). cbn [find].
      destruct (decide (pe_name e = name')) as [He'|He'].
      * rewrite (bool_decide_eq_true_2 _ He').
        destruct (decide (name = name')); [congruence | done].
      * by rewrite (bool_decide_eq_false_2 _ He').
Qed.

Lemma update_package_names name f t :
  (forall e, pe_name (f e) = pe_name e) ->
  map pe_name (update_package name f t) = map pe_name t.
Proof.
  intros Hf. induction t as [|e t IH]; cbn [update_package map]; [done|].
  destruct (bool_decide _); cbn [map]; [by rewrite Hf | by rewrite IH].
Qed.

Lemma package_of_ptr vm pf name pp :
  package_of vm pf name = Normal (Some pp) ->
  exists ef, module_entry_at vm pf = Some ef /\ pp = (me_loader ef, name).
Proof.
  unfold package_of. destruct (module_entry_at vm pf) as [ef|]; [|done].
  destruct (PackageEntryTable_lookup_only _ _) as [pe|] eqn:E; [|done].
  intros [= <-]. apply package_lookup_only_name in E as [<- _]. by exists ef.
Qed.

(** The checks of [add_module_exports] and of [is_exported_to_module], up to
    the owner of the package. *)
Lemma checks_run vm from package to_module msg pf to_entry pp pe :
  module_of vm (Some from) = Normal (Some pf) ->
  target_of vm to_module msg = Normal to_entry ->
  verify_package_name_jstring package = true ->
  package_of vm pf package = Normal (Some pp) ->
  package_entry_at vm pp = Some pe ->
  exists vm1 vm2,
    get_module_entry (Some from) vm = (Normal (Some pf), vm1)
    /\ resolve_to_module to_module "to_module is invalid" vm1 = (Normal to_entry, vm2)
    /\ same_registry vm vm2
    /\ get_package_entry (Some pf) (Some package) vm2 = (Normal (Some pp), vm2)
    /\ PackageEntry_module (Some pp) vm2 = (Normal (pe_module pe), vm2).
Proof.
  intros Hf Ht Hv Hp Hpe.
  destruct (get_module_entry_run (Some from) vm) as (vm1 & E1 & S1).
  destruct (resolve_to_module_run to_module "to_module is invalid" vm1)
    as (vm2 & E2 & S2).
  assert (S12 : same_registry vm vm2) by (by eapply same_registry_trans).
  exists vm1, vm2. rewrite E1, E2, Hf.
  split; [done|]. split.
  { f_equal. revert Ht. unfold target_of. destruct to_module as [t|]; [|done].
    rewrite (module_of_same vm vm1) by done.
    by destruct (module_of vm (Some t)) as [[?|]| |]. }
  split; [done|]. split.
  - by rewrite get_package_entry_run, (package_of_same vm vm2), Hp.
  - by rewrite (PackageEntry_module_run _ pe)
      by (by rewrite (package_entry_at_same vm vm2)).
Qed.

(** The run of [add_module_exports] when its checks pass and the target is
    not the module itself. *)
Lemma add_module_exports_run vm from package to_module pf to_entry pp pe :
  module_of vm (Some from) = Normal (Some pf) ->
  target_of vm to_module "to_module is invalid" = Normal to_entry ->
  Some pf <> to_entry ->
  verify_package_name_jstring package = true ->
  package_of vm pf package = Normal (Some pp) ->
  package_entry_at vm pp = Some pe ->
  pe_module pe = pf ->
  to_entry = None \/ pe_unqual_exported pe = false ->
  exists vm',
    add_module_exports (Some from) (Some package) to_module vm = (Normal tt, vm')
    /\ flags vm' = flags vm
    /\ (forall l, modules_of vm' l = modules_of vm l)
    /\ (forall l, packages_of vm' l
                  = if decide (pp.1 = l)
                    then update_package pp.2 (exporting to_entry) (packages_of vm l)
                    else packages_of vm l).
Proof.
  intros Hf Ht Hne Hv Hp Hpe Ho Hu.
  destruct (checks_run vm from package to_module _ pf to_entry pp pe Hf Ht Hv Hp Hpe)
    as (vm1 & vm2 & E1 & E2 & S12 & E3 & E4).
  unfold add_module_exports, bind. rewrite E1, E2, Hv. unfold negb. cbv beta iota.
  rewrite E3, E4, Ho, bool_decide_eq_false_2 by (by intros []).
  destruct (module_of_deref _ _ _ Hf) as [ef Hef].
  assert (Htrace : exists vm3,
            trace_if TraceModules
              (let* package_name := PackageEntry_name (Some pp) in
               let* from_name := ModuleEntry_name (Some pf) in
               let* to_name :=
                 match to_entry with
                 | None => ret "(null)"
                 | Some _ => ModuleEntry_name to_entry
                 end in
               ret ("[add_module_exports(): package:module " +:+ package_name
                    +:+ ":" +:+ from_name +:+ " is exported to module "
                    +:+ to_name +:+ "]")) vm2 = (Normal tt, vm3)
            /\ same_registry vm vm3).
  { destruct to_entry as [pt|].
    - destruct to_module as [t|]; [|done].
      destruct (target_of_some _ _ _ _ Ht) as (pt' & [= <-] & Hpt).
      destruct (module_of_deref _ _ _ Hpt) as [et Het].
      edestruct trace_if_run with
        (vm := vm2) (flag := TraceModules)
        (s := "[add_module_exports(): package:module " +:+ pe_name pe +:+ ":"
              +:+ me_name ef +:+ " is exported to module " +:+ me_name et +:+ "]")
        as (vm3 & -> & S3).
      + intros vm0 S0. unfold bind.
        assert (S' : same_registry vm vm0) by (by eapply same_registry_trans).
        rewrite (PackageEntry_name_run _ pe)
          by (by rewrite (package_entry_at_same vm vm0)).
        rewrite (ModuleEntry_name_run _ ef)
          by (by rewrite (module_entry_at_same vm vm0)).
        by rewrite (ModuleEntry_name_run _ et)
          by (by rewrite (module_entry_at_same vm vm0)).
      + exists vm3. split; [done | by eapply same_registry_trans].
    - edestruct trace_if_run with
        (vm := vm2) (flag := TraceModules)
        (s := "[add_module_exports(): package:module " +:+ pe_name pe +:+ ":"
              +:+ me_name ef +:+ " is exported to module " +:+ "(null)" +:+ "]")
        as (vm3 & -> & S3).
      + intros vm0 S0. unfold bind.
        assert (S' : same_registry vm vm0) by (by eapply same_registry_trans).
        rewrite (PackageEntry_name_run _ pe)
          by (by rewrite (package_entry_at_same vm vm0)).
        by rewrite (ModuleEntry_name_run _ ef)
          by (by rewrite (module_entry_at_same vm vm0)).
      + exists vm3. split; [done | by eapply same_registry_trans]. }
  unfold bind in Htrace. destruct Htrace as (vm3 & -> & S3).
  assert (Hun : (match to_entry with
                 | None => ret false
                 | Some _ => PackageEntry_is_unqual_exported (Some pp)
                 end) vm3 = (Normal false, vm3)).
  { destruct to_entry as [pt|]; [|done].
    rewrite (PackageEntry_is_unqual_exported_run _ pe)
      by (by rewrite (package_entry_at_same vm vm3)).
    by destruct Hu as [ | -> ]. }
  rewrite Hun. rewrite bool_decide_eq_true_2 by done.
  unfold PackageEntry_set_exported, bind.
  rewrite deref_package_run, (package_entry_at_same vm vm3), Hpe by done.
  eexists. split; [done|]. split; [by rewrite flags_set_cld, (flags_same vm vm3)|].
  split.
  - intros l. rewrite modules_of_set_cld.
    destruct (decide (pp.1 = l)) as [<-|]; cbn [modules];
      by rewrite (modules_of_same vm vm3).
  - intros l. rewrite packages_of_set_cld.
    destruct (decide (pp.1 = l)) as [<-|]; cbn [packages];
      by rewrite (packages_of_same vm vm3).
Qed.

Lemma package_entry_at_after_update vm vm' pp f q :
  (forall e, pe_name (f e) = pe_name e) ->
  (forall l, packages_of vm' l
             = if decide (pp.1 = l)
               then update_package pp.2 f (packages_of vm l)
               else packages_of vm l) ->
  package_entry_at vm' q
  = if decide (q = pp) then f <$> package_entry_at vm pp else package_entry_at vm q.
Proof.
  intros Hf Hp. unfold package_entry_at. rewrite Hp.
  destruct (decide (pp.1 = q.1)) as [Hl|Hl].
  - rewrite update_package_lookup by done.
    destruct (decide (pp.2 = q.2)) as [Hn|Hn].
    + assert (q = pp) as -> by (destruct q, pp; simpl in *; congruence).
      by rewrite decide_True.
    + rewrite decide_False; [done|]. by intros ->.
  - rewrite decide_False; [done|]. by intros ->.
Qed.

Lemma module_entry_at_ext vm vm' p :
  (forall l, modules_of vm' l = modules_of vm l) ->
  module_entry_at vm' p = module_entry_at vm p.
Proof. intros H. unfold module_entry_at. by rewrite H. Qed.

Lemma module_of_ext vm vm' module :
  (forall l, modules_of vm' l = modules_of vm l) ->
  module_of vm' module = module_of vm module.
Proof.
  intros H. unfold module_of. destruct module as [[m| | |]|]; try done.
  by rewrite H.
Qed.

(** X5.  Let [from] and [to] be two different modules of the registry and let
    the package be legal, owned by [from] and not exported without
    qualification.  Then [add_module_exports] returns normally; afterwards the
    export set of the package is the one before with the entry of [to] added,
    its owner and its unqualified flag are as before, so is every other
    package entry and every module table, and [is_exported_to_module] answers
    true for [to]. *)
Theorem add_module_exports_adds_one_target vm (from to : oop) package pf pt pp :
  (get_module_entry (Some from) vm).1 = Normal (Some pf) ->
  (get_module_entry (Some to) vm).1 = Normal (Some pt) ->
  pf <> pt ->
  verify_package_name_jstring package = true ->
  (get_package_entry (Some pf) (Some package) vm).1 = Normal (Some pp) ->
  owner_of vm pp = Some pf ->
  unqual_of vm pp = false ->
  let r := add_module_exports (Some from) (Some package) (Some to) vm in
  r.1 = Normal tt
  /\ exports_of r.2 pp = {[ Some pt ]} ∪ exports_of vm pp
  /\ owner_of r.2 pp = Some pf
  /\ unqual_of r.2 pp = false
  /\ (forall q, q <> pp -> package_entry_at r.2 q = package_entry_at vm q)
  /\ (forall l, modules_of r.2 l = modules_of vm l)
  /\ (is_exported_to_module (Some from) (Some package) (Some to) r.2).1 = Normal true.
Proof.
  rewrite !get_module_entry_outcome, get_package_entry_run. cbn [fst].
  intros Hf Ht Hne Hv Hp Ho Hu. cbv zeta.
  unfold owner_of in Ho. unfold unqual_of in Hu.
  destruct (package_entry_at vm pp) as [pe|] eqn:Hpe; [|done].
  injection Ho as Ho.
  assert (Hto : target_of vm (Some to) "to_module is invalid" = Normal (Some pt))
    by (unfold target_of; by rewrite Ht).
  destruct (add_module_exports_run vm from package (Some to) pf (Some pt) pp pe)
    as (vm' & -> & Hfl & Hm & Hpk); try done; [congruence | by right |].
  cbn [fst snd].
  assert (Hat : forall q, package_entry_at vm' q
                          = if decide (q = pp)
                            then exporting (Some pt) <$> package_entry_at vm pp
                            else package_entry_at vm q).
  { intros q. by apply package_entry_at_after_update. }
  split; [done|].
  unfold exports_of, owner_of, unqual_of. rewrite !Hat, decide_True, Hpe by done.
  cbn [fmap option_fmap option_map exporting pe_exports pe_module pe_unqual_exported].
  split; [done|]. split; [by rewrite Ho|]. split; [done|]. split.
  { intros q Hq. by rewrite Hat, decide_False. }
  split; [done|].
  destruct (package_of_ptr _ _ _ _ Hp) as (ef & Hef & ->).
  edestruct (is_exported_to_module_run vm' from package (Some to) "to_module is invalid"
               pf (Some pt) (me_loader ef, package) (exporting (Some pt) pe))
    as (vm'' & -> & _).
  - by rewrite (module_of_ext vm vm').
  - unfold target_of. by rewrite (module_of_ext vm vm'), Ht.
  - done.
  - unfold package_of. rewrite (module_entry_at_ext vm vm'), Hef by done.
    rewrite Hpk, decide_True by done. cbn [fst snd].
    rewrite update_package_lookup, decide_True by done.
    unfold package_entry_at in Hpe. cbn [fst snd] in Hpe. rewrite Hpe. cbn.
    apply package_lookup_only_name in Hpe as [-> _]. done.
  - by rewrite Hat, decide_True, Hpe.
  - done.
  - cbn [fst]. rewrite andb_false_r. f_equal. apply exported_to_true.
    right; right. split; [done|]. cbn [exporting pe_exports]. set_solver.
Qed.

(** X6.  An export with a target that is not null, of a package that is
    exported without qualification, is refused with the exception of the bad
    qualified export, and every table is as before: the test comes before the
    one of the self-export, so it refuses also the export of the package to
    its own module. *)
Theorem add_module_exports_refuses_qualified vm (from to : oop) package pf pt pp pe ef :
  (get_module_entry (Some from) vm).1 = Normal (Some pf) ->
  (get_module_entry (Some to) vm).1 = Normal (Some pt) ->
  verify_package_name_jstring package = true ->
  (get_package_entry (Some pf) (Some package) vm).1 = Normal (Some pp) ->
  package_entry_at vm pp = Some pe ->
  module_entry_at vm pf = Some ef ->
  pe_module pe = pf ->
  pe_unqual_exported pe = true ->
  let r := add_module_exports (Some from) (Some package) (Some to) vm in
  r.1 = IllegalArgumentException
          (err_msg ("Bad qualifed export, package " +:+ pe_name pe
                    +:+ " in module " +:+ me_name ef
                    +:+ " is already unqualifically exported"))
  /\ same_tables vm r.2.
Proof.
  rewrite !get_module_entry_outcome, get_package_entry_run. cbn [fst].
  intros Hf Ht Hv Hp Hpe Hef Ho Hu. cbv zeta.
  assert (Hto : target_of vm (Some to) "to_module is invalid" = Normal (Some pt))
    by (unfold target_of; by rewrite Ht).
  destruct (checks_run vm from package (Some to) _ pf (Some pt) pp pe Hf Hto Hv Hp Hpe)
    as (vm1 & vm2 & E1 & E2 & S12 & E3 & E4).
  unfold add_module_exports, bind. rewrite E1, E2, Hv. unfold negb. cbv beta iota.
  rewrite E3, E4, Ho, bool_decide_eq_false_2 by (by intros []).
  destruct (module_of_deref _ _ _ Ht) as [et Het].
  edestruct trace_if_run with
    (vm := vm2) (flag := TraceModules)
    (s := "[add_module_exports(): package:module " +:+ pe_name pe +:+ ":"
          +:+ me_name ef +:+ " is exported to module " +:+ me_name et +:+ "]")
    as (vm3 & -> & S3).
  { intros vm0 S0. unfold bind.
    assert (S' : same_registry vm vm0) by (by eapply same_registry_trans).
    rewrite (PackageEntry_name_run _ pe)
      by (by rewrite (package_entry_at_same vm vm0)).
    rewrite (ModuleEntry_name_run _ ef)
      by (by rewrite (module_entry_at_same vm vm0)).
    by rewrite (ModuleEntry_name_run _ et)
      by (by rewrite (module_entry_at_same vm vm0)). }
  assert (S13 : same_registry vm vm3) by (by eapply same_registry_trans).
  rewrite (PackageEntry_is_unqual_exported_run _ pe)
    by (by rewrite (package_entry_at_same vm vm3)).
  rewrite Hu.
  rewrite (PackageEntry_name_run _ pe)
    by (by rewrite (package_entry_at_same vm vm3)).
  rewrite (ModuleEntry_name_run _ ef)
    by (by rewrite (module_entry_at_same vm vm3)).
  split; [done | by apply same_registry_tables].
Qed.

(** X7.  A package that the package table of the loader holds for another
    module is not a package of [from]: [add_module_exports] and
    [is_exported_to_module] both raise the exception that names the package,
    its owner and [from], and every table is as before. *)
Theorem package_of_another_module vm (from : oop) package to_module to_entry
    pf pp pe ef eo :
  (get_module_entry (Some from) vm).1 = Normal (Some pf) ->
  (resolve_to_module to_module "to_module is invalid" vm).1 = Normal to_entry ->
  verify_package_name_jstring package = true ->
  (get_package_entry (Some pf) (Some package) vm).1 = Normal (Some pp) ->
  package_entry_at vm pp = Some pe ->
  module_entry_at vm pf = Some ef ->
  pe_module pe <> pf ->
  module_entry_at vm (pe_module pe) = Some eo ->
  let msg := err_msg ("Package: " +:+ pe_name pe +:+ " found in module "
                      +:+ me_name eo +:+ ", not in from_module: " +:+ me_name ef) in
  let x := add_module_exports (Some from) (Some package) to_module vm in
  let q := is_exported_to_module (Some from) (Some package) to_module vm in
  (x.1 = IllegalArgumentException msg /\ same_tables vm x.2)
  /\ (q.1 = IllegalArgumentException msg /\ same_tables vm q.2).
Proof.
  rewrite !get_module_entry_outcome, get_package_entry_run. cbn [fst].
  destruct (resolve_to_module_run to_module "to_module is invalid" vm)
    as (vm0 & -> & _). cbn [fst].
  intros Hf Ht Hv Hp Hpe Hef Ho Heo. cbv zeta.
  destruct (checks_run vm from package to_module _ pf to_entry pp pe Hf Ht Hv Hp Hpe)
    as (vm1 & vm2 & E1 & E2 & S12 & E3 & E4).
  split.
  - unfold add_module_exports, bind. rewrite E1, E2, Hv. unfold negb. cbv beta iota.
    rewrite E3, E4, bool_decide_eq_true_2 by congruence.
    rewrite (PackageEntry_name_run _ pe)
      by (by rewrite (package_entry_at_same vm vm2)).
    rewrite (ModuleEntry_name_run _ eo), (ModuleEntry_name_run _ ef)
      by (by rewrite (module_entry_at_same vm vm2)).
    split; [done | by apply same_registry_tables].
  - unfold is_exported_to_module, bind. rewrite E1, E2, Hv. unfold negb. cbv beta iota.
    rewrite E3, E4, bool_decide_eq_true_2 by congruence.
    rewrite (PackageEntry_name_run _ pe)
      by (by rewrite (package_entry_at_same vm vm2)).
    rewrite (ModuleEntry_name_run _ eo), (ModuleEntry_name_run _ ef)
      by (by rewrite (module_entry_at_same vm vm2)).
    split; [done | by apply same_registry_tables].
Qed.

End AddExports.


(** ** More of [define_module] *)

Section DefineMore.

Context `{host : Host}.

(** What a normal return of the first loop tells of the elements. *)
Lemma check_package_array_normal module_name elements (acc pkgs' : list Symbol) vm vm' :
  check_package_array module_name elements acc vm = (Normal pkgs', vm') ->
  vm' = vm
  /\ exists pkgs : list Symbol,
       elements = strings_of pkgs
       /\ pkgs' = (acc ++ pkgs)%list
       /\ Forall (fun s => verify_package_name (Some s) = true) pkgs
       /\ (NoDup acc -> NoDup (acc ++ pkgs)%list).
Proof.
  revert acc. induction elements as [|[[| |str|]|] rest IH]; intros acc;
    cbn [check_package_array]; try done.
  - intros [= <- <-]. split; [done|]. exists []. by rewrite app_nil_r.
  - unfold as_utf8_string.
    destruct (verify_package_name (Some str)) eqn:Ev; cbn [negb]; [|done].
    case_bool_decide as Hin; [done|].
    intros H. apply IH in H as (-> & pkgs & -> & -> & Hlegal & Hnd).
    split; [done|]. exists (str :: pkgs). split; [done|].
    split; [by rewrite <- app_assoc|]. split; [by constructor|].
    intros Hacc. rewrite <- app_assoc in Hnd. apply Hnd.
    apply NoDup_app. split; [done|]. split; [|apply NoDup_singleton].
    intros x Hx Hx'. apply list_elem_of_singleton in Hx'. by subst.
Qed.

(** X8.  The first loop of [define_module] returns normally exactly when the
    elements of the array are strings that are legal package names and
    pairwise different; it then returns these names in the order of the
    array.  It writes nothing, whatever its outcome. *)
Theorem check_package_array_spec module_name elements (pkgs : list Symbol) vm :
  (check_package_array module_name elements [] vm).1 = Normal pkgs
  <-> (elements = strings_of pkgs
       /\ NoDup pkgs
       /\ Forall (fun s => verify_package_name (Some s) = true) pkgs).
Proof.
  split.
  - destruct (check_package_array module_name elements [] vm) as [o vm'] eqn:E.
    cbn [fst]. intros ->.
    apply check_package_array_normal in E as (_ & pkgs0 & -> & -> & Hlegal & Hnd).
    cbn [app]. split; [done|]. split; [apply Hnd; constructor | done].
  - intros (-> & Hnd & Hlegal). unfold strings_of.
    by rewrite check_package_array_run.
Qed.

Lemma define_module_null_array name loader vm :
  define_module name loader None vm = define_module name loader (Some []) vm.
Proof. done. Qed.

(** What a normal return of [define_module] tells of its arguments and of the
    registry. *)
Lemma define_module_normal vm name loader packages r :
  (define_module name loader packages vm).1 = Normal r ->
  exists module_name h_loader (pkgs : list Symbol),
    name = Some module_name
    /\ verify_module_name (Some module_name) = true
    /\ module_name <> java_base
    /\ elements_of packages = strings_of pkgs
    /\ NoDup pkgs
    /\ Forall (fun s => verify_package_name (Some s) = true) pkgs
    /\ resolve_class_loader loader = Some h_loader
    /\ first_existing vm h_loader pkgs = None
    /\ ModuleEntryTable_lookup_only (modules_of vm h_loader) module_name = None.
Proof.
  intros H. destruct name as [module_name|]; [|done].
  unfold define_module, as_utf8_string in H. unfold bind at 1 in H.
  edestruct trace_ret_run as (vm1 & E1 & S1). rewrite E1 in H. clear E1.
  destruct (verify_module_name (Some module_name)) eqn:Hv; cbn [negb] in H; [|done].
  case_bool_decide as Hjb; [done|].
  unfold bind at 1 in H. fold (elements_of packages) in H.
  destruct (check_package_array module_name (elements_of packages) [] vm1)
    as [[pkgs'| |] vm1'] eqn:Ec; try done.
  apply check_package_array_normal in Ec as (-> & pkgs & Hel & -> & Hlegal & Hnd).
  cbn [app] in *. specialize (Hnd (NoDup_nil_2)).
  destruct (resolve_class_loader loader) as [h_loader|] eqn:Hl; [|done].
  exists module_name, h_loader, pkgs. repeat (split; [done|]).
  unfold bind at 1 in H.
  unfold get_module_entry_table, non_reflection_class_loader in H.
  unfold bind at 1 in H. rewrite register_loader_run in H. unfold ret at 1 in H.
  unfold bind at 1 in H. unfold java_lang_reflect_Module_create at 1 in H.
  set (vm3 := mk_VM _ _ (S _) _ _) in H.
  assert (S3 : same_registry vm vm3).
  { eapply same_registry_trans; [apply S1|].
    eapply same_registry_trans; [apply same_registry_registered|]. by split. }
  unfold bind at 1 in H. rewrite Hel in H.
  assert (Hfirst : first_existing vm h_loader pkgs = None).
  { destruct pkgs as [|pkg rest]; [done|].
    rewrite bool_decide_eq_true_2 in H by (simpl; lia).
    unfold get_package_entry_table, non_reflection_class_loader in H.
    unfold bind at 1 in H. unfold bind at 1 in H.
    rewrite register_loader_run in H. unfold ret at 1 in H.
    unfold bind at 1 in H. rewrite check_packages_absent_run in H.
    assert (S4 : same_registry vm (registered h_loader vm3))
      by (eapply same_registry_trans; [apply S3 | apply same_registry_registered]).
    unfold first_existing in *. rewrite (packages_of_same _ _ _ S4) in H.
    by destruct (find _ (pkg :: rest)). }
  split; [done|].
  destruct (ModuleEntryTable_lookup_only (modules_of vm h_loader) module_name)
    as [e|] eqn:Hfree; [|done].
  exfalso.
  assert (Hpt : exists vm4 pt,
            (if bool_decide (0 < length (strings_of pkgs))
             then let* package_table := get_package_entry_table h_loader in
                  run check_packages_absent h_loader (Some package_table)
                        module_name module_name pkgs
                  then ret (Some package_table)
             else ret None) vm3 = (Normal pt, vm4)
            /\ same_registry vm vm4).
  { case_bool_decide as Hlen.
    - unfold get_package_entry_table, non_reflection_class_loader, bind, ret.
      rewrite register_loader_run, check_packages_absent_run.
      assert (S4 : same_registry vm (registered h_loader vm3))
        by (eapply same_registry_trans; [apply S3 | apply same_registry_registered]).
      unfold first_existing in *. rewrite (packages_of_same _ _ _ S4), Hfirst.
      by eexists _, _.
    - by exists vm3, None. }
  destruct Hpt as (vm4 & pt & Ept & S4). rewrite Ept in H.
  unfold bind at 1 in H.
  unfold ModuleEntryTable_locked_create_entry_or_null, class_loader_data_or_null in H.
  by rewrite (modules_of_same _ _ _ S4), Hfree in H.
Qed.

(** X9.  [define_module] returns normally only when all its checks pass: the
    name is a legal module name other than java.base, the elements of the
    array are legal package names, pairwise different, the loader is null or a
    class loader, the package table of the loader holds none of the packages
    and its module table does not hold the name.  The value returned is then a
    module object of that loader and name. *)
Theorem define_module_normal_return vm name loader packages r :
  (define_module name loader packages vm).1 = Normal r ->
  exists module_name h_loader (pkgs : list Symbol) id,
    name = Some module_name
    /\ verify_module_name (Some module_name) = true
    /\ module_name <> java_base
    /\ elements_of packages = strings_of pkgs
    /\ NoDup pkgs
    /\ Forall (fun s => verify_package_name (Some s) = true) pkgs
    /\ resolve_class_loader loader = Some h_loader
    /\ first_existing vm h_loader pkgs = None
    /\ ModuleEntryTable_lookup_only (modules_of vm h_loader) module_name = None
    /\ r = Some (Module_oop (mk_jlrModule id h_loader module_name)).
Proof.
  intros H.
  destruct (define_module_normal vm name loader packages r H)
    as (module_name & h_loader & pkgs & -> & Hv & Hjb & Hel & Hnd & Hlegal & Hl
        & Hfirst & Hfree).
  destruct (define_module_succeeds vm module_name loader h_loader pkgs)
    as (id & vm' & E & _); try done.
  exists module_name, h_loader, pkgs, id. repeat (split; [done|]).
  assert (Hsame : define_module (Some module_name) loader packages vm
                  = define_module (Some module_name) loader (Some (strings_of pkgs)) vm).
  { destruct packages as [a|]; cbn [elements_of] in Hel.
    - by rewrite Hel.
    - rewrite define_module_null_array. by rewrite Hel. }
  rewrite Hsame in H. unfold strings_of in H. rewrite E in H. by injection H.
Qed.


(** The definition of a module whose name the module table of the loader
    holds already. *)
Lemma define_module_module_exists vm module_name loader h_loader (pkgs : list Symbol) e :
  verify_module_name (Some module_name) = true ->
  module_name <> java_base ->
  NoDup pkgs ->
  Forall (fun s => verify_package_name (Some s) = true) pkgs ->
  resolve_class_loader loader = Some h_loader ->
  ModuleEntryTable_lookup_only (modules_of vm h_loader) module_name = Some e ->
  (define_module (Some module_name) loader (Some (strings_of pkgs)) vm).1
  = IllegalArgumentException
      (err_msg ("Module " +:+ module_name +:+ " is already defined")).
Proof.
  intros Hv Hjb Hnd Hlegal Hl Hex.
  unfold define_module, as_utf8_string, strings_of. unfold bind at 1.
  edestruct trace_ret_run as (vm1 & -> & S1).
  rewrite Hv, bool_decide_eq_false_2 by done. cbn [negb].
  unfold bind at 1. rewrite check_package_array_run by done. rewrite Hl. cbn [app].
  unfold bind at 1.
  unfold get_module_entry_table, non_reflection_class_loader. unfold bind at 1.
  rewrite register_loader_run. unfold ret at 1.
  unfold bind at 1. unfold java_lang_reflect_Module_create at 1.
  set (vm3 := mk_VM _ _ (S _) _ _).
  assert (S3 : same_registry vm vm3).
  { eapply same_registry_trans; [apply S1|].
    eapply same_registry_trans; [apply same_registry_registered|]. by split. }
  unfold bind at 1. case_bool_decide as Hlen.
  - unfold get_package_entry_table, non_reflection_class_loader.
    unfold bind at 1. unfold bind at 1. rewrite register_loader_run. unfold ret at 1.
    unfold bind at 1. rewrite check_packages_absent_run.
    assert (S4 : same_registry vm (registered h_loader vm3))
      by (eapply same_registry_trans; [apply S3 | apply same_registry_registered]).
    rewrite (modules_of_same _ _ _ S4), Hex.
    destruct (first_existing _ _ _); [done|].
    unfold ret at 1. unfold bind at 1.
    unfold ModuleEntryTable_locked_create_entry_or_null.
    by rewrite (modules_of_same _ _ _ S4), Hex.
  - unfold ret at 1. unfold bind at 1.
    unfold ModuleEntryTable_locked_create_entry_or_null.
    by rewrite (modules_of_same _ _ _ S3), Hex.
Qed.

Lemma lookup_only_head name module loader reads t :
  ModuleEntryTable_lookup_only (mk_ModuleEntry name module loader reads :: t) name
  = Some (mk_ModuleEntry name module loader reads).
Proof.
  unfold ModuleEntryTable_lookup_only. cbn [find me_name].
  by rewrite bool_decide_eq_true_2.
Qed.

(** X12.  A module is defined once: after [define_module] has returned
    normally, no call of [define_module] with the same name and the same
    loader returns normally, whatever its packages, and when these are legal
    and pairwise different the exception is the one of the module that is
    already defined. *)
Theorem define_module_once vm name loader packages r :
  (define_module name loader packages vm).1 = Normal r ->
  let vm' := (define_module name loader packages vm).2 in
  (forall packages' r', (define_module name loader packages' vm').1 <> Normal r')
  /\ (forall pkgs' : list Symbol,
        NoDup pkgs' ->
        Forall (fun s => verify_package_name (Some s) = true) pkgs' ->
        exists module_name,
          name = Some module_name
          /\ (define_module name loader (Some (strings_of pkgs')) vm').1
             = IllegalArgumentException
                 (err_msg ("Module " +:+ module_name +:+ " is already defined"))).
Proof.
  intros H. cbv zeta.
  destruct (define_module_normal vm name loader packages r H)
    as (module_name & h_loader & pkgs & -> & Hv & Hjb & Hel & Hnd & Hlegal & Hl
        & Hfirst & Hfree).
  destruct (define_module_succeeds vm module_name loader h_loader pkgs)
    as (id & vm' & E & Hm & _); try done.
  assert (Hsame : define_module (Some module_name) loader packages vm
                  = define_module (Some module_name) loader (Some (strings_of pkgs)) vm).
  { destruct packages as [a|]; cbn [elements_of] in Hel.
    - by rewrite Hel.
    - rewrite define_module_null_array. by rewrite Hel. }
  fold (strings_of pkgs) in E. rewrite Hsame, E. cbn [snd].
  assert (Hex : ModuleEntryTable_lookup_only (modules_of vm' h_loader) module_name
                = Some (mk_ModuleEntry module_name
                          (mk_jlrModule id h_loader module_name) h_loader ∅)).
  { rewrite Hm. apply lookup_only_head. }
  split.
  - intros packages' r' H'.
    destruct (define_module_normal vm' _ loader packages' r' H')
      as (n' & l' & pkgs' & [= <-] & _ & _ & _ & _ & _ & Hl' & _ & Hfree').
    rewrite Hl in Hl'. injection Hl' as <-. by rewrite Hex in Hfree'.
  - intros pkgs' Hnd' Hlegal'. exists module_name. split; [done|].
    exact (define_module_module_exists vm' module_name loader h_loader pkgs' _
             Hv Hjb Hnd' Hlegal' Hl Hex).
Qed.

(** What a normal return of [define_module] tells and what it has done. *)
Lemma define_module_normal_effect vm name loader packages r :
  (define_module name loader packages vm).1 = Normal r ->
  let vm' := (define_module name loader packages vm).2 in
  exists module_name h_loader (pkgs : list Symbol) id,
    let module := mk_jlrModule id h_loader module_name in
    name = Some module_name
    /\ elements_of packages = strings_of pkgs
    /\ NoDup pkgs
    /\ resolve_class_loader loader = Some h_loader
    /\ first_existing vm h_loader pkgs = None
    /\ ModuleEntryTable_lookup_only (modules_of vm h_loader) module_name = None
    /\ r = Some (Module_oop module)
    /\ modules_of vm' h_loader
       = mk_ModuleEntry module_name module h_loader ∅ :: modules_of vm h_loader
    /\ packages_of vm' h_loader
       = (rev (map (fun pkg => mk_PackageEntry pkg (h_loader, module_name) ∅ false)
                   pkgs)
          ++ packages_of vm h_loader)%list
    /\ (forall l', l' <> h_loader ->
          modules_of vm' l' = modules_of vm l'
          /\ packages_of vm' l' = packages_of vm l').
Proof.
  intros H. cbv zeta.
  destruct (define_module_normal vm name loader packages r H)
    as (module_name & h_loader & pkgs & -> & Hv & Hjb & Hel & Hnd & Hlegal & Hl
        & Hfirst & Hfree).
  destruct (define_module_succeeds vm module_name loader h_loader pkgs)
    as (id & vm' & E & Hm & Hp & Ho); try done.
  fold (strings_of pkgs) in E.
  assert (Hsame : define_module (Some module_name) loader packages vm
                  = define_module (Some module_name) loader (Some (strings_of pkgs)) vm).
  { destruct packages as [a|]; cbn [elements_of] in Hel.
    - by rewrite Hel.
    - rewrite define_module_null_array. by rewrite Hel. }
  rewrite Hsame in H |- *. rewrite E in H |- *. cbn [fst snd] in H |- *.
  exists module_name, h_loader, pkgs, id. cbv zeta.
  repeat (split; [done|]). split; [by injection H|]. done.
Qed.

Lemma elem_of_rev {A} (x : A) (l : list A) : x ∈ rev l <-> x ∈ l.
Proof. rewrite !list_elem_of_In. symmetry. apply in_rev. Qed.



(** X11.  [define_module] does not fault, whatever its arguments: the package
    table, which is fetched only when the array of packages is not empty, is
    there whenever the second or the third loop goes through it, as the
    assertions of lines 241 and 276 state. *)
Theorem define_module_never_faults vm name loader packages :
  (define_module name loader packages vm).1 <> Fault.
Proof. apply define_module_no_fault. Qed.

End DefineMore.


(** ** The boot search path *)

Section BootPath.

Context `{host : Host}.

Lemma keeps_boot_ret {A} (a : A) : keeps_boot (ret a).
Proof. done. Qed.

Lemma keeps_boot_THROW_MSG {A} msg : keeps_boot (@THROW_MSG A msg).
Proof. done. Qed.

Lemma keeps_boot_bind {A B} (c : VMop A) (k : A -> VMop B) :
  keeps_boot c -> (forall a, keeps_boot (k a)) -> keeps_boot (bind c k).
Proof.
  intros Hc Hk vm. unfold bind. specialize (Hc vm).
  destruct (c vm) as [[a| |] vm1]; cbn [fst snd] in *; [|done..].
  by rewrite Hk.
Qed.

Lemma keeps_boot_trace_if flag line : keeps_boot line -> keeps_boot (trace_if flag line).
Proof.
  intros H. unfold trace_if. apply keeps_boot_bind; [done|].
  intros fl. destruct (flag fl); [|done].
  apply keeps_boot_bind; [done|]. by intros s vm.
Qed.

Lemma keeps_boot_register_loader l : keeps_boot (register_loader l).
Proof. intros vm. unfold register_loader. by destruct (loader_data vm !! l). Qed.

Lemma keeps_boot_lookup_package table name : keeps_boot (lookup_package table name).
Proof. intros vm. unfold lookup_package. by destruct table. Qed.

Lemma keeps_boot_check_package_array module_name elements pkg_list :
  keeps_boot (check_package_array module_name elements pkg_list).
Proof.
  revert pkg_list. induction elements as [|[[| |str|]|] rest IH]; intros pkg_list;
    cbn [check_package_array as_utf8_string]; try done.
  destruct (negb _); [done|]. destruct (bool_decide _); [done | apply IH].
Qed.

Lemma keeps_boot_check_packages_absent mt pt sym module_name pkg_list :
  keeps_boot (check_packages_absent mt pt sym module_name pkg_list).
Proof.
  induction pkg_list as [|pkg rest IH]; cbn [check_packages_absent]; [done|].
  apply keeps_boot_bind; [apply keeps_boot_lookup_package|]. intros [found|]; [|done].
  apply keeps_boot_bind; [done|]. by intros [?|].
Qed.

Lemma keeps_boot_create_module table module name loader :
  keeps_boot (ModuleEntryTable_locked_create_entry_or_null table module name loader).
Proof.
  intros vm. unfold ModuleEntryTable_locked_create_entry_or_null.
  by destruct (ModuleEntryTable_lookup_only _ _).
Qed.

Lemma keeps_boot_create_package table name module :
  keeps_boot (PackageEntryTable_locked_create_entry_or_null table name module).
Proof.
  intros vm. unfold PackageEntryTable_locked_create_entry_or_null.
  destruct table; [|done]. by destruct (PackageEntryTable_lookup_only _ _).
Qed.

Lemma keeps_boot_create_package_entries pt me module_name pkg_list :
  keeps_boot (create_package_entries pt me module_name pkg_list).
Proof.
  induction pkg_list as [|pkg rest IH]; cbn [create_package_entries]; [done|].
  apply keeps_boot_bind; [apply keeps_boot_create_package|]. intros _.
  apply keeps_boot_bind; [by apply keeps_boot_trace_if | by intros _].
Qed.

Lemma appends_THROW_MSG {A} paths msg : appends paths (@THROW_MSG A msg).
Proof. intros vm. cbn. by rewrite app_nil_r. Qed.

Lemma appends_bind {A B} paths (c : VMop A) (k : A -> VMop B) :
  keeps_boot c -> (forall a, appends paths (k a)) -> appends paths (bind c k).
Proof.
  intros Hc Hk vm. unfold bind. specialize (Hc vm).
  destruct (c vm) as [[a| |] vm1]; cbn [fst snd] in *;
    [| by rewrite app_nil_r, Hc..].
  by rewrite Hk, Hc.
Qed.

Ltac filter_paths :=
  cbn [app];
  repeat first [ rewrite filter_cons_True by congruence
               | rewrite filter_cons_False by congruence
               | rewrite filter_nil ];
  rewrite ?app_nil_r, <- ?app_assoc.

(** [add_to_boot_loader_list] returns, having called [ClassLoader::add_to_list]
    with the directories of the module that exist. *)
Lemma add_to_boot_loader_list_appends module_name vm :
  exists vm',
    add_to_boot_loader_list module_name vm = (Normal tt, vm')
    /\ boot_list vm' = (boot_list vm ++ boot_directories module_name)%list.
Proof.
  assert (Hadd : forall s p vm0,
            exists vm1,
              (run trace_if TraceClassLoading (ret s) then ClassLoader_add_to_list p) vm0
              = (Normal tt, vm1)
              /\ boot_list vm1 = (boot_list vm0 ++ [p])%list).
  { intros s p vm0. unfold bind at 1.
    pose proof (keeps_boot_trace_if TraceClassLoading (ret s) (keeps_boot_ret s) vm0) as Hb.
    destruct (trace_ret_run TraceClassLoading s vm0) as (vm1 & E1 & _).
    rewrite E1 in Hb |- *. cbn [snd] in Hb.
    eexists. split; [reflexivity|]. cbn [boot_list]. by rewrite Hb. }
  unfold add_to_boot_loader_list, boot_directories. cbv zeta. unfold bind at 1.
  destruct Arguments_override_dir as [dir|].
  - destruct (os_stat_ok (dir +:+ _)) eqn:E1.
    + destruct (Hadd ("[Opened -Xoverride " +:+ (dir +:+ String os_file_separator ""
                        +:+ module_name) +:+ "]")
                     (dir +:+ String os_file_separator "" +:+ module_name) vm)
        as (vm1 & -> & Hb1).
      destruct ClassLoader_has_bootmodules_jimage; cbn [negb].
      * exists vm1. split; [done|]. rewrite Hb1. by filter_paths.
      * destruct (os_stat_ok (Arguments_get_java_home +:+ _)) eqn:E2.
        -- edestruct Hadd as (vm2 & -> & Hb2). exists vm2. split; [done|].
           rewrite Hb2, Hb1. by filter_paths.
        -- exists vm1. split; [done|]. rewrite Hb1. by filter_paths.
    + unfold ret at 1.
      destruct ClassLoader_has_bootmodules_jimage; cbn [negb].
      * exists vm. split; [done|]. by filter_paths.
      * destruct (os_stat_ok (Arguments_get_java_home +:+ _)) eqn:E2.
        -- edestruct Hadd as (vm2 & -> & Hb2). exists vm2. split; [done|].
           rewrite Hb2. by filter_paths.
        -- exists vm. split; [done|]. by filter_paths.
  - unfold ret at 1.
    destruct ClassLoader_has_bootmodules_jimage; cbn [negb].
    + exists vm. split; [done|]. by filter_paths.
    + destruct (os_stat_ok (Arguments_get_java_home +:+ _)) eqn:E2.
      * edestruct Hadd as (vm2 & -> & Hb2). exists vm2. split; [done|].
        rewrite Hb2. by filter_paths.
      * exists vm. split; [done|]. by filter_paths.
Qed.

Lemma define_module_appends module_name loader packages :
  appends (match loader with
           | None => boot_directories module_name
           | Some _ => []
           end)
          (define_module (Some module_name) loader packages).
Proof.
  unfold define_module, as_utf8_string.
  apply appends_bind; [by apply keeps_boot_trace_if|]. intros _.
  destruct (negb _); [apply appends_THROW_MSG|].
  destruct (bool_decide _); [apply appends_THROW_MSG|].
  apply appends_bind; [apply keeps_boot_check_package_array|]. intros pkg_list.
  destruct (resolve_class_loader loader) as [h_loader|]; [|apply appends_THROW_MSG].
  apply appends_bind.
  { unfold get_module_entry_table.
    apply keeps_boot_bind; [apply keeps_boot_register_loader | done]. }
  intros module_table.
  apply appends_bind; [done|]. intros jlrM.
  apply appends_bind.
  { destruct (bool_decide _); [|done].
    apply keeps_boot_bind.
    - unfold get_package_entry_table.
      apply keeps_boot_bind; [apply keeps_boot_register_loader | done].
    - intros pt. apply keeps_boot_bind; [apply keeps_boot_check_packages_absent | done]. }
  intros package_table.
  apply appends_bind; [apply keeps_boot_create_module|].
  intros [module_entry|]; [|apply appends_THROW_MSG].
  apply appends_bind; [by apply keeps_boot_trace_if|]. intros _.
  apply appends_bind; [apply keeps_boot_create_package_entries|]. intros _.
  intros vm. unfold bind at 1 2.
  destruct loader as [l|].
  - cbn. by rewrite app_nil_r.
  - destruct (add_to_boot_loader_list_appends module_name vm) as (vm' & -> & Hb).
    by cbn.
Qed.

(** X14.  [define_module] adds to the boot search path in one case only: when
    it returns normally and the loader is the boot loader (a null handle),
    [ClassLoader::add_to_list] is called with the directories of the module
    that exist, the one of the override directory before the one of the
    exploded build; in all other cases, a failure or another loader, it is not
    called. *)
Theorem define_module_boot_search_path vm name loader packages :
  let r := define_module name loader packages vm in
  boot_list r.2
  = (boot_list vm
     ++ match r.1, loader, name with
        | Normal _, None, Some module_name => boot_directories module_name
        | _, _, _ => []
        end)%list.
Proof.
  cbv zeta. destruct name as [module_name|].
  - rewrite (define_module_appends module_name loader packages vm).
    destruct (define_module _ _ _ vm).1; [|done..]. by destruct loader.
  - cbn. by rewrite app_nil_r.
Qed.

End BootPath.


(** ** The registry after a failure of a mutator *)

Section OnlyOnReturn.

Context `{host : Host}.

Lemma only_on_return_keeps {A} (c : VMop A) : keeps c -> only_on_return c.
Proof. intros H vm _. apply H. Qed.

Lemma only_on_return_bind {A B} (c : VMop A) (k : A -> VMop B) :
  keeps c -> (forall a, only_on_return (k a)) -> only_on_return (bind c k).
Proof.
  intros Hc Hk vm. unfold bind. specialize (Hc vm).
  destruct (c vm) as [[a| |] vm1]; cbn [fst snd] in *; [|done..].
  intros H. eapply same_registry_trans; [done | by apply Hk].
Qed.

Lemma only_on_return_add_read p m : only_on_return (ModuleEntry_add_read p m).
Proof.
  intros vm H. unfold ModuleEntry_add_read, bind, deref_module in *.
  destruct p as [q|]; [|apply same_registry_refl].
  destruct (module_entry_at vm q); [|apply same_registry_refl].
  by destruct (H tt).
Qed.

Lemma only_on_return_set_exported p m : only_on_return (PackageEntry_set_exported p m).
Proof.
  intros vm H. unfold PackageEntry_set_exported, bind, deref_package in *.
  destruct p as [q|]; [|apply same_registry_refl].
  destruct (package_entry_at vm q); [|apply same_registry_refl].
  by destruct (H tt).
Qed.

Lemma only_on_return_create_package l name module msg :
  only_on_return
    (let* pkg_exists :=
       (let* _pkg := PackageEntryTable_locked_create_entry_or_null (Some l) name module in
        ret false) in
     if (pkg_exists : bool) then THROW_MSG msg else ret tt).
Proof.
  intros vm H. destruct (H tt).
  unfold bind, PackageEntryTable_locked_create_entry_or_null.
  by destruct (PackageEntryTable_lookup_only _ _).
Qed.

Ltac keeps_all :=
  unfold ModuleEntry_name, ModuleEntry_loader, ModuleEntry_can_read,
    PackageEntry_name, PackageEntry_module, PackageEntry_is_unqual_exported,
    PackageEntry_is_qexported_to;
  repeat first
    [ apply keeps_ret | apply keeps_THROW_MSG | apply keeps_fault
    | apply keeps_get_flags | apply keeps_deref_module | apply keeps_deref_package
    | apply keeps_get_module_entry | apply keeps_resolve_to_module
    | apply keeps_get_package_entry | apply keeps_lookup_package
    | apply keeps_lookup_module
    | apply keeps_trace_if
    | apply keeps_bind; [|intros ?]
    | match goal with
      | |- keeps (match ?x with _ => _ end) => destruct x
      end ].

Ltac only_on_return_step :=
  first
    [ apply only_on_return_add_read
    | apply only_on_return_set_exported
    | apply only_on_return_create_package
    | apply only_on_return_keeps; solve [keeps_all]
    | apply only_on_return_bind; [solve [keeps_all] | intros ?]
    | match goal with
      | |- only_on_return (match ?x with _ => _ end) => destruct x
      end ].

Lemma only_on_return_add_reads_module from_module to_module :
  only_on_return (add_reads_module from_module to_module).
Proof. unfold add_reads_module. repeat only_on_return_step. Qed.

Lemma only_on_return_add_module_exports from_module package to_module :
  only_on_return (add_module_exports from_module package to_module).
Proof. unfold add_module_exports. repeat only_on_return_step. Qed.

Lemma only_on_return_add_module_package module package :
  only_on_return (add_module_package module package).
Proof.
  unfold add_module_package, as_utf8_string.
  do 7 only_on_return_step.
  apply only_on_return_bind; [solve [keeps_all] | intros found].
  destruct found as [found|]; repeat only_on_return_step.
Qed.

(** X15.  The three mutators of an existing module change the registry only
    when they return normally: whatever the arguments, if [add_reads_module],
    [add_module_exports] or [add_module_package] ends with an exception or a
    fault, the flags and the tables of every loader are what they were before
    the call. *)
Theorem mutators_write_only_on_return vm from to package module :
  let r := add_reads_module from to vm in
  let x := add_module_exports from package to vm in
  let p := add_module_package module package vm in
  ((forall a, r.1 <> Normal a) -> same_registry vm r.2)
  /\ ((forall a, x.1 <> Normal a) -> same_registry vm x.2)
  /\ ((forall a, p.1 <> Normal a) -> same_registry vm p.2).
Proof.
  cbv zeta. split; [apply only_on_return_add_reads_module|].
  split; [apply only_on_return_add_module_exports
         | apply only_on_return_add_module_package].
Qed.

End OnlyOnReturn.


(** ** Well-formed registries *)

Section WellFormed.

Context `{host : Host}.

Lemma valid_module_names vm p :
  valid_module vm p <-> p.2 ∈ map me_name (modules_of vm p.1).
Proof.
  unfold valid_module, module_entry_at. split.
  - intros [e He]. apply lookup_only_name in He as [<- Hin].
    apply list_elem_of_fmap. by exists e.
  - intros Hin. apply list_elem_of_fmap in Hin as (e & -> & Hin).
    by apply lookup_only_present.
Qed.

Lemma valid_module_mono vm vm' q :
  (forall l, map me_name (modules_of vm l) ⊆ map me_name (modules_of vm' l)) ->
  valid_module vm q -> valid_module vm' q.
Proof. intros Hsub. rewrite !valid_module_names. apply Hsub. Qed.

Lemma valid_module_same vm vm' q :
  same_registry vm vm' -> valid_module vm' q <-> valid_module vm q.
Proof. intros S. unfold valid_module. by rewrite (module_entry_at_same vm vm'). Qed.

Lemma registry_ok_same vm vm' : same_registry vm vm' -> registry_ok vm -> registry_ok vm'.
Proof.
  intros S H l. destruct (H l) as (H1 & H2 & H3 & H4).
  rewrite (modules_of_same vm vm'), (packages_of_same vm vm') by done.
  split; [done|]. split; [done|]. split.
  - intros e He. destruct (H3 e He) as (? & ? & Hr). repeat split; [done..|].
    intros q Hq. by apply (valid_module_same vm vm'), Hr.
  - intros pe Hpe. destruct (H4 pe Hpe) as (? & ? & Hx). split; [done|].
    split; [by apply (valid_module_same vm vm')|].
    intros q Hq. by apply (valid_module_same vm vm'), Hx.
Qed.

(** A registry without loader data is well formed. *)
Lemma registry_ok_empty vm : loader_data vm = ∅ -> registry_ok vm.
Proof.
  intros He l. unfold modules_of, packages_of, cld_of. rewrite He, lookup_empty.
  cbn. split; [apply NoDup_nil_2|]. split; [apply NoDup_nil_2|].
  split; intros ? Hin; by apply elem_of_nil in Hin.
Qed.

(** The registry after a step that has kept the names of the modules and
    whose new or changed entries are well formed. *)
Lemma registry_ok_step vm vm' :
  registry_ok vm ->
  (forall l, map me_name (modules_of vm l) ⊆ map me_name (modules_of vm' l)) ->
  (forall l, NoDup (map me_name (modules_of vm' l))) ->
  (forall l, NoDup (map pe_name (packages_of vm' l))) ->
  (forall l e, e ∈ modules_of vm' l ->
               e ∈ modules_of vm l \/ module_entry_ok vm' l e) ->
  (forall l pe, pe ∈ packages_of vm' l ->
                pe ∈ packages_of vm l \/ package_entry_ok vm' l pe) ->
  registry_ok vm'.
Proof.
  intros H Hsub Hnm Hnp Hm Hp l. split; [done|]. split; [done|]. split.
  - intros e He. destruct (Hm l e He) as [Hold|]; [|done].
    destruct (H l) as (_ & _ & Hmo & _). destruct (Hmo e Hold) as (? & ? & Hr).
    repeat split; [done..|]. intros q Hq. by eapply valid_module_mono, Hr.
  - intros pe Hpe. destruct (Hp l pe Hpe) as [Hold|]; [|done].
    destruct (H l) as (_ & _ & _ & Hpo). destruct (Hpo pe Hold) as (? & ? & Hx).
    split; [done|]. split; [by eapply valid_module_mono|].
    intros q Hq. by eapply valid_module_mono, Hx.
Qed.

Lemma elem_of_update_module name f t e' :
  e' ∈ update_module name f t -> e' ∈ t \/ exists e, e ∈ t /\ e' = f e.
Proof.
  induction t as [|e t IH]; cbn [update_module]; [by left|].
  case_bool_decide.
  - intros [->|Hin]%elem_of_cons; [right; exists e; split; [left | done]|].
    left. by right.
  - intros [->|Hin]%elem_of_cons; [left; left|].
    destruct (IH Hin) as [?|(e0 & ? & ->)]; [left; by right|].
    right. exists e0. split; [by right | done].
Qed.

Lemma elem_of_update_package name f t e' :
  e' ∈ update_package name f t -> e' ∈ t \/ exists e, e ∈ t /\ e' = f e.
Proof.
  induction t as [|e t IH]; cbn [update_package]; [by left|].
  case_bool_decide.
  - intros [->|Hin]%elem_of_cons; [right; exists e; split; [left | done]|].
    left. by right.
  - intros [->|Hin]%elem_of_cons; [left; left|].
    destruct (IH Hin) as [?|(e0 & ? & ->)]; [left; by right|].
    right. exists e0. split; [by right | done].
Qed.

(** The registry once a module reads one more module. *)
Lemma registry_ok_add_read vm vm' pa pb :
  registry_ok vm ->
  valid_module vm pb ->
  (forall l, packages_of vm' l = packages_of vm l) ->
  (forall l, modules_of vm' l
             = if decide (pa.1 = l)
               then update_module pa.2 (reading pb) (modules_of vm l)
               else modules_of vm l) ->
  registry_ok vm'.
Proof.
  intros Hok Hpb Hp Hm.
  assert (Hnames : forall l, map me_name (modules_of vm' l) = map me_name (modules_of vm l)).
  { intros l. rewrite Hm. destruct (decide _); [|done]. by apply update_module_names. }
  assert (Hmono : forall q, valid_module vm q -> valid_module vm' q).
  { intros q. apply valid_module_mono. intros l. by rewrite Hnames. }
  apply (registry_ok_step vm vm' Hok).
  - intros l. by rewrite Hnames.
  - intros l. rewrite Hnames. apply Hok.
  - intros l. rewrite Hp. apply Hok.
  - intros l e' He'. rewrite Hm in He'. destruct (decide _) as [<-|]; [|by left].
    apply elem_of_update_module in He' as [?|(e & He & ->)]; [by left|]. right.
    destruct (Hok pa.1) as (_ & _ & Hmo & _). destruct (Hmo e He) as (? & ? & Hr).
    repeat split; [done..|]. cbn [reading me_reads]. intros q Hq.
    apply elem_of_union in Hq as [->%elem_of_singleton|Hq]; [by apply Hmono|].
    by apply Hmono, Hr.
  - intros l pe Hpe. left. by rewrite <- Hp.
Qed.

(** The registry once a package is exported to one more module. *)
Lemma registry_ok_set_exported vm vm' pp to_entry :
  registry_ok vm ->
  (forall q, to_entry = Some q -> valid_module vm q) ->
  (forall l, modules_of vm' l = modules_of vm l) ->
  (forall l, packages_of vm' l
             = if decide (pp.1 = l)
               then update_package pp.2 (exporting to_entry) (packages_of vm l)
               else packages_of vm l) ->
  registry_ok vm'.
Proof.
  intros Hok Hto Hm Hp.
  assert (Hmono : forall q, valid_module vm q -> valid_module vm' q).
  { intros q. apply valid_module_mono. intros l. by rewrite Hm. }
  apply (registry_ok_step vm vm' Hok).
  - intros l. by rewrite Hm.
  - intros l. rewrite Hm. apply Hok.
  - intros l. rewrite Hp. destruct (decide _); [|apply Hok].
    rewrite update_package_names by done. apply Hok.
  - intros l e He. left. by rewrite <- Hm.
  - intros l pe' Hpe'. rewrite Hp in Hpe'. destruct (decide _) as [<-|]; [|by left].
    apply elem_of_update_package in Hpe' as [?|(pe & Hpe & ->)]; [by left|]. right.
    destruct (Hok pp.1) as (_ & _ & _ & Hpo). destruct (Hpo pe Hpe) as (? & ? & Hx).
    split; [done|]. split; [by apply Hmono|].
    cbn [exporting pe_exports]. intros q Hq.
    apply elem_of_union in Hq as [Hq%elem_of_singleton|Hq]; [by apply Hmono, Hto|].
    by apply Hmono, Hx.
Qed.

(** The registry once a loader has one more package. *)
Lemma registry_ok_add_package vm vm' l name pm :
  registry_ok vm ->
  valid_module vm pm ->
  pm.1 = l ->
  name ∉ map pe_name (packages_of vm l) ->
  (forall l', modules_of vm' l' = modules_of vm l') ->
  packages_of vm' l = mk_PackageEntry name pm ∅ false :: packages_of vm l ->
  (forall l', l' <> l -> packages_of vm' l' = packages_of vm l') ->
  registry_ok vm'.
Proof.
  intros Hok Hpm Hl Hfree Hm Hp Ho.
  assert (Hmono : forall q, valid_module vm q -> valid_module vm' q).
  { intros q. apply valid_module_mono. intros l'. by rewrite Hm. }
  apply (registry_ok_step vm vm' Hok).
  - intros l'. by rewrite Hm.
  - intros l'. rewrite Hm. apply Hok.
  - intros l'. destruct (decide (l' = l)) as [->|Hne]; [|rewrite Ho by done; apply Hok].
    rewrite Hp. cbn [map pe_name]. apply NoDup_cons. split; [done | apply Hok].
  - intros l' e He. left. by rewrite <- Hm.
  - intros l' pe Hpe. destruct (decide (l' = l)) as [->|Hne];
      [|left; by rewrite <- Ho].
    rewrite Hp in Hpe. apply elem_of_cons in Hpe as [->|Hpe]; [|by left]. right.
    split; [done|]. split; [by apply Hmono|]. cbn [pe_exports]. set_solver.
Qed.

Lemma lookup_only_absent t name :
  ModuleEntryTable_lookup_only t name = None -> name ∉ map me_name t.
Proof.
  intros Hnone Hin. apply list_elem_of_fmap in Hin as (e & -> & Hin).
  apply lookup_only_present in Hin as [e' He']. congruence.
Qed.

(** The registry once a loader has one more module, with its packages. *)
Lemma registry_ok_define vm vm' h_loader module_name id (pkgs : list Symbol) :
  registry_ok vm ->
  NoDup pkgs ->
  first_existing vm h_loader pkgs = None ->
  ModuleEntryTable_lookup_only (modules_of vm h_loader) module_name = None ->
  modules_of vm' h_loader
  = mk_ModuleEntry module_name (mk_jlrModule id h_loader module_name) h_loader ∅
    :: modules_of vm h_loader ->
  packages_of vm' h_loader
  = (rev (map (fun pkg => mk_PackageEntry pkg (h_loader, module_name) ∅ false) pkgs)
     ++ packages_of vm h_loader)%list ->
  (forall l', l' <> h_loader ->
     modules_of vm' l' = modules_of vm l' /\ packages_of vm' l' = packages_of vm l') ->
  registry_ok vm'.
Proof.
  intros Hok Hnd Hfirst Hfree Hm Hp Ho.
  assert (Hsub : forall l, map me_name (modules_of vm l) ⊆ map me_name (modules_of vm' l)).
  { intros l. destruct (decide (l = h_loader)) as [->|Hne].
    - rewrite Hm. cbn [map]. intros x Hx. by right.
    - by rewrite (proj1 (Ho l Hne)). }
  assert (Hnew : valid_module vm' (h_loader, module_name)).
  { apply valid_module_names. cbn [fst snd]. rewrite Hm. cbn [map me_name]. left. }
  apply (registry_ok_step vm vm' Hok Hsub).
  - intros l. destruct (decide (l = h_loader)) as [->|Hne].
    + rewrite Hm. cbn [map me_name]. apply NoDup_cons.
      split; [by apply lookup_only_absent | apply Hok].
    + rewrite (proj1 (Ho l Hne)). apply Hok.
  - intros l. destruct (decide (l = h_loader)) as [->|Hne].
    + rewrite Hp, map_app, map_rev, map_map. cbn [pe_name]. rewrite map_id.
      apply NoDup_app. split; [|split; [|apply Hok]].
      * apply NoDup_ListNoDup, List.NoDup_rev, NoDup_ListNoDup, Hnd.
      * intros x Hx Hold. apply (proj1 (elem_of_rev _ _)) in Hx.
        unfold first_existing in Hfirst.
        apply list_elem_of_In in Hx.
        pose proof (find_none _ _ Hfirst x Hx) as Hb. cbv beta in Hb.
        by apply bool_decide_eq_false in Hb.
    + rewrite (proj2 (Ho l Hne)). apply Hok.
  - intros l e He. destruct (decide (l = h_loader)) as [->|Hne].
    + rewrite Hm in He. apply elem_of_cons in He as [->|He]; [|by left]. right.
      repeat split; [done..|]. cbn [me_reads]. set_solver.
    + left. by rewrite <- (proj1 (Ho l Hne)).
  - intros l pe Hpe. destruct (decide (l = h_loader)) as [->|Hne].
    + rewrite Hp in Hpe. apply elem_of_app in Hpe as [Hpe|Hpe]; [|by left]. right.
      apply elem_of_rev, list_elem_of_fmap in Hpe as (s & -> & _).
      split; [done|]. split; [done|]. cbn [pe_exports]. set_solver.
    + left. by rewrite <- (proj2 (Ho l Hne)).
Qed.

End WellFormed.


(** ** The operations on a well-formed registry *)

Section Safe.

Context `{host : Host}.

Variable vm0 : VM.

Lemma safe_on_ret {A} (a : A) (Q : A -> Prop) : Q a -> safe_on vm0 (ret a) Q.
Proof. intros HQ vm S. cbn. split; [done|]. split; [done|]. by intros ? [= <-]. Qed.

Lemma safe_on_THROW_MSG {A} msg (Q : A -> Prop) : safe_on vm0 (THROW_MSG msg) Q.
Proof. intros vm S. cbn. by split. Qed.

Lemma safe_on_bind {A B} (c : VMop A) (k : A -> VMop B) (Q : A -> Prop) (R : B -> Prop) :
  safe_on vm0 c Q -> (forall a, Q a -> safe_on vm0 (k a) R) -> safe_on vm0 (bind c k) R.
Proof.
  intros Hc Hk vm S. unfold bind. destruct (Hc vm S) as (Hnf & S1 & HQ).
  destruct (c vm) as [[a| |] vm1]; cbn [fst snd] in *; [|by split|done].
  by apply Hk; [apply HQ|].
Qed.

Lemma ends_on_ret {A} (a : A) (Post : VM -> Prop) :
  (forall vm, same_registry vm0 vm -> Post vm) -> ends_on vm0 (ret a) Post.
Proof. intros HP vm S. cbn. by apply HP. Qed.

Lemma ends_on_THROW_MSG {A} msg (Post : VM -> Prop) :
  ends_on vm0 (@THROW_MSG A msg) Post.
Proof. by intros vm S. Qed.

Lemma ends_on_bind {A B} (c : VMop A) (k : A -> VMop B) (Q : A -> Prop)
    (Post : VM -> Prop) :
  safe_on vm0 c Q -> (forall a, Q a -> ends_on vm0 (k a) Post) ->
  ends_on vm0 (bind c k) Post.
Proof.
  intros Hc Hk vm S. unfold bind. destruct (Hc vm S) as (Hnf & S1 & HQ).
  destruct (c vm) as [[a| |] vm1]; cbn [fst snd] in *; [|done..].
  by apply Hk; [apply HQ|].
Qed.

Lemma safe_on_ends {A} (c : VMop A) (Q : A -> Prop) (Post : VM -> Prop) :
  safe_on vm0 c Q -> (forall vm, same_registry vm0 vm -> Post vm) -> ends_on vm0 c Post.
Proof.
  intros Hc HP vm S. destruct (Hc vm S) as (Hnf & S1 & _).
  destruct (c vm).1; [by apply HP | done | done].
Qed.

Lemma safe_get_module_entry m :
  safe_on vm0 (get_module_entry (Some (Module_oop m)))
          (fun r => forall p, r = Some p -> valid_module vm0 p).
Proof.
  intros vm S. destruct (get_module_entry_run (Some (Module_oop m)) vm) as (vm' & E & S').
  rewrite E. cbn [fst snd]. split; [done|].
  split; [by eapply same_registry_trans|].
  intros a Ha p ->. apply module_of_deref in Ha.
  by apply (valid_module_same vm0 vm).
Qed.

Lemma safe_resolve_to_module to_module msg :
  is_module_handle to_module ->
  safe_on vm0 (resolve_to_module to_module msg)
          (fun r => match to_module with
                    | None => r = None
                    | Some _ => exists q, r = Some q /\ valid_module vm0 q
                    end).
Proof.
  intros Hh. unfold resolve_to_module.
  destruct to_module as [[m| | |]|]; try (by destruct Hh); [|by apply safe_on_ret].
  eapply safe_on_bind; [apply safe_get_module_entry|].
  intros [q|] Hq; [|apply safe_on_THROW_MSG].
  apply safe_on_ret. exists q. split; [done | by apply Hq].
Qed.

Lemma safe_deref_module p :
  valid_module vm0 p ->
  safe_on vm0 (deref_module (Some p)) (fun e => module_entry_at vm0 p = Some e).
Proof.
  intros [e He] vm S. rewrite deref_module_run, (module_entry_at_same vm0 vm), He by done.
  cbn. split; [done|]. split; [done|]. by intros ? [= <-].
Qed.

Lemma safe_deref_package p :
  is_Some (package_entry_at vm0 p) ->
  safe_on vm0 (deref_package (Some p)) (fun e => package_entry_at vm0 p = Some e).
Proof.
  intros [e He] vm S. rewrite deref_package_run, (package_entry_at_same vm0 vm), He by done.
  cbn. split; [done|]. split; [done|]. by intros ? [= <-].
Qed.

Lemma safe_ModuleEntry_name p :
  valid_module vm0 p -> safe_on vm0 (ModuleEntry_name (Some p)) (fun _ => True).
Proof.
  intros Hp. eapply safe_on_bind; [by apply safe_deref_module|].
  intros e _. by apply safe_on_ret.
Qed.

Lemma safe_ModuleEntry_loader p :
  registry_ok vm0 ->
  valid_module vm0 p -> safe_on vm0 (ModuleEntry_loader (Some p)) (fun l => l = p.1).
Proof.
  intros Hok Hp. eapply safe_on_bind; [by apply safe_deref_module|].
  intros e He. apply safe_on_ret.
  apply lookup_only_name in He as [_ Hin].
  destruct (Hok p.1) as (_ & _ & Hmo & _). by destruct (Hmo e Hin).
Qed.

Lemma safe_ModuleEntry_can_read p m :
  valid_module vm0 p -> safe_on vm0 (ModuleEntry_can_read (Some p) m) (fun _ => True).
Proof.
  intros Hp. eapply safe_on_bind; [by apply safe_deref_module|].
  intros e _. by apply safe_on_ret.
Qed.

Lemma safe_PackageEntry_name p :
  is_Some (package_entry_at vm0 p) ->
  safe_on vm0 (PackageEntry_name (Some p)) (fun _ => True).
Proof.
  intros Hp. eapply safe_on_bind; [by apply safe_deref_package|].
  intros e _. by apply safe_on_ret.
Qed.

Lemma safe_PackageEntry_is_unqual_exported p :
  is_Some (package_entry_at vm0 p) ->
  safe_on vm0 (PackageEntry_is_unqual_exported (Some p)) (fun _ => True).
Proof.
  intros Hp. eapply safe_on_bind; [by apply safe_deref_package|].
  intros e _. by apply safe_on_ret.
Qed.

Lemma safe_PackageEntry_is_qexported_to p m :
  is_Some (package_entry_at vm0 p) ->
  safe_on vm0 (PackageEntry_is_qexported_to (Some p) m) (fun _ => True).
Proof.
  intros Hp. eapply safe_on_bind; [by apply safe_deref_package|].
  intros e _. by apply safe_on_ret.
Qed.

(** The owner of a package of a well-formed registry can be followed. *)
Lemma safe_PackageEntry_module p :
  registry_ok vm0 ->
  is_Some (package_entry_at vm0 p) ->
  safe_on vm0 (PackageEntry_module (Some p)) (valid_module vm0).
Proof.
  intros Hok Hp. eapply safe_on_bind; [by apply safe_deref_package|].
  intros e He. apply safe_on_ret.
  apply package_lookup_only_name in He as [_ Hin].
  destruct (Hok p.1) as (_ & _ & _ & Hpo). by destruct (Hpo e Hin) as (_ & ? & _).
Qed.

Lemma safe_get_package_entry pf package :
  valid_module vm0 pf ->
  safe_on vm0 (get_package_entry (Some pf) package)
          (fun r => forall pp, r = Some pp -> is_Some (package_entry_at vm0 pp)).
Proof.
  intros Hpf vm S. destruct package as [s|]; [|by apply safe_on_ret].
  rewrite get_package_entry_run. cbn [fst snd].
  rewrite (package_of_same vm0 vm) by done.
  destruct Hpf as [e He]. split; [unfold package_of; by rewrite He|].
  split; [done|]. intros a Ha pp ->. by apply package_of_deref in Ha.
Qed.

Lemma safe_trace_if flag line :
  (flag (flags vm0) = true -> safe_on vm0 line (fun _ => True)) ->
  safe_on vm0 (trace_if flag line) (fun _ => True).
Proof.
  intros Hline vm S. unfold trace_if, bind, get_flags.
  rewrite (flags_same vm0 vm S).
  destruct (flag (flags vm0)); [|by split].
  destruct (Hline eq_refl vm S) as (Hnf & S1 & _).
  destruct (line vm) as [[s| |] vm1]; cbn [fst snd] in *; [|by split|done].
  rewrite tty_print_cr_run. cbn [fst snd]. split; [done|]. split; [|done].
  eapply same_registry_trans; [done | apply same_registry_printed].
Qed.

Lemma ends_add_read pa pb :
  registry_ok vm0 -> valid_module vm0 pa -> valid_module vm0 pb ->
  ends_on vm0 (ModuleEntry_add_read (Some pa) pb) registry_ok.
Proof.
  intros Hok Ha Hb vm S. unfold ModuleEntry_add_read, bind.
  rewrite deref_module_run. apply (valid_module_same vm0 vm) in Ha as [e He]; [|done].
  rewrite He. cbn [fst snd].
  apply (registry_ok_add_read vm _ pa pb).
  - by apply (registry_ok_same vm0).
  - by apply (valid_module_same vm0 vm).
  - intros l. rewrite packages_of_set_cld. by destruct (decide _) as [<-|].
  - intros l. rewrite modules_of_set_cld. by destruct (decide _) as [<-|].
Qed.

Lemma ends_set_exported pp to_entry :
  registry_ok vm0 ->
  is_Some (package_entry_at vm0 pp) ->
  (forall q, to_entry = Some q -> valid_module vm0 q) ->
  ends_on vm0 (PackageEntry_set_exported (Some pp) to_entry) registry_ok.
Proof.
  intros Hok [e He] Hto vm S. unfold PackageEntry_set_exported, bind.
  rewrite deref_package_run, (package_entry_at_same vm0 vm), He by done.
  cbn [fst snd].
  apply (registry_ok_set_exported vm _ pp to_entry).
  - by apply (registry_ok_same vm0).
  - intros q Hq. by apply (valid_module_same vm0 vm), Hto.
  - intros l. rewrite modules_of_set_cld. by destruct (decide _) as [<-|].
  - intros l. rewrite packages_of_set_cld. by destruct (decide _) as [<-|].
Qed.

Lemma ends_add_package l name pm msg :
  registry_ok vm0 -> valid_module vm0 pm -> pm.1 = l ->
  ends_on vm0
    (let* found := lookup_package (Some l) name in
     let* pkg_exists :=
       match found with
       | None =>
           let* _pkg := PackageEntryTable_locked_create_entry_or_null
                          (Some l) name pm in
           ret false
       | Some _ => ret true
       end in
     if (pkg_exists : bool) then THROW_MSG msg else ret tt)
    registry_ok.
Proof.
  intros Hok Hpm Hl vm S. unfold bind, lookup_package.
  destruct (PackageEntryTable_lookup_only (packages_of vm l) name) as [pe|] eqn:E;
    cbn [fmap option_fmap option_map]; [done|].
  unfold PackageEntryTable_locked_create_entry_or_null. rewrite E. cbn [fst snd ret].
  apply (registry_ok_add_package vm _ l name pm).
  - by apply (registry_ok_same vm0).
  - by apply (valid_module_same vm0 vm).
  - done.
  - by apply package_lookup_only_absent.
  - intros l'. rewrite modules_of_set_cld. by destruct (decide _) as [<-|].
  - rewrite packages_of_set_cld. by rewrite decide_True.
  - intros l' Hne. rewrite packages_of_set_cld. by rewrite decide_False.
Qed.

End Safe.


Section SafeOperations.

Context `{host : Host}.

Lemma add_reads_module_ends vm0 from_module to_module :
  registry_ok vm0 -> is_module_handle from_module -> is_module_handle to_module ->
  ends_on vm0 (add_reads_module from_module to_module) registry_ok.
Proof.
  intros Hok Hf Ht. unfold add_reads_module.
  destruct from_module as [[mf| | |]|]; [|by destruct Hf..|apply ends_on_THROW_MSG].
  destruct to_module as [[mt| | |]|]; [|by destruct Ht..|apply ends_on_THROW_MSG].
  eapply ends_on_bind; [apply safe_get_module_entry|].
  intros [pf|] Hpf; [|apply ends_on_THROW_MSG]. specialize (Hpf _ eq_refl).
  eapply ends_on_bind; [apply safe_get_module_entry|].
  intros [pt|] Hpt; [|apply ends_on_THROW_MSG]. specialize (Hpt _ eq_refl).
  eapply ends_on_bind.
  { apply safe_trace_if. intros _.
    eapply safe_on_bind; [by apply safe_ModuleEntry_name|]. intros fn _.
    eapply safe_on_bind; [by apply safe_ModuleEntry_name|]. intros tn _.
    by apply safe_on_ret. }
  intros _ _. case_bool_decide; [by apply ends_add_read|].
  apply ends_on_ret. intros vm S. by apply (registry_ok_same vm0).
Qed.

Lemma add_module_exports_ends vm0 from_module package to_module :
  registry_ok vm0 -> is_module_handle from_module -> is_module_handle to_module ->
  ends_on vm0 (add_module_exports from_module package to_module) registry_ok.
Proof.
  intros Hok Hf Ht. unfold add_module_exports.
  destruct package as [package_str|]; [|apply ends_on_THROW_MSG].
  destruct from_module as [[mf| | |]|]; [|by destruct Hf..|apply ends_on_THROW_MSG].
  eapply ends_on_bind; [apply safe_get_module_entry|].
  intros [pf|] Hpf; [|apply ends_on_THROW_MSG]. specialize (Hpf _ eq_refl).
  eapply ends_on_bind; [by apply safe_resolve_to_module|].
  intros to_entry Hto.
  assert (Hto' : forall q, to_entry = Some q -> valid_module vm0 q).
  { intros q ->. destruct to_module; [|done]. by destruct Hto as (? & [= <-] & ?). }
  destruct (negb _).
  { eapply ends_on_bind; [by apply safe_ModuleEntry_name|].
    intros; apply ends_on_THROW_MSG. }
  eapply ends_on_bind; [by apply safe_get_package_entry|].
  intros [pp|] Hpp.
  2:{ eapply ends_on_bind; [by apply safe_ModuleEntry_name|].
      intros; apply ends_on_THROW_MSG. }
  specialize (Hpp _ eq_refl).
  eapply ends_on_bind; [by apply safe_PackageEntry_module|].
  intros owner Howner. case_bool_decide.
  { eapply ends_on_bind; [by apply safe_PackageEntry_name|]. intros ? _.
    eapply ends_on_bind; [by apply safe_ModuleEntry_name|]. intros ? _.
    eapply ends_on_bind; [by apply safe_ModuleEntry_name|]. intros ? _.
    apply ends_on_THROW_MSG. }
  eapply ends_on_bind.
  { apply safe_trace_if. intros _.
    eapply safe_on_bind; [by apply safe_PackageEntry_name|]. intros ? _.
    eapply safe_on_bind; [by apply safe_ModuleEntry_name|]. intros ? _.
    eapply safe_on_bind with (Q := fun _ => True).
    { destruct to_entry as [q|]; [|by apply safe_on_ret].
      by apply safe_ModuleEntry_name, Hto'. }
    intros ? _. by apply safe_on_ret. }
  intros _ _.
  eapply ends_on_bind with (Q := fun _ => True).
  { destruct to_entry; [by apply safe_PackageEntry_is_unqual_exported|].
    by apply safe_on_ret. }
  intros [|] _.
  { eapply ends_on_bind; [by apply safe_PackageEntry_name|]. intros ? _.
    eapply ends_on_bind; [by apply safe_ModuleEntry_name|]. intros ? _.
    apply ends_on_THROW_MSG. }
  case_bool_decide; [by apply ends_set_exported|].
  apply ends_on_ret. intros vm S. by apply (registry_ok_same vm0).
Qed.

Lemma add_module_package_ends vm0 module package :
  registry_ok vm0 -> is_module_handle module ->
  ends_on vm0 (add_module_package module package) registry_ok.
Proof.
  intros Hok Hm. unfold add_module_package, as_utf8_string.
  destruct module as [[m| | |]|]; [|by destruct Hm..|apply ends_on_THROW_MSG].
  destruct package as [package_str|]; [|apply ends_on_THROW_MSG].
  eapply ends_on_bind; [apply safe_get_module_entry|].
  intros [pm|] Hpm; [|apply ends_on_THROW_MSG]. specialize (Hpm _ eq_refl).
  destruct (negb _); [apply ends_on_THROW_MSG|].
  eapply ends_on_bind.
  { apply safe_trace_if. intros _.
    eapply safe_on_bind; [by apply safe_ModuleEntry_name|]. intros ? _.
    by apply safe_on_ret. }
  intros _ _.
  eapply ends_on_bind; [by apply safe_ModuleEntry_loader|].
  intros cld ->. by apply ends_add_package.
Qed.

Lemma can_read_module_safe vm0 asking_module target_module :
  is_module_handle asking_module -> is_module_handle target_module ->
  safe_on vm0 (can_read_module asking_module target_module) (fun _ => True).
Proof.
  intros Ha Ht. unfold can_read_module.
  destruct asking_module as [[ma| | |]|]; [|by destruct Ha..|apply safe_on_THROW_MSG].
  eapply safe_on_bind; [apply safe_get_module_entry|].
  intros [pa|] Hpa; [|apply safe_on_THROW_MSG]. specialize (Hpa _ eq_refl).
  destruct target_module as [[mt| | |]|]; [|by destruct Ht..|by apply safe_on_ret].
  eapply safe_on_bind; [apply safe_get_module_entry|].
  intros [pt|] Hpt; [|apply safe_on_THROW_MSG]. specialize (Hpt _ eq_refl).
  eapply safe_on_bind.
  { apply safe_trace_if. intros _.
    eapply safe_on_bind; [by apply safe_ModuleEntry_name|]. intros ? _.
    eapply safe_on_bind; [by apply safe_ModuleEntry_name|]. intros ? _.
    eapply safe_on_bind with (Q := fun _ => True).
    { case_bool_decide; [by apply safe_on_ret | by apply safe_ModuleEntry_can_read]. }
    intros ? _. by apply safe_on_ret. }
  intros _ _.
  case_bool_decide; [by apply safe_on_ret | by apply safe_ModuleEntry_can_read].
Qed.

Lemma is_exported_to_module_safe vm0 from_module package to_module :
  registry_ok vm0 -> is_module_handle from_module -> is_module_handle to_module ->
  TracePackages (flags vm0) = false \/ to_module <> None ->
  safe_on vm0 (is_exported_to_module from_module package to_module) (fun _ => True).
Proof.
  intros Hok Hf Ht Htrace. unfold is_exported_to_module.
  destruct package as [package_str|]; [|apply safe_on_THROW_MSG].
  destruct from_module as [[mf| | |]|]; [|by destruct Hf..|apply safe_on_THROW_MSG].
  eapply safe_on_bind; [apply safe_get_module_entry|].
  intros [pf|] Hpf; [|apply safe_on_THROW_MSG]. specialize (Hpf _ eq_refl).
  eapply safe_on_bind; [by apply safe_resolve_to_module|].
  intros to_entry Hto.
  destruct (negb _).
  { eapply safe_on_bind; [by apply safe_ModuleEntry_name|].
    intros; apply safe_on_THROW_MSG. }
  eapply safe_on_bind; [by apply safe_get_package_entry|].
  intros [pp|] Hpp.
  2:{ eapply safe_on_bind; [by apply safe_ModuleEntry_name|].
      intros; apply safe_on_THROW_MSG. }
  specialize (Hpp _ eq_refl).
  eapply safe_on_bind; [by apply safe_PackageEntry_module|].
  intros owner Howner. case_bool_decide.
  { eapply safe_on_bind; [by apply safe_PackageEntry_name|]. intros ? _.
    eapply safe_on_bind; [by apply safe_ModuleEntry_name|]. intros ? _.
    eapply safe_on_bind; [by apply safe_ModuleEntry_name|]. intros ? _.
    apply safe_on_THROW_MSG. }
  assert (Hq : forall b,
            safe_on vm0 (match to_module with
                         | None => ret b
                         | Some _ => PackageEntry_is_qexported_to (Some pp) to_entry
                         end) (fun _ => True)).
  { intros b. destruct to_module; [|by apply safe_on_ret].
    by apply safe_PackageEntry_is_qexported_to. }
  eapply safe_on_bind.
  { apply safe_trace_if. intros Hon.
    destruct Htrace as [Hoff|Hsome]; [congruence|].
    destruct to_module as [t|]; [|done]. destruct Hto as (q & -> & Hq').
    eapply safe_on_bind; [by apply safe_PackageEntry_name|]. intros ? _.
    eapply safe_on_bind; [by apply safe_ModuleEntry_name|]. intros ? _.
    eapply safe_on_bind; [by apply safe_ModuleEntry_name|]. intros ? _.
    eapply safe_on_bind; [by apply safe_PackageEntry_is_unqual_exported|].
    intros unqual _.
    eapply safe_on_bind with (Q := fun _ => True).
    { destruct unqual; [by apply safe_on_ret|].
      eapply safe_on_bind; [by apply safe_PackageEntry_is_qexported_to|].
      intros [|] _; by apply safe_on_ret. }
    intros ? _. by apply safe_on_ret. }
  intros _ _.
  eapply safe_on_bind; [by apply safe_PackageEntry_is_unqual_exported|].
  intros [|] _; [by apply safe_on_ret|].
  case_bool_decide; [by apply safe_on_ret | apply Hq].
Qed.

Lemma ends_on_registry_ok {A} vm (c : VMop A) :
  ends_on vm c registry_ok -> registry_ok vm ->
  (c vm).1 <> Fault /\ registry_ok (c vm).2.
Proof.
  intros He Hok. specialize (He vm (same_registry_refl vm)).
  destruct (c vm).1; [done| |done].
  split; [done | by apply (registry_ok_same vm)].
Qed.

(** X16.  On a well-formed registry, with handles that are null or module
    objects, the three mutators of an existing module follow no pointer that
    leads nowhere, so they do not fault, and they leave the registry well
    formed, whether they return or raise an exception: names stay unique in
    each table, every package belongs to a module of its loader that is
    there, and every module read or exported to is there. *)
Theorem mutators_keep_the_registry_well_formed vm from to package module :
  registry_ok vm ->
  is_module_handle from -> is_module_handle to -> is_module_handle module ->
  let r := add_reads_module from to vm in
  let x := add_module_exports from package to vm in
  let p := add_module_package module package vm in
  (r.1 <> Fault /\ registry_ok r.2)
  /\ (x.1 <> Fault /\ registry_ok x.2)
  /\ (p.1 <> Fault /\ registry_ok p.2).
Proof.
  intros Hok Hf Ht Hm. cbv zeta.
  split; [apply ends_on_registry_ok; [by apply add_reads_module_ends | done]|].
  split; [apply ends_on_registry_ok; [by apply add_module_exports_ends | done]|].
  apply ends_on_registry_ok; [by apply add_module_package_ends | done].
Qed.

Lemma registry_ok_define_module vm name loader packages :
  registry_ok vm -> registry_ok (define_module name loader packages vm).2.
Proof.
  intros Hok.
  destruct (define_module name loader packages vm).1 as [r|msg|] eqn:E.
  - destruct (define_module_normal_effect vm name loader packages r E)
      as (module_name & h_loader & pkgs & id & _ & _ & Hnd & _ & Hfirst & Hfree
          & _ & Hm & Hp & Ho).
    by eapply registry_ok_define.
  - apply (registry_ok_same vm); [|done].
    by eapply define_module_atomic.
  - by destruct (define_module_no_fault name loader packages vm).
Qed.


(** X18.  [can_read_module] does not fault on handles that are null or module
    objects, whatever the registry: the two entries it reads are those that
    the lookups have just returned. *)
Theorem can_read_module_does_not_fault vm asking target :
  is_module_handle asking -> is_module_handle target ->
  (can_read_module asking target vm).1 <> Fault.
Proof.
  intros Ha Ht.
  by destruct (can_read_module_safe vm asking target Ha Ht vm (same_registry_refl vm)).
Qed.

(** X19.  On a well-formed registry, with handles that are null or module
    objects, [is_exported_to_module] does not fault unless packages are
    traced and the target is null: the owner of the package, whose name the
    exception of a package of another module prints, is there. *)
Theorem is_exported_to_module_does_not_fault vm from package to :
  registry_ok vm ->
  is_module_handle from -> is_module_handle to ->
  TracePackages (flags vm) = false \/ to <> None ->
  (is_exported_to_module from package to vm).1 <> Fault.
Proof.
  intros Hok Hf Ht Htrace.
  by destruct (is_exported_to_module_safe vm from package to Hok Hf Ht Htrace
                 vm (same_registry_refl vm)).
Qed.

End SafeOperations.


(** ** A package added to a module *)

Section AddPackageMore.

Context `{host : Host}.

(** The run of [add_module_package] on a module of the registry and a legal
    name. *)
Lemma add_module_package_run vm (M : oop) name pm em :
  module_of vm (Some M) = Normal (Some pm) ->
  module_entry_at vm pm = Some em ->
  verify_package_name (Some name) = true ->
  let l := me_loader em in
  exists vm',
    add_module_package (Some M) (Some name) vm
    = (if bool_decide (name ∈ map pe_name (packages_of vm l))
       then IllegalArgumentException
              (err_msg ("Package " +:+ name +:+ " already exists for class loader"))
       else Normal tt, vm')
    /\ (forall l', modules_of vm' l' = modules_of vm l')
    /\ (forall l', packages_of vm' l'
                   = if bool_decide ((name ∉ map pe_name (packages_of vm l)) /\ l' = l)
                     then mk_PackageEntry name pm ∅ false :: packages_of vm l'
                     else packages_of vm l').
Proof.
  intros Hm Hem Hv. cbv zeta.
  unfold add_module_package, bind, as_utf8_string.
  destruct (get_module_entry_run (Some M) vm) as (vm1 & -> & S1).
  rewrite Hm, Hv. unfold negb. cbv beta iota.
  edestruct trace_if_run with
    (vm := vm1) (flag := TraceModules)
    (s := "[add_module_package(): Adding package " +:+ name
          +:+ " to module " +:+ me_name em +:+ "]")
    as (vm2 & -> & S2).
  { intros vm0 S0. unfold bind.
    assert (S' : same_registry vm vm0) by (by eapply same_registry_trans).
    by rewrite (ModuleEntry_name_run _ em)
      by (by rewrite (module_entry_at_same vm vm0)). }
  assert (S12 : same_registry vm vm2) by (by eapply same_registry_trans).
  rewrite (ModuleEntry_loader_run _ em)
    by (by rewrite (module_entry_at_same vm vm2)).
  unfold lookup_package, PackageEntryTable_locked_create_entry_or_null.
  cbv beta iota. rewrite !(packages_of_same vm vm2) by done.
  case_bool_decide as Hin.
  - destruct (package_lookup_only_present _ _ Hin) as [pe ->].
    cbn [fmap option_fmap option_map fst snd].
    eexists. split; [reflexivity|].
    split; [intros l'; by rewrite (modules_of_same vm vm2)|].
    intros l'. rewrite bool_decide_eq_false_2 by (by intros [? _]).
    by rewrite (packages_of_same vm vm2).
  - apply package_lookup_only_absent in Hin as Habs. rewrite Habs.
    cbn [fmap option_fmap option_map].
    rewrite !(packages_of_same vm vm2), Habs by done.
    cbn [fst snd ret].
    eexists. split; [reflexivity|]. split.
    + intros l'. rewrite modules_of_set_cld.
      destruct (decide (me_loader em = l')) as [<-|]; cbn [modules];
        by rewrite (modules_of_same vm vm2).
    + intros l'. rewrite packages_of_set_cld.
      destruct (decide (me_loader em = l')) as [<-|Hne].
      * by rewrite bool_decide_eq_true_2 by done.
      * rewrite bool_decide_eq_false_2 by (intros [_ ?]; by destruct Hne).
        by rewrite (packages_of_same vm vm2).
Qed.

(** What a normal return of [add_module_package] tells. *)
Lemma add_module_package_normal vm module package r :
  (add_module_package module package vm).1 = Normal r ->
  exists (M : oop) name pm em,
    module = Some M /\ package = Some name
    /\ module_of vm (Some M) = Normal (Some pm)
    /\ module_entry_at vm pm = Some em
    /\ verify_package_name (Some name) = true
    /\ name ∉ map pe_name (packages_of vm (me_loader em)).
Proof.
  destruct module as [M|]; [|done]. destruct package as [name|]; [|done].
  destruct (module_of vm (Some M)) as [[pm|]| |] eqn:Hm.
  - destruct (module_of_deref _ _ _ Hm) as [em Hem].
    destruct (verify_package_name (Some name)) eqn:Hv.
    + destruct (add_module_package_run vm M name pm em Hm Hem Hv) as (vm' & -> & _).
      cbn [fst]. case_bool_decide; [done|]. intros _.
      by exists M, name, pm, em.
    + unfold add_module_package, bind, as_utf8_string.
      destruct (get_module_entry_run (Some M) vm) as (vm1 & -> & S1).
      by rewrite Hm, Hv.
  - unfold add_module_package, bind.
    destruct (get_module_entry_run (Some M) vm) as (vm1 & -> & S1). by rewrite Hm.
  - unfold add_module_package, bind.
    destruct (get_module_entry_run (Some M) vm) as (vm1 & -> & S1). by rewrite Hm.
  - unfold add_module_package, bind.
    destruct (get_module_entry_run (Some M) vm) as (vm1 & -> & S1). by rewrite Hm.
Qed.

(** X20.  A package that [add_module_package] has added can be asked about at
    once: it is found in the loader of the module, it belongs to the module,
    it is exported to the module itself and to nobody else yet, and the same
    call once more raises the exception of the package that already exists. *)
Theorem add_module_package_then_queries vm module package r :
  (add_module_package module package vm).1 = Normal r ->
  let vm' := (add_module_package module package vm).2 in
  exists (M : oop) name pm pp,
    module = Some M /\ package = Some name
    /\ (get_module_entry (Some M) vm').1 = Normal (Some pm)
    /\ (get_package_entry (Some pm) (Some name) vm').1 = Normal (Some pp)
    /\ owner_of vm' pp = Some pm
    /\ exports_of vm' pp = ∅
    /\ unqual_of vm' pp = false
    /\ (is_exported_to_module (Some M) (Some name) (Some M) vm').1 = Normal true
    /\ (add_module_package module package vm').1
       = IllegalArgumentException
           (err_msg ("Package " +:+ name +:+ " already exists for class loader")).
Proof.
  intros H. cbv zeta.
  destruct (add_module_package_normal vm module package r H)
    as (M & name & pm & em & -> & -> & Hm & Hem & Hv & Hfree).
  destruct (add_module_package_run vm M name pm em Hm Hem Hv) as (vm' & E & Hmod & Hpkg).
  rewrite E. cbn [snd]. clear E H.
  set (l := me_loader em) in *.
  set (new := mk_PackageEntry name pm ∅ false).
  assert (Hm' : module_of vm' (Some M) = Normal (Some pm))
    by (by rewrite (module_of_ext vm vm')).
  assert (Hem' : module_entry_at vm' pm = Some em)
    by (by rewrite (module_entry_at_ext vm vm')).
  assert (Hl : packages_of vm' l = new :: packages_of vm l).
  { rewrite Hpkg. by rewrite bool_decide_eq_true_2. }
  assert (Hlk : PackageEntryTable_lookup_only (packages_of vm' l) name = Some new).
  { rewrite Hl. unfold PackageEntryTable_lookup_only. cbn [find pe_name new].
    by rewrite bool_decide_eq_true_2. }
  assert (Hpo : package_of vm' pm name = Normal (Some (l, name))).
  { unfold package_of. rewrite Hem'. fold l. by rewrite Hlk. }
  assert (Hpe : package_entry_at vm' (l, name) = Some new) by done.
  exists M, name, pm, (l, name).
  split; [done|]. split; [done|].
  split; [by rewrite get_module_entry_outcome|].
  split; [by rewrite get_package_entry_run|].
  split; [unfold owner_of; by rewrite Hpe|].
  split; [unfold exports_of; by rewrite Hpe|].
  split; [unfold unqual_of; by rewrite Hpe|].
  split.
  - destruct (is_exported_to_module_run vm' M name (Some M) "to_module is invalid"
                pm (Some pm) (l, name) new) as (vm2 & -> & _); try done.
    { unfold target_of. by rewrite Hm'. }
    rewrite bool_decide_eq_false_2, andb_false_r by done. cbn [fst].
    unfold exported_to. cbn [pe_unqual_exported new].
    by rewrite bool_decide_eq_true_2.
  - destruct (add_module_package_run vm' M name pm em Hm' Hem' Hv) as (vm2 & -> & _).
    cbn [fst]. fold l. rewrite Hl. cbn [map pe_name new].
    by rewrite bool_decide_eq_true_2 by left.
Qed.

End AddPackageMore.


(** ** The length of a name *)

Section Names.

Context `{host : Host}.

(** The conversion of line 45 keeps a length below 2^31. *)
Lemma int_strlen_small s :
  (Z.of_nat (String.length s) < 2 ^ 31)%Z -> int_strlen s = Z.of_nat (String.length s).
Proof. intros H. unfold int_strlen. rewrite Z.mod_small; lia. Qed.

(** At 2^31 bytes the converted length is negative, and passes the test
    against the bound. *)
Lemma int_strlen_wraps s :
  Z.of_nat (String.length s) = (2 ^ 31)%Z -> int_strlen s = (- 2 ^ 31)%Z.
Proof. intros H. unfold int_strlen. by rewrite H. Qed.

(** X21.  A name longer than a symbol can be, and of less than 2^31 bytes, so
    that the conversion of its length to [int] keeps it, is refused before
    anything else is looked at: [define_module] raises the exception of the
    invalid module name whatever the loader and the packages, and the
    registry is as before. *)
Theorem define_module_name_too_long vm module_name loader packages :
  Symbol_max_length < String.length module_name ->
  (Z.of_nat (String.length module_name) < 2 ^ 31)%Z ->
  let r := define_module (Some module_name) loader packages vm in
  r.1 = IllegalArgumentException (err_msg ("Invalid module name: " +:+ module_name))
  /\ same_registry vm r.2.
Proof.
  intros Hlen Hint. cbv zeta.
  assert (exists vm1,
            define_module (Some module_name) loader packages vm
            = (IllegalArgumentException
                 (err_msg ("Invalid module name: " +:+ module_name)), vm1)
            /\ same_registry vm vm1) as (vm1 & -> & S1); [|done].
  unfold define_module, as_utf8_string. unfold bind at 1.
  edestruct trace_ret_run as (vm1 & -> & S1).
  unfold verify_module_name. rewrite int_strlen_small by done.
  rewrite bool_decide_eq_false_2 by lia.
  cbn [andb negb]. by exists vm1.
Qed.

End Names.


(** ** The properties above, on the registries of the scenario *)

Section MoreOnScenario.

Import Scenario.

#[local] Existing Instance permissive_host.

Lemma registry_ok_one_module : registry_ok (one_module quiet).
Proof. apply registry_ok_define_module, registry_ok_empty. reflexivity. Qed.

Lemma registry_ok_two_modules : registry_ok (two_modules quiet).
Proof. apply registry_ok_define_module, registry_ok_one_module. Qed.

Lemma can_read_module_normal_return_witness :
  let vm := m1_reads_m2 quiet in
  (can_read_module (Some m1) (Some m2) vm).1 = Normal true
  /\ exists pa,
       (get_module_entry (Some m1) vm).1 = Normal (Some pa)
       /\ exists pt,
            (get_module_entry (Some m2) vm).1 = Normal (Some pt)
            /\ true = bool_decide (pa = pt \/ pt ∈ reads_of vm pa).
Proof.
  split; [vm_compute; reflexivity|].
  apply (can_read_module_normal_return (m1_reads_m2 quiet) (Some m1) (Some m2) true).
  vm_compute; reflexivity.
Defined.

Lemma is_exported_to_module_normal_return_witness :
  let vm := one_module quiet in
  (is_exported_to_module (Some m1) (Some "p.a") (Some m1) vm).1 = Normal true
  /\ exists name pf to_entry pp pe,
       Some "p.a" = Some name
       /\ (get_module_entry (Some m1) vm).1 = Normal (Some pf)
       /\ (resolve_to_module (Some m1) "to_module is invalid" vm).1 = Normal to_entry
       /\ verify_package_name_jstring name = true
       /\ (get_package_entry (Some pf) (Some "p.a") vm).1 = Normal (Some pp)
       /\ package_entry_at vm pp = Some pe
       /\ pe_module pe = pf
       /\ (TracePackages (flags vm) = false \/ Some m1 <> None)
       /\ true = exported_to pe pf (Some m1) to_entry.
Proof.
  split; [vm_compute; reflexivity|].
  apply (is_exported_to_module_normal_return (one_module quiet) (Some m1)
           (Some "p.a") (Some m1) true).
  vm_compute; reflexivity.
Defined.

Lemma add_reads_module_adds_one_read_witness :
  let vm := two_modules quiet in
  let pa : ModuleEntryPtr := (Some 1, "m1") in
  let pb : ModuleEntryPtr := (Some 1, "m2") in
  let r := add_reads_module (Some m1) (Some m2) vm in
  ((get_module_entry (Some m1) vm).1 = Normal (Some pa)
   /\ (get_module_entry (Some m2) vm).1 = Normal (Some pb)
   /\ pa <> pb)
  /\ (r.1 = Normal tt
      /\ reads_of r.2 pa = {[ pb ]} ∪ reads_of vm pa
      /\ (forall p, p <> pa -> reads_of r.2 p = reads_of vm p)
      /\ (forall l, packages_of r.2 l = packages_of vm l)
      /\ (forall module, (get_module_entry module r.2).1 = (get_module_entry module vm).1)
      /\ (can_read_module (Some m1) (Some m2) r.2).1 = Normal true
      /\ (can_read_module (Some m2) (Some m1) r.2).1
         = (can_read_module (Some m2) (Some m1) vm).1).
Proof.
  split; [split; [vm_compute; reflexivity | split; [vm_compute; reflexivity | done]]|].
  apply (add_reads_module_adds_one_read (two_modules quiet) m1 m2
           (Some 1, "m1") (Some 1, "m2"));
    [vm_compute; reflexivity | vm_compute; reflexivity | done].
Defined.

Lemma add_module_exports_adds_one_target_witness :
  let vm := two_modules quiet in
  let pf : ModuleEntryPtr := (Some 1, "m1") in
  let pt : ModuleEntryPtr := (Some 1, "m2") in
  let pp : PackageEntryPtr := (Some 1, "p.a") in
  let r := add_module_exports (Some m1) (Some "p.a") (Some m2) vm in
  ((get_module_entry (Some m1) vm).1 = Normal (Some pf)
   /\ (get_module_entry (Some m2) vm).1 = Normal (Some pt)
   /\ pf <> pt
   /\ verify_package_name_jstring "p.a" = true
   /\ (get_package_entry (Some pf) (Some "p.a") vm).1 = Normal (Some pp)
   /\ owner_of vm pp = Some pf
   /\ unqual_of vm pp = false)
  /\ (r.1 = Normal tt
      /\ exports_of r.2 pp = {[ Some pt ]} ∪ exports_of vm pp
      /\ owner_of r.2 pp = Some pf
      /\ unqual_of r.2 pp = false
      /\ (forall q, q <> pp -> package_entry_at r.2 q = package_entry_at vm q)
      /\ (forall l, modules_of r.2 l = modules_of vm l)
      /\ (is_exported_to_module (Some m1) (Some "p.a") (Some m2) r.2).1 = Normal true).
Proof.
  assert (Hne : ((Some 1, "m1") : ModuleEntryPtr) <> (Some 1, "m2")) by done.
  split; [repeat split; try exact Hne; vm_compute; reflexivity|].
  apply (add_module_exports_adds_one_target (two_modules quiet) m1 m2 "p.a"
           (Some 1, "m1") (Some 1, "m2") (Some 1, "p.a"));
    try exact Hne; vm_compute; reflexivity.
Defined.

Lemma add_module_exports_refuses_qualified_witness :
  let vm := unqualified_export quiet in
  let pf : ModuleEntryPtr := (Some 1, "m1") in
  let pp : PackageEntryPtr := (Some 1, "p") in
  let pe := mk_PackageEntry "p" (Some 1, "m1") ∅ true in
  let ef := mk_ModuleEntry "m1" (mk_jlrModule 0 (Some 1) "m1") (Some 1) ∅ in
  let r := add_module_exports (Some m1) (Some "p") (Some m1) vm in
  ((get_module_entry (Some m1) vm).1 = Normal (Some pf)
   /\ verify_package_name_jstring "p" = true
   /\ (get_package_entry (Some pf) (Some "p") vm).1 = Normal (Some pp)
   /\ package_entry_at vm pp = Some pe
   /\ module_entry_at vm pf = Some ef
   /\ pe_module pe = pf
   /\ pe_unqual_exported pe = true)
  /\ (r.1 = IllegalArgumentException
              (err_msg ("Bad qualifed export, package " +:+ pe_name pe
                        +:+ " in module " +:+ me_name ef
                        +:+ " is already unqualifically exported"))
      /\ same_tables vm r.2).
Proof.
  split; [repeat split; vm_compute; reflexivity|].
  apply (add_module_exports_refuses_qualified (unqualified_export quiet) m1 m1 "p"
           (Some 1, "m1") (Some 1, "m1") (Some 1, "p")
           (mk_PackageEntry "p" (Some 1, "m1") ∅ true)
           (mk_ModuleEntry "m1" (mk_jlrModule 0 (Some 1) "m1") (Some 1) ∅));
    vm_compute; reflexivity.
Defined.

Lemma package_of_another_module_witness :
  let vm := two_modules quiet in
  let pf : ModuleEntryPtr := (Some 1, "m2") in
  let pp : PackageEntryPtr := (Some 1, "p.a") in
  let pe := mk_PackageEntry "p.a" (Some 1, "m1") ∅ false in
  let ef := mk_ModuleEntry "m2" (mk_jlrModule 1 (Some 1) "m2") (Some 1) ∅ in
  let eo := mk_ModuleEntry "m1" (mk_jlrModule 0 (Some 1) "m1") (Some 1) ∅ in
  let msg := err_msg ("Package: " +:+ pe_name pe +:+ " found in module "
                      +:+ me_name eo +:+ ", not in from_module: " +:+ me_name ef) in
  let x := add_module_exports (Some m2) (Some "p.a") None vm in
  let q := is_exported_to_module (Some m2) (Some "p.a") None vm in
  ((get_module_entry (Some m2) vm).1 = Normal (Some pf)
   /\ (resolve_to_module None "to_module is invalid" vm).1 = Normal None
   /\ verify_package_name_jstring "p.a" = true
   /\ (get_package_entry (Some pf) (Some "p.a") vm).1 = Normal (Some pp)
   /\ package_entry_at vm pp = Some pe
   /\ module_entry_at vm pf = Some ef
   /\ pe_module pe <> pf
   /\ module_entry_at vm (pe_module pe) = Some eo)
  /\ ((x.1 = IllegalArgumentException msg /\ same_tables vm x.2)
      /\ (q.1 = IllegalArgumentException msg /\ same_tables vm q.2)).
Proof.
  assert (Hne : ((Some 1, "m1") : ModuleEntryPtr) <> (Some 1, "m2")) by done.
  split; [repeat split; try exact Hne; vm_compute; reflexivity|].
  apply (package_of_another_module (two_modules quiet) m2 "p.a" None None
           (Some 1, "m2") (Some 1, "p.a")
           (mk_PackageEntry "p.a" (Some 1, "m1") ∅ false)
           (mk_ModuleEntry "m2" (mk_jlrModule 1 (Some 1) "m2") (Some 1) ∅)
           (mk_ModuleEntry "m1" (mk_jlrModule 0 (Some 1) "m1") (Some 1) ∅));
    try exact Hne; vm_compute; reflexivity.
Defined.

Lemma define_module_normal_return_witness :
  let vm := initial quiet in
  let packages := Some [Some (String_oop "p.a")] in
  (define_module (Some "m1") loader1 packages vm).1 = Normal (Some m1)
  /\ exists module_name h_loader (pkgs : list Symbol) id,
       Some "m1" = Some module_name
       /\ verify_module_name (Some module_name) = true
       /\ module_name <> java_base
       /\ elements_of packages = strings_of pkgs
       /\ NoDup pkgs
       /\ Forall (fun s => verify_package_name (Some s) = true) pkgs
       /\ resolve_class_loader loader1 = Some h_loader
       /\ first_existing vm h_loader pkgs = None
       /\ ModuleEntryTable_lookup_only (modules_of vm h_loader) module_name = None
       /\ Some m1 = Some (Module_oop (mk_jlrModule id h_loader module_name)).
Proof.
  split; [vm_compute; reflexivity|].
  apply (define_module_normal_return (initial quiet) (Some "m1") loader1
           (Some [Some (String_oop "p.a")]) (Some m1)).
  vm_compute; reflexivity.
Defined.


Lemma define_module_once_witness :
  let vm := initial quiet in
  let packages := Some [Some (String_oop "p.a")] in
  let vm' := (define_module (Some "m1") loader1 packages vm).2 in
  (define_module (Some "m1") loader1 packages vm).1 = Normal (Some m1)
  /\ ((forall packages' r',
         (define_module (Some "m1") loader1 packages' vm').1 <> Normal r')
      /\ (forall pkgs' : list Symbol,
            NoDup pkgs' ->
            Forall (fun s => verify_package_name (Some s) = true) pkgs' ->
            exists module_name,
              Some "m1" = Some module_name
              /\ (define_module (Some "m1") loader1 (Some (strings_of pkgs')) vm').1
                 = IllegalArgumentException
                     (err_msg ("Module " +:+ module_name +:+ " is already defined")))).
Proof.
  split; [vm_compute; reflexivity|].
  apply (define_module_once (initial quiet) (Some "m1") loader1
           (Some [Some (String_oop "p.a")]) (Some m1)).
  vm_compute; reflexivity.
Defined.


Lemma mutators_keep_the_registry_well_formed_witness :
  let vm := two_modules quiet in
  let r := add_reads_module (Some m1) (Some m2) vm in
  let x := add_module_exports (Some m1) (Some "p.a") (Some m2) vm in
  let p := add_module_package (Some m2) (Some "p.a") vm in
  (registry_ok vm
   /\ is_module_handle (Some m1) /\ is_module_handle (Some m2))
  /\ ((r.1 <> Fault /\ registry_ok r.2)
      /\ (x.1 <> Fault /\ registry_ok x.2)
      /\ (p.1 <> Fault /\ registry_ok p.2)).
Proof.
  split; [split; [apply registry_ok_two_modules | split; exact I]|].
  apply (mutators_keep_the_registry_well_formed (two_modules quiet)
           (Some m1) (Some m2) (Some "p.a") (Some m2));
    [apply registry_ok_two_modules | exact I..].
Defined.


Lemma can_read_module_does_not_fault_witness :
  (is_module_handle (Some m1) /\ is_module_handle None)
  /\ (can_read_module (Some m1) None (one_module quiet)).1 <> Fault.
Proof.
  split; [split; exact I|].
  apply (can_read_module_does_not_fault (one_module quiet) (Some m1) None); exact I.
Defined.

Lemma is_exported_to_module_does_not_fault_witness :
  let vm := two_modules quiet in
  (registry_ok vm
   /\ is_module_handle (Some m2) /\ is_module_handle None
   /\ (TracePackages (flags vm) = false \/ (None : jobject) <> None))
  /\ (is_exported_to_module (Some m2) (Some "p.a") None vm).1 <> Fault.
Proof.
  assert (Hoff : TracePackages (flags (two_modules quiet)) = false
                 \/ (None : jobject) <> None)
    by (left; vm_compute; reflexivity).
  split; [split; [apply registry_ok_two_modules | split; [exact I | split; [exact I | exact Hoff]]]|].
  apply (is_exported_to_module_does_not_fault (two_modules quiet)
           (Some m2) (Some "p.a") None);
    [apply registry_ok_two_modules | exact I | exact I | exact Hoff].
Defined.

Lemma add_module_package_then_queries_witness :
  let vm := one_module quiet in
  let vm' := (add_module_package (Some m1) (Some "p.b") vm).2 in
  (add_module_package (Some m1) (Some "p.b") vm).1 = Normal tt
  /\ exists (M : oop) name pm pp,
       Some m1 = Some M /\ Some "p.b" = Some name
       /\ (get_module_entry (Some M) vm').1 = Normal (Some pm)
       /\ (get_package_entry (Some pm) (Some name) vm').1 = Normal (Some pp)
       /\ owner_of vm' pp = Some pm
       /\ exports_of vm' pp = ∅
       /\ unqual_of vm' pp = false
       /\ (is_exported_to_module (Some M) (Some name) (Some M) vm').1 = Normal true
       /\ (add_module_package (Some m1) (Some "p.b") vm').1
          = IllegalArgumentException
              (err_msg ("Package " +:+ name +:+ " already exists for class loader")).
Proof.
  split; [vm_compute; reflexivity|].
  apply (add_module_package_then_queries (one_module quiet) (Some m1) (Some "p.b") tt).
  vm_compute; reflexivity.
Defined.

Lemma define_module_name_too_long_witness :
  let r := define_module (Some long_name) loader1 None (initial quiet) in
  (Symbol_max_length < String.length long_name
   /\ (Z.of_nat (String.length long_name) < 2 ^ 31)%Z)
  /\ (r.1 = IllegalArgumentException (err_msg ("Invalid module name: " +:+ long_name))
      /\ same_registry (initial quiet) r.2).
Proof.
  assert (Hlen : Symbol_max_length < String.length long_name)
    by (vm_compute; lia).
  assert (Hint : (Z.of_nat (String.length long_name) < 2 ^ 31)%Z)
    by (vm_compute; reflexivity).
  split; [by split|].
  apply (define_module_name_too_long (initial quiet) long_name loader1 None Hlen Hint).
Defined.

End MoreOnScenario.
